(** * ISO 14443 Type B engine (armsrc/iso14443b.c): model and properties

    A shallow embedding of the framing codec, the two software decoders,
    the reader receive loop, the reader protocol functions and the
    transition function of the simulated tag of [armsrc/iso14443b.c].

    Conventions.
    - C integers are [Z].  Fields of type [uint16_t] and [uint8_t] are
      reduced with [u16] and [u8] where the C code assigns to them; [int]
      fields are left unreduced (their values stay far below 2^31).
    - A byte buffer reached through a pointer ([Uart.output],
      [Demod.output]) is the history of the stores made through that
      pointer, most recent first, as pairs (index, value).  The decoders
      store without looking at the size of the array behind the pointer,
      so the history keeps the index of every store; [buf_get] reads a
      cell back.  The array has the size its owner declared, and
      [buf_within size b] tells whether every store of [b] hit one of its
      cells.  A store outside the array has no defined behaviour in C: the
      functions that own an array (the callers of Get14443bAnswerFromTag
      through [receive_answer], the sniffer in [sniff_pair]) give no
      result for a run in which that happens.
    - Hardware effects with no influence on a modelled value (LEDs,
      watchdog, FPGA mode words, SSP clock arithmetic, trace logging) are
      left out. *)

From Stdlib Require Import ZArith List Bool Lia.
Import ListNotations.
Open Scope Z_scope.

(** ** Machine integers *)

Definition u8 (x : Z) : Z := x mod 256.
Definition u16 (x : Z) : Z := x mod 65536.

(** Truth value of a C integer used as a condition. *)
Definition c_true (x : Z) : bool := negb (x =? 0).

(** ** Buffers reached through a pointer *)

Definition buffer := list (Z * Z).

(** [p[i] = v] *)
Definition buf_store (i v : Z) (b : buffer) : buffer := (i, v) :: b.

(** [p[i]], for an array whose cells were [dflt] before the stores. *)
Fixpoint buf_get (dflt : Z) (b : buffer) (i : Z) : Z :=
  match b with
  | [] => dflt
  | (j, v) :: r => if j =? i then v else buf_get dflt r i
  end.

(** The first [n] cells of the array. *)
Definition buf_bytes (dflt : Z) (b : buffer) (n : nat) : list Z :=
  map (fun k => buf_get dflt b (Z.of_nat k)) (seq 0 n).

(** Every store of the history went to one of the cells 0 .. [size] - 1,
    the cells of an array declared with [size] elements. *)
Definition buf_within (size : Z) (b : buffer) : bool :=
  forallb (fun c => (0 <=? fst c) && (fst c <? size)) b.

(** ** The stuffbit buffer ToSend *)

Module ToSend.
Record t := mk { max : Z; bit : Z; buf : list Z }.
End ToSend.

(** [a[i] = f (a[i])] on the list of the cells 0 .. of an array. *)
Fixpoint array_update (i : nat) (f : Z -> Z) (a : list Z) : list Z :=
  match a, i with
  | [], _ => []
  | x :: r, O => f x :: r
  | x :: r, S j => x :: array_update j f r
  end.

(** Modelled from the spec: [tosend_reset], [tosend_stuffbit] and the type
    [tosend_t] behind [get_tosend] are declared outside this file.  The
    buffer is an ordered byte sequence with a cursor [max] on the last byte
    written; each byte carries eight symbols, most significant bit first,
    and a stuffbit writes one symbol.  [buf] lists the bytes 0 .. [max]. *)
Definition tosend_reset : ToSend.t :=
  {| ToSend.max := -1; ToSend.bit := 8; ToSend.buf := [] |}.

(** Modelled from the spec: [tosend_stuffbit(b)] writes one symbol, in a
    new byte when the last one is full, from bit 7 down. *)
Definition tosend_stuffbit (b : Z) (ts : ToSend.t) : ToSend.t :=
  let ts1 :=
    if ToSend.bit ts >=? 8
    then {| ToSend.max := ToSend.max ts + 1; ToSend.bit := 0;
            ToSend.buf := ToSend.buf ts ++ [0] |}
    else ts in
  let buf1 :=
    if c_true b
    then array_update (Z.to_nat (ToSend.max ts1))
           (fun x => Z.lor x (Z.shiftl 1 (7 - ToSend.bit ts1)))
           (ToSend.buf ts1)
    else ToSend.buf ts1 in
  {| ToSend.max := ToSend.max ts1; ToSend.bit := ToSend.bit ts1 + 1;
     ToSend.buf := buf1 |}.

(** [n] times [tosend_stuffbit(b)]. *)
Fixpoint stuffbits (n : nat) (b : Z) (ts : ToSend.t) : ToSend.t :=
  match n with
  | O => ts
  | S k => stuffbits k b (tosend_stuffbit b ts)
  end.

(** ** CodeIso14443bAsReader *)

(** Body of the loop over the octets of the command. *)
Definition code_reader_octet (ts : ToSend.t) (b : Z) : ToSend.t :=
  (* Start bit *)
  let ts := tosend_stuffbit 0 ts in
  (* Data bits *)
  let ts := tosend_stuffbit (Z.land b 1) ts in
  let ts := tosend_stuffbit (Z.land (Z.shiftr b 1) 1) ts in
  let ts := tosend_stuffbit (Z.land (Z.shiftr b 2) 1) ts in
  let ts := tosend_stuffbit (Z.land (Z.shiftr b 3) 1) ts in
  let ts := tosend_stuffbit (Z.land (Z.shiftr b 4) 1) ts in
  let ts := tosend_stuffbit (Z.land (Z.shiftr b 5) 1) ts in
  let ts := tosend_stuffbit (Z.land (Z.shiftr b 6) 1) ts in
  let ts := tosend_stuffbit (Z.land (Z.shiftr b 7) 1) ts in
  (* Stop bit *)
  tosend_stuffbit 1 ts.

Definition CodeIso14443bAsReader (cmd : list Z) : ToSend.t :=
  let ts := tosend_reset in
  (* Send SOF: 10 ETUs of ZERO, 2 ETUs of ONE *)
  let ts := stuffbits 10 0 ts in
  let ts := tosend_stuffbit 1 ts in
  let ts := tosend_stuffbit 1 ts in
  (* Sending cmd, LSB *)
  let ts := fold_left code_reader_octet cmd ts in
  (* Send EOF: 10 ETUs of ZERO *)
  let ts := stuffbits 10 0 ts in
  (* ensure that last byte is filled up *)
  let ts := stuffbits 8 1 ts in
  (* Convert from last character reference to length *)
  {| ToSend.max := ToSend.max ts + 1; ToSend.bit := ToSend.bit ts;
     ToSend.buf := ToSend.buf ts |}.

(** The symbols TransmitFor14443b_AsReader puts on the air for one byte of
    ToSend: bit 7 first, the byte shifted left after each symbol. *)
Fixpoint byte_symbols (n : nat) (data : Z) : list bool :=
  match n with
  | O => []
  | S k => c_true (Z.land data 128) :: byte_symbols k (u8 (Z.shiftl data 1))
  end.

(** The stuffbits of ToSend in transmission order: the loops
    [for (c = 0; c < ts->max; c++)] and [for (i = 0; i < 8; i++)] of
    TransmitFor14443b_AsReader. *)
Definition tosend_symbols (ts : ToSend.t) : list bool :=
  flat_map (byte_symbols 8) (firstn (Z.to_nat (ToSend.max ts)) (ToSend.buf ts)).

(** ** The software UART of the simulated tag *)

Inductive uart_state :=
| STATE_14B_UNSYNCD
| STATE_14B_GOT_FALLING_EDGE_OF_SOF
| STATE_14B_AWAITING_START_BIT
| STATE_14B_RECEIVING_DATA.

Module Uart.
Record t := mk {
  state : uart_state;
  shiftReg : Z;
  bitCnt : Z;
  byteCnt : Z;
  byteCntMax : Z;
  posCnt : Z;
  output : buffer
}.

Definition set_state (s : uart_state) (u : t) : t :=
  mk s (shiftReg u) (bitCnt u) (byteCnt u) (byteCntMax u) (posCnt u) (output u).
Definition set_shiftReg (x : Z) (u : t) : t :=
  mk (state u) x (bitCnt u) (byteCnt u) (byteCntMax u) (posCnt u) (output u).
Definition set_bitCnt (x : Z) (u : t) : t :=
  mk (state u) (shiftReg u) x (byteCnt u) (byteCntMax u) (posCnt u) (output u).
Definition set_byteCnt (x : Z) (u : t) : t :=
  mk (state u) (shiftReg u) (bitCnt u) x (byteCntMax u) (posCnt u) (output u).
Definition set_byteCntMax (x : Z) (u : t) : t :=
  mk (state u) (shiftReg u) (bitCnt u) (byteCnt u) x (posCnt u) (output u).
Definition set_posCnt (x : Z) (u : t) : t :=
  mk (state u) (shiftReg u) (bitCnt u) (byteCnt u) (byteCntMax u) x (output u).
Definition set_output (x : buffer) (u : t) : t :=
  mk (state u) (shiftReg u) (bitCnt u) (byteCnt u) (byteCntMax u) (posCnt u) x.
End Uart.

(** [MAX_FRAME_SIZE] is defined in a header outside this file; it is an
    argument of the functions that use it. *)
Definition Uart14bReset (MAX_FRAME_SIZE : Z) (u : Uart.t) : Uart.t :=
  Uart.mk STATE_14B_UNSYNCD 0 0 0 MAX_FRAME_SIZE 0 (Uart.output u).

(** [Uart.output = data] points the UART at a buffer of the caller: the
    history of stores through the pointer starts empty. *)
Definition Uart14bInit (MAX_FRAME_SIZE : Z) (u : Uart.t) : Uart.t :=
  Uart14bReset MAX_FRAME_SIZE (Uart.set_output [] u).

Definition iso14b_set_maxframesize (MAX_FRAME_SIZE : Z) (size : Z) (u : Uart.t) : Uart.t :=
  let size := u16 size in
  let size := if size >? 256 then u16 MAX_FRAME_SIZE else size in
  Uart.set_byteCntMax size u.

(** Handle14443bSampleFromReader, one case of the switch per function. *)

Definition uart_unsyncd (bit : bool) (u : Uart.t) : bool * Uart.t :=
  if negb bit
  then (false, Uart.set_bitCnt 0 (Uart.set_posCnt 0
                 (Uart.set_state STATE_14B_GOT_FALLING_EDGE_OF_SOF u)))
  else (false, u).

Definition uart_got_falling_edge_of_sof (bit : bool) (u : Uart.t) : bool * Uart.t :=
  let u := Uart.set_posCnt (Uart.posCnt u + 1) u in
  let u :=
    if Uart.posCnt u =? 2 then
      let u :=
        if bit then
          if Uart.bitCnt u >? 9
          then Uart.set_state STATE_14B_AWAITING_START_BIT
                 (Uart.set_byteCnt 0 (Uart.set_posCnt 0 u))
          else Uart.set_state STATE_14B_UNSYNCD u
        else u in
      Uart.set_bitCnt (Uart.bitCnt u + 1) u
    else u in
  let u := if Uart.posCnt u >=? 4 then Uart.set_posCnt 0 u else u in
  let u := if Uart.bitCnt u >? 12 then Uart.set_state STATE_14B_UNSYNCD u else u in
  (false, u).

Definition uart_awaiting_start_bit (bit : bool) (u : Uart.t) : bool * Uart.t :=
  let u := Uart.set_posCnt (Uart.posCnt u + 1) u in
  if bit then
    if Uart.posCnt u >? 50 / 2
    then (false, Uart.set_state STATE_14B_UNSYNCD u)
    else (false, u)
  else
    (false, Uart.set_state STATE_14B_RECEIVING_DATA
              (Uart.set_shiftReg 0 (Uart.set_bitCnt 0 (Uart.set_posCnt 0 u)))).

Definition uart_receiving_data (bit : bool) (u : Uart.t) : bool * Uart.t :=
  let u := Uart.set_posCnt (Uart.posCnt u + 1) u in
  let u :=
    if Uart.posCnt u =? 2 then
      let u := Uart.set_shiftReg (u16 (Z.shiftr (Uart.shiftReg u) 1)) u in
      let u := if bit then Uart.set_shiftReg (u16 (Z.lor (Uart.shiftReg u) 512)) u else u in
      Uart.set_bitCnt (Uart.bitCnt u + 1) u
    else u in
  let u := if Uart.posCnt u >=? 4 then Uart.set_posCnt 0 u else u in
  if Uart.bitCnt u =? 10 then
    if c_true (Z.land (Uart.shiftReg u) 512) && negb (c_true (Z.land (Uart.shiftReg u) 1)) then
      let u := Uart.set_output
                 (buf_store (Uart.byteCnt u)
                    (Z.land (Z.shiftr (Uart.shiftReg u) 1) 255) (Uart.output u)) u in
      let u := Uart.set_byteCnt (Uart.byteCnt u + 1) u in
      if Uart.byteCnt u >=? Uart.byteCntMax u
      then (false, Uart.set_state STATE_14B_UNSYNCD u)
      else (false, Uart.set_state STATE_14B_AWAITING_START_BIT (Uart.set_posCnt 0 u))
    else if Uart.shiftReg u =? 0 then
      let u := Uart.set_state STATE_14B_UNSYNCD u in
      if negb (Uart.byteCnt u =? 0) then (true, u) else (false, u)
    else (false, Uart.set_state STATE_14B_UNSYNCD u)
  else (false, u).

Definition Handle14443bSampleFromReader (bit : bool) (u : Uart.t) : bool * Uart.t :=
  match Uart.state u with
  | STATE_14B_UNSYNCD => uart_unsyncd bit u
  | STATE_14B_GOT_FALLING_EDGE_OF_SOF => uart_got_falling_edge_of_sof bit u
  | STATE_14B_AWAITING_START_BIT => uart_awaiting_start_bit bit u
  | STATE_14B_RECEIVING_DATA => uart_receiving_data bit u
  end.

(** Four samples per ETU: each stuffbit is seen four times by the UART. *)
Definition etu_samples (bits : list bool) : list bool :=
  flat_map (fun b => [b; b; b; b]) bits.

(** Feeding a sample sequence to the UART.  The result lists the states in
    which the UART signalled EOF (returned true), in order, and gives the
    state after the last sample. *)
Fixpoint uart_feed (samples : list bool) (u : Uart.t) : list Uart.t * Uart.t :=
  match samples with
  | [] => ([], u)
  | s :: r =>
      let (ret, u1) := Handle14443bSampleFromReader s u in
      let (eofs, u2) := uart_feed r u1 in
      ((if ret then u1 :: eofs else eofs), u2)
  end.

(** ** The software Demod of the reader *)

Inductive demod_state :=
| DEMOD_UNSYNCD
| DEMOD_PHASE_REF_TRAINING
| DEMOD_AWAITING_FALLING_EDGE_OF_SOF
| DEMOD_GOT_FALLING_EDGE_OF_SOF
| DEMOD_AWAITING_START_BIT
| DEMOD_RECEIVING_DATA.

(** The value of the enumeration constant, for comparisons with [<]. *)
Definition demod_state_num (s : demod_state) : Z :=
  match s with
  | DEMOD_UNSYNCD => 0
  | DEMOD_PHASE_REF_TRAINING => 1
  | DEMOD_AWAITING_FALLING_EDGE_OF_SOF => 2
  | DEMOD_GOT_FALLING_EDGE_OF_SOF => 3
  | DEMOD_AWAITING_START_BIT => 4
  | DEMOD_RECEIVING_DATA => 5
  end.

Module Demod.
Record t := mk {
  state : demod_state;
  bitCount : Z;
  posCount : Z;
  thisBit : Z;
  shiftReg : Z;
  max_len : Z;
  output : buffer;
  len : Z;
  sumI : Z;
  sumQ : Z
}.

Definition set_state (x : demod_state) (d : t) : t :=
  mk x (bitCount d) (posCount d) (thisBit d) (shiftReg d) (max_len d)
     (output d) (len d) (sumI d) (sumQ d).
Definition set_bitCount (x : Z) (d : t) : t :=
  mk (state d) x (posCount d) (thisBit d) (shiftReg d) (max_len d)
     (output d) (len d) (sumI d) (sumQ d).
Definition set_posCount (x : Z) (d : t) : t :=
  mk (state d) (bitCount d) x (thisBit d) (shiftReg d) (max_len d)
     (output d) (len d) (sumI d) (sumQ d).
Definition set_thisBit (x : Z) (d : t) : t :=
  mk (state d) (bitCount d) (posCount d) x (shiftReg d) (max_len d)
     (output d) (len d) (sumI d) (sumQ d).
Definition set_shiftReg (x : Z) (d : t) : t :=
  mk (state d) (bitCount d) (posCount d) (thisBit d) x (max_len d)
     (output d) (len d) (sumI d) (sumQ d).
Definition set_output (x : buffer) (d : t) : t :=
  mk (state d) (bitCount d) (posCount d) (thisBit d) (shiftReg d) (max_len d)
     x (len d) (sumI d) (sumQ d).
Definition set_len (x : Z) (d : t) : t :=
  mk (state d) (bitCount d) (posCount d) (thisBit d) (shiftReg d) (max_len d)
     (output d) x (sumI d) (sumQ d).
Definition set_sumI (x : Z) (d : t) : t :=
  mk (state d) (bitCount d) (posCount d) (thisBit d) (shiftReg d) (max_len d)
     (output d) (len d) x (sumQ d).
Definition set_sumQ (x : Z) (d : t) : t :=
  mk (state d) (bitCount d) (posCount d) (thisBit d) (shiftReg d) (max_len d)
     (output d) (len d) (sumI d) x.
End Demod.

Definition Demod14bReset (d : Demod.t) : Demod.t :=
  Demod.mk DEMOD_UNSYNCD 0 0 0 0 (Demod.max_len d) (Demod.output d) 0 0 0.

(** [Demod.output = data; Demod.max_len = max_len;] the history of stores
    through the new pointer starts empty. *)
Definition Demod14bInit (max_len : Z) (d : Demod.t) : Demod.t :=
  Demod14bReset
    (Demod.mk (Demod.state d) (Demod.bitCount d) (Demod.posCount d)
       (Demod.thisBit d) (Demod.shiftReg d) (u16 max_len) []
       (Demod.len d) (Demod.sumI d) (Demod.sumQ d)).

(** The macro MAKE_SOFT_DECISION: the value it leaves in [v]. *)
Definition MAKE_SOFT_DECISION (d : Demod.t) (ci cq : Z) : Z :=
  let v := if Demod.sumI d >? 0 then ci else - ci in
  if Demod.sumQ d >? 0 then v + cq else v - cq.

Definition SUBCARRIER_DETECT_THRESHOLD : Z := 8.

(** The macro AMPLITUDE: max(|ci|,|cq|) + min(|ci|,|cq|)/2. *)
Definition AMPLITUDE (ci cq : Z) : Z :=
  Z.max (Z.abs ci) (Z.abs cq) + Z.quot (Z.min (Z.abs ci) (Z.abs cq)) 2.

(** Handle14443bSamplesFromTag, one case of the switch per function. *)

Definition demod_unsyncd (ci cq : Z) (d : Demod.t) : bool * Demod.t :=
  if AMPLITUDE ci cq >? SUBCARRIER_DETECT_THRESHOLD
  then (false, Demod.set_posCount 1 (Demod.set_sumQ cq (Demod.set_sumI ci
                 (Demod.set_state DEMOD_PHASE_REF_TRAINING d))))
  else (false, d).

Definition demod_phase_ref_training (ci cq : Z) (d : Demod.t) : bool * Demod.t :=
  if Demod.posCount d <? 8 then
    if AMPLITUDE ci cq >? SUBCARRIER_DETECT_THRESHOLD
    then (false, Demod.set_posCount (Demod.posCount d + 1)
                   (Demod.set_sumQ (Demod.sumQ d + cq)
                      (Demod.set_sumI (Demod.sumI d + ci) d)))
    else (false, Demod.set_state DEMOD_UNSYNCD d)
  else (false, Demod.set_state DEMOD_AWAITING_FALLING_EDGE_OF_SOF d).

Definition demod_awaiting_falling_edge_of_sof (ci cq : Z) (d : Demod.t) : bool * Demod.t :=
  let v := MAKE_SOFT_DECISION d ci cq in
  let d :=
    if v <? 0
    then Demod.set_posCount 0 (Demod.set_state DEMOD_GOT_FALLING_EDGE_OF_SOF d)
    else if Demod.posCount d >? 200 / 4
         then Demod.set_state DEMOD_UNSYNCD d
         else d in
  (false, Demod.set_posCount (Demod.posCount d + 1) d).

Definition demod_got_falling_edge_of_sof (ci cq : Z) (d : Demod.t) : bool * Demod.t :=
  let d := Demod.set_posCount (Demod.posCount d + 1) d in
  let v := MAKE_SOFT_DECISION d ci cq in
  if v >? 0 then
    if Demod.posCount d <? 9 * 2
    then (false, Demod.set_state DEMOD_UNSYNCD d)
    else (false, Demod.set_state DEMOD_AWAITING_START_BIT
                   (Demod.set_len 0 (Demod.set_bitCount 0 (Demod.set_posCount 0 d))))
  else
    if Demod.posCount d >? 14 * 2
    then (false, Demod.set_state DEMOD_UNSYNCD d)
    else (false, d).

Definition demod_awaiting_start_bit (ci cq : Z) (d : Demod.t) : bool * Demod.t :=
  let d := Demod.set_posCount (Demod.posCount d + 1) d in
  let v := MAKE_SOFT_DECISION d ci cq in
  if v >? 0 then
    if Demod.posCount d >? 6 * 2 then
      if (Demod.bitCount d =? 0) && (Demod.len d =? 0)
      then (true, d)
      else (false, Demod.set_state DEMOD_UNSYNCD d)
    else (false, d)
  else
    (false, Demod.set_state DEMOD_RECEIVING_DATA
              (Demod.set_shiftReg 0 (Demod.set_thisBit v (Demod.set_posCount 1 d)))).

Definition demod_receiving_data (ci cq : Z) (d : Demod.t) : bool * Demod.t :=
  let v := MAKE_SOFT_DECISION d ci cq in
  if Demod.posCount d =? 0 then
    (false, Demod.set_posCount 1 (Demod.set_thisBit v d))
  else
    let d := Demod.set_thisBit (Demod.thisBit d + v) d in
    let d := Demod.set_shiftReg (u16 (Z.shiftr (Demod.shiftReg d) 1)) d in
    let d := if Demod.thisBit d >? 0
             then Demod.set_shiftReg (u16 (Z.lor (Demod.shiftReg d) 512)) d
             else d in
    let d := Demod.set_bitCount (u16 (Demod.bitCount d + 1)) d in
    if Demod.bitCount d =? 10 then
      let s := Demod.shiftReg d in
      if c_true (Z.land s 512) && negb (c_true (Z.land s 1)) then
        let d := Demod.set_output
                   (buf_store (Demod.len d) (u8 (Z.shiftr s 1)) (Demod.output d)) d in
        let d := Demod.set_len (u16 (Demod.len d + 1)) d in
        let d := Demod.set_bitCount 0 d in
        let d := Demod.set_state DEMOD_AWAITING_START_BIT d in
        (false, Demod.set_posCount 0 d)
      else
        let d := Demod.set_state DEMOD_UNSYNCD d in
        if s =? 0
        then (true, d)
        else (false, Demod.set_posCount 0 d)
    else (false, Demod.set_posCount 0 d).

Definition Handle14443bSamplesFromTag (ci cq : Z) (d : Demod.t) : bool * Demod.t :=
  match Demod.state d with
  | DEMOD_UNSYNCD => demod_unsyncd ci cq d
  | DEMOD_PHASE_REF_TRAINING => demod_phase_ref_training ci cq d
  | DEMOD_AWAITING_FALLING_EDGE_OF_SOF => demod_awaiting_falling_edge_of_sof ci cq d
  | DEMOD_GOT_FALLING_EDGE_OF_SOF => demod_got_falling_edge_of_sof ci cq d
  | DEMOD_AWAITING_START_BIT => demod_awaiting_start_bit ci cq d
  | DEMOD_RECEIVING_DATA => demod_receiving_data ci cq d
  end.

(** ** Get14443bAnswerFromTag *)

(** Conversion of a byte to [int8_t]. *)
Definition int8 (x : Z) : Z :=
  let y := u8 x in if y >=? 128 then y - 256 else y.

(** What one turn of the receive loop reads from the hardware: the 16-bit
    word the DMA wrote at [upTo], and [pressed], which tells whether in this
    turn the ring buffer was read to its end with ENDRX set and
    BUTTON_PRESS() true (the only way to the first [break]). *)
Record rx_event := mkEvent { dma_word : Z; pressed : bool }.

(** How the receive loop ended: the value of [ret] and the demodulator at
    the [break]. *)
Definition loop_exit := (Z * Demod.t)%type.

(** The [for (;;)] loop.  [samples] is the counter of the C code before the
    turn.  The loop only advances when the DMA has delivered a word; [None]
    says that the given events ended before the loop did. *)
Fixpoint answer_loop (timeout : Z) (evs : list rx_event) (samples : Z) (d : Demod.t)
  : option loop_exit :=
  match evs with
  | [] => None
  | e :: r =>
      let samples := samples + 1 in
      let ci := int8 (Z.shiftr (dma_word e) 8) in
      let cq := int8 (dma_word e) in
      if pressed e then Some (0, d)
      else
        let (eof, d1) := Handle14443bSamplesFromTag ci cq d in
        if eof then
          Some ((if Demod.len d1 >? Demod.max_len d1 then -2 else 0), d1)
        else if (samples >? timeout)
                && (demod_state_num (Demod.state d1)
                    <? demod_state_num DEMOD_PHASE_REF_TRAINING)
        then Some (-1, d1)
        else answer_loop timeout r samples d1
  end.

(** One call of Get14443bAnswerFromTag sees the result of FpgaSetupSscDma
    and the events of its loop. *)
Record rx_script := mkScript { dma_ok : bool; events : list rx_event }.

Definition Get14443bAnswerFromTag (max_len timeout : Z) (sc : rx_script) (d : Demod.t)
  : option (Z * Demod.t) :=
  let d := Demod14bInit max_len d in
  if negb (dma_ok sc) then Some (-1, d)
  else
    match answer_loop timeout (events sc) 0 d with
    | None => None
    | Some (ret, d1) =>
        if ret <? 0 then Some (ret, d1) else Some (Demod.len d1, d1)
    end.

(** ** The reader: session state and protocol functions *)

(** Modelled from the spec: the type [iso14b_card_select_t] is declared
    outside this file.  The card descriptor is
    {uid: 8 bytes, uidlen, atqb: 7 bytes, cid, chipid}. *)
Module Card.
Record t := mk {
  uid : list Z;
  uidlen : Z;
  atqb : list Z;
  chipid : Z;
  cid : Z
}.
End Card.

(** The state the reader functions work on: the two static variables of the
    session, the decoders, ToSend, the frames handed to the transmitter so
    far (oldest first), and what the coming calls of Get14443bAnswerFromTag
    will see on the air (one script per call). *)
Record world := mkWorld {
  pcb_blocknum : Z;
  iso14b_timeout : Z;
  w_uart : Uart.t;
  w_demod : Demod.t;
  w_tosend : ToSend.t;
  sent : list (list Z);
  air : list rx_script
}.

(** A computation on the world that returns a value, or has no result:
    the air gave too few samples for a receive loop to end, or the
    demodulator stored outside the array it was pointed at. *)
Definition M (A : Type) : Type := world -> option (A * world).

Definition ret {A} (a : A) : M A := fun w => Some (a, w).

Definition bind {A B} (m : M A) (k : A -> M B) : M B :=
  fun w => match m w with
           | None => None
           | Some (a, w1) => k a w1
           end.

Notation "x <- m ;; k" := (bind m (fun x => k))
  (at level 61, m at next level, right associativity).
Notation "m ;;; k" := (bind m (fun _ => k))
  (at level 61, right associativity).

Definition FWT_TIMEOUT_14B : Z := 35312.
Definition MAX_TIMEOUT : Z := 40542464.
Definition ISO14443B_READER_TIMEOUT : Z := 1700.

Definition u32 (x : Z) : Z := x mod 4294967296.

Definition iso14b_set_timeout (timeout : Z) : M unit :=
  fun w =>
    let timeout := u32 timeout in
    let timeout := if timeout >? MAX_TIMEOUT then MAX_TIMEOUT else timeout in
    Some (tt, mkWorld (pcb_blocknum w) timeout (w_uart w) (w_demod w)
                (w_tosend w) (sent w) (air w)).

Definition set_pcb_blocknum (x : Z) : M unit :=
  fun w => Some (tt, mkWorld x (iso14b_timeout w) (w_uart w) (w_demod w)
                       (w_tosend w) (sent w) (air w)).

Definition get_pcb_blocknum : M Z := fun w => Some (pcb_blocknum w, w).

(** CodeAndTransmit14443bAsReader: the frame is coded into ToSend and
    transmitted. *)
Definition CodeAndTransmit14443bAsReader (cmd : list Z) : M unit :=
  fun w => Some (tt, mkWorld (pcb_blocknum w) (iso14b_timeout w) (w_uart w)
                       (w_demod w) (CodeIso14443bAsReader cmd)
                       (sent w ++ [cmd]) (air w)).

(** Get14443bAnswerFromTag on the next script of the air, as its callers
    use it: [response] is an array of theirs and [max_len], a uint16_t,
    its size ([sizeof]), so the array has the cells 0 .. [max_len] - 1.
    An answer with more octets than that is stored past the end of the
    array before the loop looks at [Demod.len]; such a run has no
    result. *)
Definition receive_answer (max_len timeout : Z) : M Z :=
  fun w =>
    match air w with
    | [] => None
    | sc :: rest =>
        match Get14443bAnswerFromTag max_len timeout sc (w_demod w) with
        | None => None
        | Some (r, d) =>
            if buf_within (u16 max_len) (Demod.output d)
            then Some (r, mkWorld (pcb_blocknum w) (iso14b_timeout w) (w_uart w) d
                            (w_tosend w) (sent w) rest)
            else None
        end
    end.

(** The [n] cells of the zero-initialised array the demodulator was pointed
    at by the last receive. *)
Definition response_array (n : nat) : M (list Z) :=
  fun w => Some (buf_bytes 0 (Demod.output (w_demod w)) n, w).

(** [memcpy(dst + at, src, length src)] on arrays given by their cells. *)
Definition array_blit (dst : list Z) (at_ : nat) (src : list Z) : list Z :=
  firstn at_ dst ++ src ++ skipn (at_ + length src) dst.

(** [src[from .. from + n - 1]], cells outside the array read as 0. *)
Definition array_slice (src : list Z) (from n : nat) : list Z :=
  map (fun k => nth k src 0) (seq from n).

(** The value of [maxFrame] that iso14443b_select_card computes from
    [card->atqb[5]] and passes to iso14b_set_maxframesize. *)
Definition select_card_maxFrame (atqb5 : Z) : Z :=
  let maxFrame := u16 (Z.shiftr atqb5 4) in
  if maxFrame <? 5 then u16 (8 * maxFrame + 16)
  else if maxFrame =? 5 then 64
  else if maxFrame =? 6 then 96
  else if maxFrame =? 7 then 128
  else if maxFrame =? 8 then 256
  else 257.

Section Protocol.

Variable MAX_FRAME_SIZE : Z.

(** Modelled from the spec: the CRC routines are declared outside this
    file.  [crc14b] gives the 16-bit CRC of a byte sequence, appended low
    byte first; [check_crc14b data len] validates the first [len] bytes
    of [data]. *)
Variable crc14b : list Z -> Z.
Variable check_crc14b : list Z -> Z -> bool.

Definition AddCrc14B (data : list Z) (len : nat) : list Z :=
  let c := crc14b (firstn len data) in
  array_blit data len [Z.land c 255; Z.land (Z.shiftr c 8) 255].

Definition set_maxframesize (size : Z) : M unit :=
  fun w => Some (tt, mkWorld (pcb_blocknum w) (iso14b_timeout w)
                       (iso14b_set_maxframesize MAX_FRAME_SIZE size (w_uart w))
                       (w_demod w) (w_tosend w) (sent w) (air w)).

(** iso14443b_apdu.  [response] tells whether the caller passed a buffer
    (not NULL); the buffer has [respmaxlen] cells, and there is no result
    when the answer is stored past its end. *)
Definition iso14443b_apdu (message : list Z) (response : bool) (respmaxlen : Z)
  : M Z :=
  blocknum <- get_pcb_blocknum ;;
  (* PCB, CID, INF, room for the CRC *)
  let message_frame := [u8 (Z.lor 10 blocknum); 0] ++ message ++ [0; 0] in
  set_pcb_blocknum (u8 (Z.lxor blocknum 1)) ;;;
  (* EDC (CRC) *)
  let message_frame := AddCrc14B message_frame (length message + 2) in
  (* send *)
  CodeAndTransmit14443bAsReader message_frame ;;;
  (* get response *)
  if negb response then ret 0
  else
    retlen <- receive_answer respmaxlen ISO14443B_READER_TIMEOUT ;;
    resp <- response_array (Z.to_nat retlen) ;;
    if retlen <? 3 then ret 0
    else if negb (check_crc14b resp retlen) then ret 0
    else ret (u8 retlen).

(** The part of iso14443b_select_card under the last [if (card)]. *)
Definition select_card_params (c : Card.t) (r_attrib : list Z) : M Card.t :=
  (* CID *)
  let c := Card.mk (Card.uid c) (Card.uidlen c) (Card.atqb c) (Card.chipid c)
             (nth 0 r_attrib 0) in
  (* MAX FRAME *)
  set_maxframesize (select_card_maxFrame (nth 5 (Card.atqb c) 0)) ;;;
  (* FWT *)
  let fwt := u8 (Z.shiftr (nth 6 (Card.atqb c) 0) 4) in
  (if fwt <? 16
   then iso14b_set_timeout (Z.shiftl 302 fwt)
   else ret tt) ;;;
  ret c.

(** iso14443b_select_card.  [card] is [None] for a NULL pointer; the
    descriptor is returned as the call leaves it.  The answers are received
    into the arrays [r_pupid[14]] and [r_attrib[3]] of the function: there
    is no result when an answer is stored past their end. *)
Definition iso14443b_select_card (card : option Card.t) : M (Z * option Card.t) :=
  (* WUPB command (including CRC) *)
  let wupb := [5; 0; 8; 57; 115] in
  (* ATTRIB command (with space for CRC) *)
  let attrib := [29; 0; 0; 0; 0; 0; 8; 0; 0; 0; 0] in
  (* first, wake up the tag *)
  CodeAndTransmit14443bAsReader wupb ;;;
  retlen <- receive_answer 14 ISO14443B_READER_TIMEOUT ;;
  r_pupid <- response_array 14 ;;
  (* ATQB too short? *)
  if retlen <? 14 then ret (-1, card)
  (* VALIDATE CRC *)
  else if negb (check_crc14b r_pupid retlen) then ret (-2, card)
  else
    let card :=
      match card with
      | Some c =>
          Some (Card.mk (array_blit (Card.uid c) 0 (array_slice r_pupid 1 4)) 4
                  (array_blit (Card.atqb c) 0 (array_slice r_pupid 5 7))
                  (Card.chipid c) (Card.cid c))
      | None => None
      end in
    (* copy the PUPI to ATTRIB *)
    let attrib := array_blit attrib 1 (array_slice r_pupid 1 4) in
    (* copy the protocol info from ATQB into ATTRIB (Param 3) *)
    let attrib := array_blit attrib 7 [Z.land (nth 10 r_pupid 0) 15] in
    let attrib := AddCrc14B attrib 9 in
    CodeAndTransmit14443bAsReader attrib ;;;
    retlen <- receive_answer 3 ISO14443B_READER_TIMEOUT ;;
    r_attrib <- response_array 3 ;;
    (* Answer to ATTRIB too short? *)
    if retlen <? 3 then ret (-1, card)
    (* VALIDATE CRC *)
    else if negb (check_crc14b r_attrib retlen) then ret (-2, card)
    else
      card <- match card with
              | Some c => c1 <- select_card_params c r_attrib ;; ret (Some c1)
              | None => ret None
              end ;;
      (* reset PCB block number *)
      set_pcb_blocknum 0 ;;;
      ret (0, card).

End Protocol.

(** ** The simulated tag *)

Inductive sim_state :=
| SIM_NOFIELD | SIM_IDLE | SIM_HALTED | SIM_SELECTING
| SIM_HALTING | SIM_ACKNOWLEDGE | SIM_WORK.

Definition sim_state_eqb (a b : sim_state) : bool :=
  match a, b with
  | SIM_NOFIELD, SIM_NOFIELD | SIM_IDLE, SIM_IDLE | SIM_HALTED, SIM_HALTED
  | SIM_SELECTING, SIM_SELECTING | SIM_HALTING, SIM_HALTING
  | SIM_ACKNOWLEDGE, SIM_ACKNOWLEDGE | SIM_WORK, SIM_WORK => true
  | _, _ => false
  end.

(** Modelled from the spec: the command codes are defined in a header
    outside this file; REQB/WUPB is 0x05, HLT 0x50 and ATTRIB 0x1D. *)
Definition ISO14443B_REQB : Z := 5.
Definition ISO14443B_HALT : Z := 80.
Definition ISO14443B_ATTRIB : Z := 29.

(** SimulateIso14443bTag, the test on a command of five bytes that precedes
    the switch: the value of [cardSTATE] after it. *)
Definition sim_request_gate (receivedCmd : list Z) (len : Z) (cardSTATE : sim_state)
  : sim_state :=
  if len =? 5 then
    if ((nth 0 receivedCmd 0 =? ISO14443B_REQB)
        && (Z.land (nth 2 receivedCmd 0) 8 =? 8)
        && sim_state_eqb cardSTATE SIM_HALTED)
       || (nth 0 receivedCmd 0 =? ISO14443B_REQB)
    then SIM_SELECTING
    else cardSTATE
  else cardSTATE.

(** What the tag transmits in one turn of the simulation loop. *)
Inductive sim_reply := NoReply | ReplyATQB | ReplyOK.

(** The [switch (cardSTATE)]: the reply transmitted and the next state. *)
Definition sim_dispatch (receivedCmd : list Z) (len : Z) (cardSTATE : sim_state)
  : sim_reply * sim_state :=
  match cardSTATE with
  | SIM_HALTED | SIM_IDLE => (NoReply, cardSTATE)
  | SIM_SELECTING => (ReplyATQB, SIM_WORK)
  | SIM_HALTING => (ReplyOK, SIM_HALTED)
  | SIM_ACKNOWLEDGE => (ReplyOK, SIM_IDLE)
  | SIM_WORK =>
      if (len =? 7) && (nth 0 receivedCmd 0 =? ISO14443B_HALT)
      then (NoReply, SIM_HALTED)
      else if (len =? 11) && (nth 0 receivedCmd 0 =? ISO14443B_ATTRIB)
      then (NoReply, SIM_ACKNOWLEDGE)
      else (NoReply, SIM_IDLE)
  | SIM_NOFIELD => (NoReply, cardSTATE)
  end.

(** One turn of the simulation loop once a command has been received. *)
Definition sim_turn (receivedCmd : list Z) (len : Z) (cardSTATE : sim_state)
  : sim_reply * sim_state :=
  sim_dispatch receivedCmd len (sim_request_gate receivedCmd len cardSTATE).

(** ** Concrete surroundings for running the model *)

(** Modelled from the spec: the CRC of ISO 14443 Type B is the CRC-16 with
    polynomial 0x1021, initial value 0xFFFF, reflected, final XOR 0xFFFF. *)
Fixpoint crc_shift (n : nat) (crc : Z) : Z :=
  match n with
  | O => crc
  | S k =>
      crc_shift k (if Z.land crc 1 =? 0
                   then Z.shiftr crc 1
                   else Z.lxor (Z.shiftr crc 1) 33800)
  end.

(** Modelled from the spec: [crc14b] of a byte sequence. *)
Definition crc_x25 (data : list Z) : Z :=
  Z.lxor (fold_left (fun crc b => crc_shift 8 (Z.lxor crc b)) data 65535) 65535.

(** Modelled from the spec: [check_crc14b]; the last two of the [len]
    bytes are the CRC of the bytes before them, low byte first. *)
Definition check_crc_x25 (data : list Z) (len : Z) : bool :=
  if len <? 3 then false
  else
    let n := Z.to_nat len in
    let c := crc_x25 (firstn (n - 2) data) in
    (nth (n - 2) data 0 =? Z.land c 255)
    && (nth (n - 1) data 0 =? Z.land (Z.shiftr c 8) 255).

(** The bits of a frame as a tag sends it: TR1, SOF, the octets with start
    and stop bit, EOF, and two closing ones. *)
Definition octet_bits (b : Z) : list bool :=
  [false; Z.testbit b 0; Z.testbit b 1; Z.testbit b 2; Z.testbit b 3;
   Z.testbit b 4; Z.testbit b 5; Z.testbit b 6; Z.testbit b 7; true].

Definition tag_frame_bits (frame : list Z) : list bool :=
  repeat true 20 ++ repeat false 10 ++ [true; true]
  ++ flat_map octet_bits frame ++ repeat false 10 ++ [true; true].

(** The DMA word for an IQ pair. *)
Definition iq_word (ci cq : Z) : Z := u8 ci * 256 + u8 cq.

(** Two IQ pairs per bit, in phase with the reference for a one and in
    opposite phase for a zero. *)
Definition bpsk_pairs (bits : list bool) : list (Z * Z) :=
  flat_map (fun b : bool =>
              let ci := if b then 20 else -20 in [(ci, 0); (ci, 0)]) bits.

(** The events of the receive loop for IQ pairs; the button is not
    pressed. *)
Definition pairs_events (pairs : list (Z * Z)) : list rx_event :=
  map (fun p => mkEvent (iq_word (fst p) (snd p)) false) pairs.

Definition bpsk_events (bits : list bool) : list rx_event :=
  pairs_events (bpsk_pairs bits).

Definition tag_answer (frame : list Z) : rx_script :=
  mkScript true (bpsk_events (tag_frame_bits frame)).

(** No subcarrier for [n] sample pairs. *)
Definition silence (n : nat) : rx_script :=
  mkScript true (repeat (mkEvent 0 false) n).

Definition blank_uart : Uart.t := Uart.mk STATE_14B_UNSYNCD 0 0 0 0 0 [].
Definition blank_demod : Demod.t := Demod.mk DEMOD_UNSYNCD 0 0 0 0 0 [] 0 0 0.
Definition blank_card : Card.t := Card.mk [0; 0; 0; 0; 0; 0; 0; 0] 0 [0; 0; 0; 0; 0; 0; 0] 0 0.

(** The reader after iso14443b_setup, with the given air. *)
Definition fresh_world (MAX_FRAME_SIZE : Z) (scripts : list rx_script) : world :=
  mkWorld 0 FWT_TIMEOUT_14B (Uart14bInit MAX_FRAME_SIZE blank_uart)
    (Demod14bInit MAX_FRAME_SIZE blank_demod) tosend_reset [] scripts.

(** The ATQB of the simulated tag and the answer to ATTRIB. *)
Definition respATQB : list Z := [80; 130; 13; 225; 116; 32; 56; 25; 34; 0; 33; 133; 94; 215].
Definition respOK : list Z := [0; 120; 240].


(** The WUPB and REQB commands (the latter: Normal Request, N=1) and an
    I-block answer. *)
Definition cmdWUPB : list Z := [5; 0; 8; 57; 115].
Definition cmdREQB : list Z := [5; 0; 0; 113; 255].
Definition respIBlock : list Z := [10; 0; 144; 0; 45; 57].

(** ** Definitions used in the statements and proofs *)

(** What a step of the protocol leaves alone. *)
Definition same_session (w w1 : world) : Prop :=
  pcb_blocknum w1 = pcb_blocknum w /\ iso14b_timeout w1 = iso14b_timeout w
  /\ w_uart w1 = w_uart w.

Definition octet (v : Z) : Prop := 0 <= v < 256.

Definition octet_cells (b : buffer) : Prop := Forall (fun c => octet (snd c)) b.

(** Feeding IQ pairs to the demodulator: the state after the last pair. *)
Fixpoint demod_feed (pairs : list (Z * Z)) (d : Demod.t) : Demod.t :=
  match pairs with
  | [] => d
  | (ci, cq) :: r => demod_feed r (snd (Handle14443bSamplesFromTag ci cq d))
  end.

(** What the demodulator has received since it last accepted an SOF:
    [None] before the first SOF, and after it the number of bits completed
    and the number of bytes stored. *)
Definition since_sof := option (nat * nat).

(** One step of the demodulator seen from outside.  The step from
    GotFallingEdgeOfSof to AwaitingStartBit accepts an SOF.  A step in
    ReceivingData with [posCount] not 0 is the second half of a bit and
    completes it.  A step that makes the history of stores longer has
    stored a byte. *)
Definition demod_observe (ci cq : Z) (d : Demod.t) (o : since_sof) : since_sof :=
  let d1 := snd (Handle14443bSamplesFromTag ci cq d) in
  let completed :=
    match Demod.state d with
    | DEMOD_RECEIVING_DATA => negb (Demod.posCount d =? 0)
    | _ => false
    end in
  let stored := (length (Demod.output d) <? length (Demod.output d1))%nat in
  match Demod.state d, Demod.state d1 with
  | DEMOD_GOT_FALLING_EDGE_OF_SOF, DEMOD_AWAITING_START_BIT => Some (0%nat, 0%nat)
  | _, _ =>
      match o with
      | None => None
      | Some (bits, bytes) =>
          Some (if completed then S bits else bits,
                if stored then S bytes else bytes)
      end
  end.

(** The same over the pairs fed to the demodulator. *)
Fixpoint demod_since_sof (pairs : list (Z * Z)) (d : Demod.t) (o : since_sof)
  : since_sof :=
  match pairs with
  | [] => o
  | (ci, cq) :: r =>
      demod_since_sof r (snd (Handle14443bSamplesFromTag ci cq d))
        (demod_observe ci cq d o)
  end.

(** How the counters of the demodulator go with what it received since the
    SOF, as long as it stored inside an array of [size] cells: waiting for
    a start bit it has received whole characters only, of ten bits each;
    receiving a character it has [bitCount] bits of it, nine at most; and
    [len] is the number of bytes stored. *)
Definition demod_tracked (size : Z) (d : Demod.t) (o : since_sof) : Prop :=
  (Demod.state d = DEMOD_AWAITING_START_BIT ->
   Demod.bitCount d = 0 /\ exists bytes, o = Some ((10 * bytes)%nat, bytes))
  /\ (Demod.state d = DEMOD_RECEIVING_DATA ->
      0 <= Demod.bitCount d <= 9
      /\ exists bits bytes,
           o = Some (bits, bytes)
           /\ Z.of_nat bits = 10 * Z.of_nat bytes + Demod.bitCount d)
  /\ (buf_within size (Demod.output d) = true ->
      forall bits bytes, o = Some (bits, bytes) -> Demod.len d = Z.of_nat bytes).

(** The IQ pair that a turn of the receive loop hands to the demodulator. *)
Definition event_ci (e : rx_event) : Z := int8 (Z.shiftr (dma_word e) 8).
Definition event_cq (e : rx_event) : Z := int8 (dma_word e).

(** The receive loop on events that do not end it: the sample counter and
    the demodulator after them, [None] when the loop ends within them. *)
Fixpoint loop_continues (timeout : Z) (evs : list rx_event) (samples : Z) (d : Demod.t)
  : option (Z * Demod.t) :=
  match evs with
  | [] => Some (samples, d)
  | e :: r =>
      match answer_loop timeout [e] samples d with
      | Some _ => None
      | None =>
          loop_continues timeout r (samples + 1)
            (snd (Handle14443bSamplesFromTag (event_ci e) (event_cq e) d))
      end
  end.

(** What holds of the UART after Uart14bInit, whatever samples follow. *)
Definition uart_inv (u : Uart.t) : Prop :=
  0 <= Uart.byteCnt u <= Uart.byteCntMax u
  /\ (Uart.state u = STATE_14B_AWAITING_START_BIT
      \/ Uart.state u = STATE_14B_RECEIVING_DATA ->
      Uart.byteCnt u < Uart.byteCntMax u)
  /\ Forall (fun c => 0 <= fst c < Uart.byteCntMax u) (Uart.output u).

Definition shift_in (x : bool) (sr : Z) : Z :=
  if x then u16 (Z.lor (u16 (Z.shiftr sr 1)) 512) else u16 (Z.shiftr sr 1).

Definition feeds (samples : list bool) (u : Uart.t) (eofs : list Uart.t) (u1 : Uart.t) : Prop :=
  uart_feed samples u = (eofs, u1).

(** The shift register after the ten bits of an octet. *)
Definition octet_shiftreg (b : Z) : Z :=
  shift_in true (shift_in (Z.testbit b 7) (shift_in (Z.testbit b 6)
    (shift_in (Z.testbit b 5) (shift_in (Z.testbit b 4) (shift_in (Z.testbit b 3)
      (shift_in (Z.testbit b 2) (shift_in (Z.testbit b 1) (shift_in (Z.testbit b 0) 0)))))))).

Definition octet_frame_ok (b : Z) : bool :=
  c_true (Z.land (octet_shiftreg b) 512)
  && negb (c_true (Z.land (octet_shiftreg b) 1))
  && (Z.land (Z.shiftr (octet_shiftreg b) 1) 255 =? b).

(** The stores of a frame, octet by octet from index [i]. *)
Fixpoint store_frame (i : Z) (frame : list Z) (out : buffer) : buffer :=
  match frame with
  | [] => out
  | b :: r => store_frame (i + 1) r (buf_store i b out)
  end.

(** The stuffbits of a frame from the reader, as CodeIso14443bAsReader
    orders them. *)
Definition reader_frame_bits (frame : list Z) : list bool :=
  (repeat false 10 ++ [true; true]) ++ flat_map octet_bits frame
  ++ repeat false 10 ++ repeat true 8.

(** ToSend holds the stuffbits [bits]: the bytes before the last one carry
    eight of them each, the last byte carries the rest, from bit 7 down,
    above zeros. *)
Inductive packed : list bool -> ToSend.t -> Prop :=
| packed_reset : packed [] tosend_reset
| packed_byte init x pre :
    (1 <= length pre <= 8)%nat -> octet x ->
    byte_symbols 8 x = pre ++ repeat false (8 - length pre) ->
    packed (flat_map (byte_symbols 8) init ++ pre)
      (ToSend.mk (Z.of_nat (length init)) (Z.of_nat (length pre)) (init ++ [x])).

Definition bools_eqb (a b : list bool) : bool :=
  if list_eq_dec bool_dec a b then true else false.

(** Setting bit 7-p of a byte whose symbols from position p on are zero. *)
Definition set_symbol_ok (p : nat) (x : Z) : bool :=
  implb (bools_eqb (skipn p (byte_symbols 8 x)) (repeat false (8 - p)))
    (bools_eqb (byte_symbols 8 (Z.lor x (Z.shiftl 1 (7 - Z.of_nat p))))
       (firstn p (byte_symbols 8 x) ++ true :: repeat false (7 - p))
     && (Z.lor x (Z.shiftl 1 (7 - Z.of_nat p)) <? 256)
     && (0 <=? Z.lor x (Z.shiftl 1 (7 - Z.of_nat p)))).

(** ** More of the reader: an answer on the air *)

(** Feeding IQ pairs to the demodulator.  The result lists the states in
    which it signalled EOF (returned true), in order, and gives the state
    after the last pair. *)
Fixpoint demod_run (pairs : list (Z * Z)) (d : Demod.t) : list Demod.t * Demod.t :=
  match pairs with
  | [] => ([], d)
  | (ci, cq) :: r =>
      let (ret, d1) := Handle14443bSamplesFromTag ci cq d in
      let (eofs, d2) := demod_run r d1 in
      ((if ret then d1 :: eofs else eofs), d2)
  end.

(** The demodulator on pairs that neither end a frame nor leave it in
    Unsynced: the state after them. *)
Fixpoint demod_quiet (pairs : list (Z * Z)) (d : Demod.t) : option Demod.t :=
  match pairs with
  | [] => Some d
  | (ci, cq) :: r =>
      let (ret, d1) := Handle14443bSamplesFromTag ci cq d in
      if ret then None
      else match Demod.state d1 with
           | DEMOD_UNSYNCD => None
           | _ => demod_quiet r d1
           end
  end.

(** Two IQ pairs per bit: the reference vector (I0, Q0) for a one, its
    opposite for a zero. *)
Definition iq_pairs (I0 Q0 : Z) (bits : list bool) : list (Z * Z) :=
  flat_map (fun b : bool =>
              if b then [(I0, Q0); (I0, Q0)] else [(- I0, - Q0); (- I0, - Q0)]) bits.

(** The bits of an answer up to the end of its EOF: TR1 of [tr1] ETUs, SOF,
    the octets with start and stop bit, EOF. *)
Definition tag_answer_bits (tr1 : nat) (frame : list Z) : list bool :=
  repeat true tr1 ++ (repeat false 10 ++ [true; true])
  ++ flat_map octet_bits frame ++ repeat false 10.

(** The byte the demodulator stores for the ten bits of an octet. *)
Definition octet_demod_ok (b : Z) : bool :=
  c_true (Z.land (octet_shiftreg b) 512)
  && negb (c_true (Z.land (octet_shiftreg b) 1))
  && (u8 (Z.shiftr (octet_shiftreg b) 1) =? b).

(** An answer as Get14443bAnswerFromTag sees it: the DMA is set up, the
    pairs of the answer arrive, the button is not pressed; [rest] is what
    the air carries after the EOF. *)
Definition ideal_answer (I0 Q0 : Z) (tr1 : nat) (frame : list Z) (rest : list rx_event)
  : rx_script :=
  mkScript true (pairs_events (iq_pairs I0 Q0 (tag_answer_bits tr1 frame)) ++ rest).

(** The reference vector fits the two [int8_t] of a DMA word, and so does
    its opposite. *)
Definition iq_in_range (I0 Q0 : Z) : Prop :=
  -127 <= I0 <= 127 /\ -127 <= Q0 <= 127.

(** An IQ pair that the two [int8_t] of a DMA word hold. *)
Definition pair_in_range (p : Z * Z) : Prop :=
  -128 <= fst p <= 127 /\ -128 <= snd p <= 127.

(** What the receive loop needs of an answer to decode it: a reference
    vector above the detection threshold and within [int8_t], a TR1 of 5 to
    26 ETUs, and octets. *)
Definition hearable (I0 Q0 : Z) (tr1 : nat) (frame : list Z) : Prop :=
  AMPLITUDE I0 Q0 > SUBCARRIER_DETECT_THRESHOLD /\ iq_in_range I0 Q0
  /\ (5 <= tr1 <= 26)%nat /\ Forall octet frame.

(** ** SRx tags: selection and memory dump *)

(** Modelled from the spec: the command codes of the SRx family are defined
    in a header outside this file; INITIATE is 0x06, SELECT 0x0E, GET_UID
    0x0B and READ_BLK 0x08. *)
Definition ISO14443B_INITIATE : Z := 6.
Definition ISO14443B_SELECT : Z := 14.
Definition ISO14443B_GET_UID : Z := 11.
Definition ISO14443B_READ_BLK : Z := 8.

(** Modelled from the spec: the status codes handed to reply_ng are defined
    outside this file; only these two are used here. *)
Inductive pm3_status := PM3_SUCCESS | PM3_ETIMEOUT.

Section ProtocolSRx.

Variable MAX_FRAME_SIZE : Z.
Variable crc14b : list Z -> Z.
Variable check_crc14b : list Z -> Z -> bool.

(** iso14443b_setup, as far as it touches the state of this file: the two
    decoders are pointed at fresh buffers. *)
Definition iso14443b_setup : M unit :=
  fun w => Some (tt, mkWorld (pcb_blocknum w) (iso14b_timeout w)
                       (Uart14bInit MAX_FRAME_SIZE (w_uart w))
                       (Demod14bInit MAX_FRAME_SIZE (w_demod w))
                       (w_tosend w) (sent w) (air w)).

(** iso14443b_select_srx_card.  [card] is [None] for a NULL pointer; the
    descriptor is returned as the call leaves it.  The answers are received
    into the arrays [r_init[3]], [r_select[3]] and [r_papid[10]] of the
    function: there is no result when an answer is stored past their
    end. *)
Definition iso14443b_select_srx_card (card : option Card.t) : M (Z * option Card.t) :=
  (* INITIATE command: wake up the tag using the INITIATE *)
  let init_srx := [ISO14443B_INITIATE; 0; 151; 91] in
  CodeAndTransmit14443bAsReader init_srx ;;;
  retlen <- receive_answer 3 ISO14443B_READER_TIMEOUT ;;
  r_init <- response_array 3 ;;
  if retlen <=? 0 then ret (2, card)
  else
    (* Randomly generated Chip ID; Demod.output is r_init *)
    let card :=
      match card with
      | Some c =>
          Some (Card.mk (Card.uid c) (Card.uidlen c) (Card.atqb c)
                  (nth 0 r_init 0) (Card.cid c))
      | None => None
      end in
    (* SELECT command (with space for CRC) *)
    let select_srx := [ISO14443B_SELECT; 0; 0; 0] in
    let select_srx := array_blit select_srx 1 [nth 0 r_init 0] in
    let select_srx := AddCrc14B crc14b select_srx 2 in
    CodeAndTransmit14443bAsReader select_srx ;;;
    retlen <- receive_answer 3 ISO14443B_READER_TIMEOUT ;;
    r_select <- response_array 3 ;;
    if negb (retlen =? 3) then ret (2, card)
    (* Check the CRC of the answer *)
    else if negb (check_crc14b r_select retlen) then ret (3, card)
    (* Check response from the tag: should be the same UID as the command *)
    else if negb (nth 1 select_srx 0 =? nth 0 r_select 0) then ret (1, card)
    else
      (* First get the tag's UID *)
      let select_srx := array_blit select_srx 0 [ISO14443B_GET_UID] in
      let select_srx := AddCrc14B crc14b select_srx 1 in
      (* Only first three bytes for this one *)
      CodeAndTransmit14443bAsReader (firstn 3 select_srx) ;;;
      retlen <- receive_answer 10 ISO14443B_READER_TIMEOUT ;;
      r_papid <- response_array 10 ;;
      if negb (retlen =? 10) then ret (2, card)
      (* The check the CRC of the answer *)
      else if negb (check_crc14b r_papid retlen) then ret (3, card)
      else
        let card :=
          match card with
          | Some c =>
              Some (Card.mk (array_blit (Card.uid c) 0 (array_slice r_papid 0 8)) 8
                      (Card.atqb c) (Card.chipid c) (Card.cid c))
          | None => None
          end in
        ret (0, card).

(** ReadSTBlock.  [block] is the index in [mem] that the pointer [block]
    addresses, [None] for NULL; [mem] is the history of stores to the
    memory it points into.  The answer is received into the array
    [r_block[6]] of the function: there is no result when it is stored
    past its end. *)
Definition ReadSTBlock (blocknr : Z) (block : option Z) (mem : buffer)
  : M (bool * buffer) :=
  let cmd := [ISO14443B_READ_BLK; u8 blocknr; 0; 0] in
  let cmd := AddCrc14B crc14b cmd 2 in
  CodeAndTransmit14443bAsReader cmd ;;;
  retlen <- receive_answer 6 ISO14443B_READER_TIMEOUT ;;
  r_block <- response_array 6 ;;
  (* Check if we got an answer from the tag *)
  if negb (retlen =? 6) then ret (false, mem)
  (* The check the CRC of the answer *)
  else if negb (check_crc14b r_block retlen) then ret (false, mem)
  else
    ret (true,
         match block with
         | Some at_ => store_frame at_ (firstn 4 r_block) mem
         | None => mem
         end).

(** The [for (uint8_t i = 0; i < numofblocks; i++)] of ReadSTMemoryIso14443b
    from the test of its condition with [i]: whether the loop ended by its
    condition (and not by [break]) and the stores to [mem].  A turn per
    unit of [fuel]; without fuel the loop has not ended. *)
Fixpoint read_blocks (fuel : nat) (i numofblocks : Z) (mem : buffer)
  : M (bool * buffer) :=
  match fuel with
  | O => fun _ => None
  | S k =>
      if i <? numofblocks then
        r <- ReadSTBlock i (Some (i * 4)) mem ;;
        if negb (fst r) then ret (false, snd r)
        else read_blocks k (u8 (i + 1)) numofblocks (snd r)
      else ret (true, mem)
  end.

(** ReadSTMemoryIso14443b: the status and the length handed to reply_ng,
    and the stores to [mem] (the reply is the cells [0 .. length - 1] of
    [mem]).  [card] is the content of the local descriptor, which is not
    initialised. *)
Definition ReadSTMemoryIso14443b (fuel : nat) (numofblocks : Z) (card : Card.t)
  : M (pm3_status * Z * buffer) :=
  let numofblocks := u16 numofblocks in
  iso14443b_setup ;;;
  let mem : buffer := [] in
  res <- iso14443b_select_srx_card (Some card) ;;
  (* 0: OK 2: attrib fail, 3:crc fail *)
  if fst res >? 0 then ret (PM3_ETIMEOUT, numofblocks * 4, mem)
  else
    let numofblocks := u16 (numofblocks + 1) in
    lp <- read_blocks fuel 0 numofblocks mem ;;
    let isOK := if fst lp then PM3_SUCCESS else PM3_ETIMEOUT in
    (* System area block (0xFF) *)
    sys <- ReadSTBlock 255 (Some (numofblocks * 4)) (snd lp) ;;
    let isOK := if fst sys then isOK else PM3_ETIMEOUT in
    ret (isOK, numofblocks * 4, snd sys).

End ProtocolSRx.

(** An answer heard on the air: its reference vector, its TR1 in ETUs, its
    octets and what follows its EOF. *)
Record heard := mkHeard {
  heard_I : Z;
  heard_Q : Z;
  heard_tr1 : nat;
  heard_frame : list Z;
  heard_rest : list rx_event
}.

Definition heard_script (h : heard) : rx_script :=
  ideal_answer (heard_I h) (heard_Q h) (heard_tr1 h) (heard_frame h) (heard_rest h).

(** An answer of [n] octets that decodes and carries a good CRC. *)
Definition heard_ok (check_crc14b : list Z -> Z -> bool) (n : nat) (h : heard) : Prop :=
  hearable (heard_I h) (heard_Q h) (heard_tr1 h) (heard_frame h)
  /\ length (heard_frame h) = n
  /\ check_crc14b (heard_frame h) (Z.of_nat n) = true.

(** The four data bytes of each answer to READ_BLK, in order. *)
Definition blocks_data (blocks : list heard) : list Z :=
  flat_map (fun h => firstn 4 (heard_frame h)) blocks.

(** ** The simulated tag: coding an answer, receiving a command *)

(** The macro SEND4STUFFBIT. *)
Definition SEND4STUFFBIT (x : Z) (ts : ToSend.t) : ToSend.t :=
  tosend_stuffbit x (tosend_stuffbit x (tosend_stuffbit x (tosend_stuffbit x ts))).

(** [n] times SEND4STUFFBIT(x). *)
Fixpoint send4_times (n : nat) (x : Z) (ts : ToSend.t) : ToSend.t :=
  match n with
  | O => ts
  | S k => send4_times k x (SEND4STUFFBIT x ts)
  end.

(** The loop over the data bits of an octet: [b & 1] is sent and [b] is
    shifted right, [n] times. *)
Fixpoint code_tag_bits (n : nat) (b : Z) (ts : ToSend.t) : ToSend.t :=
  match n with
  | O => ts
  | S k => code_tag_bits k (u8 (Z.shiftr b 1)) (SEND4STUFFBIT (Z.land b 1) ts)
  end.

(** Body of the loop over the octets of the answer. *)
Definition code_tag_octet (ts : ToSend.t) (b : Z) : ToSend.t :=
  (* Start bit *)
  let ts := SEND4STUFFBIT 0 ts in
  (* Data bits *)
  let ts := code_tag_bits 8 (u8 b) ts in
  (* Stop bit *)
  SEND4STUFFBIT 1 ts.

Definition CodeIso14443bAsTag (cmd : list Z) : ToSend.t :=
  let ts := tosend_reset in
  (* Send TR1 *)
  let ts := send4_times 20 1 ts in
  (* Send SOF *)
  let ts := send4_times 10 0 ts in
  let ts := send4_times 2 1 ts in
  (* data *)
  let ts := fold_left code_tag_octet cmd ts in
  (* Send EOF *)
  let ts := send4_times 10 0 ts in
  (* why this? *)
  let ts := send4_times 2 1 ts in
  (* Convert from last byte pos to length *)
  {| ToSend.max := ToSend.max ts + 1; ToSend.bit := ToSend.bit ts;
     ToSend.buf := ToSend.buf ts |}.

(** One turn of the [while] of GetIso14443bCommandFromReader: what
    BUTTON_PRESS() returns, whether the SSC has a byte (RXRDY), and the
    receive holding register. *)
Record ssc_turn := mkTurn { button : bool; rxrdy : bool; rhr : Z }.

(** The [for (mask = 0x80; mask != 0x00; mask >>= 1)] over the bits of a
    byte from its test with [mask], a turn per unit of [fuel]: whether a
    sample completed a frame, and the UART after the last sample taken. *)
Fixpoint command_samples (fuel : nat) (mask b : Z) (u : Uart.t) : bool * Uart.t :=
  match fuel with
  | O => (false, u)
  | S k =>
      if mask =? 0 then (false, u)
      else
        let (eof, u1) := Handle14443bSampleFromReader (c_true (Z.land b mask)) u in
        if eof then (true, u1)
        else command_samples k (u8 (Z.shiftr mask 1)) b u1
  end.

(** The [while (BUTTON_PRESS() == false)]: the value returned, [*len] and
    the UART at the return; [None] when the given turns end before the loop
    does. *)
Fixpoint command_loop (turns : list ssc_turn) (len : Z) (u : Uart.t)
  : option (bool * Z * Uart.t) :=
  match turns with
  | [] => None
  | t :: r =>
      if button t then Some (false, len, u)
      else if rxrdy t then
        let b := u8 (rhr t) in
        let (eof, u1) := command_samples 9 128 b u in
        if eof then Some (true, u16 (Uart.byteCnt u1), u1)
        else command_loop r len u1
      else command_loop r len u
  end.

(** GetIso14443bCommandFromReader: [len] is the value of [*len] at the
    call. *)
Definition GetIso14443bCommandFromReader (MAX_FRAME_SIZE : Z) (turns : list ssc_turn)
    (len : Z) (u : Uart.t) : option (bool * Z * Uart.t) :=
  command_loop turns len (Uart14bInit MAX_FRAME_SIZE u).

(** The bytes the SSC delivers in the given turns. *)
Definition turn_bytes (turns : list ssc_turn) : list Z :=
  flat_map (fun t => if rxrdy t then [u8 (rhr t)] else []) turns.

(** The samples of a byte as the mask loop takes them. *)
Definition mask_samples (b : Z) : list bool :=
  map (fun mask => c_true (Z.land b mask)) [128; 64; 32; 16; 8; 4; 2; 1].

Definition mask_samples_ok (b : Z) : bool :=
  bools_eqb (mask_samples b) (byte_symbols 8 b).

(** The first state in which the UART signals a frame, if any, on the
    given samples. *)
Fixpoint uart_first_eof (samples : list bool) (u : Uart.t) : option Uart.t * Uart.t :=
  match samples with
  | [] => (None, u)
  | s :: r =>
      let (eof, u1) := Handle14443bSampleFromReader s u in
      if eof then (Some u1, u1) else uart_first_eof r u1
  end.

(** Eight samples per byte, the first in bit 7: the bytes the SSC delivers
    for a sample sequence (samples after the last whole byte are dropped). *)
Fixpoint ssc_bytes (samples : list bool) : list Z :=
  match samples with
  | s7 :: s6 :: s5 :: s4 :: s3 :: s2 :: s1 :: s0 :: r =>
      fold_left (fun acc (s : bool) => 2 * acc + (if s then 1 else 0))
        [s7; s6; s5; s4; s3; s2; s1; s0] 0
      :: ssc_bytes r
  | _ => []
  end.

(** Turns of the receive loop of the simulated tag in which the button is
    not pressed and the SSC has the next byte. *)
Definition ssc_turns (bytes : list Z) : list ssc_turn :=
  map (fun b => mkTurn false true b) bytes.

(** ** The simulated tag: a run of commands *)

(** The simulation loop on the commands it receives, given with their
    lengths: what the tag transmits in each turn, and the state after the
    last one. *)
Fixpoint sim_run (cmds : list (list Z * Z)) (cardSTATE : sim_state)
  : list sim_reply * sim_state :=
  match cmds with
  | [] => ([], cardSTATE)
  | (receivedCmd, len) :: r =>
      let (reply, st) := sim_turn receivedCmd len cardSTATE in
      let (replies, st1) := sim_run r st in
      (reply :: replies, st1)
  end.

(** ** The sniffer *)

(** The values of the enumeration of the UART states. *)
Definition uart_state_num (s : uart_state) : Z :=
  match s with
  | STATE_14B_UNSYNCD => 0
  | STATE_14B_GOT_FALLING_EDGE_OF_SOF => 1
  | STATE_14B_AWAITING_START_BIT => 2
  | STATE_14B_RECEIVING_DATA => 3
  end.

(** The state of SniffIso14443b: the two decoders, the three flags of the
    loop, and the frames handed to LogTrace, most recent first, each with
    the flag that tells a frame of the reader from one of the tag (the time
    stamps of the trace are left out).  The demodulator stores into
    [dm_buf], an array of MAX_FRAME_SIZE cells next to the flags. *)
Record sniffer := mkSniffer {
  sn_uart : Uart.t;
  sn_demod : Demod.t;
  tag_is_active : bool;
  reader_is_active : bool;
  expect_tag_answer : bool;
  sn_trace : list (list Z * bool)
}.

Section Sniffer.

Variable MAX_FRAME_SIZE : Z.

(** The state at the first turn of the loop: the demodulator is pointed at
    [dm_buf] and told its size, the UART at [ua_buf]. *)
Definition sniff_start (u : Uart.t) (d : Demod.t) : sniffer :=
  mkSniffer (Uart14bInit MAX_FRAME_SIZE u) (Demod14bInit MAX_FRAME_SIZE d)
    false false false [].

(** One of the two samples for the UART, and what follows when it
    completes a frame. *)
Definition sniff_reader_sample (bit : Z) (s : sniffer) : sniffer :=
  let (eof, u1) := Handle14443bSampleFromReader (c_true bit) (sn_uart s) in
  if eof then
    let trace :=
      if Uart.byteCnt u1 >? 0
      then (buf_bytes 0 (Uart.output u1) (Z.to_nat (Uart.byteCnt u1)), true)
           :: sn_trace s
      else sn_trace s in
    (* And ready to receive another command. *)
    mkSniffer (Uart14bReset MAX_FRAME_SIZE u1) (Demod14bReset (sn_demod s))
      (tag_is_active s) false true trace
  else
    mkSniffer u1 (sn_demod s) (tag_is_active s) (reader_is_active s)
      (expect_tag_answer s) (sn_trace s).

(** The part of a turn of the loop that follows the reading of the pair
    [(ci, cq)].  There is no result when the demodulator stores outside
    [dm_buf]. *)
Definition sniff_pair (ci cq : Z) (s : sniffer) : option sniffer :=
  (* no need to try decoding reader data if the tag is sending *)
  let s :=
    if negb (tag_is_active s) then
      let s := sniff_reader_sample (Z.land ci 1) s in
      let s := sniff_reader_sample (Z.land cq 1) s in
      mkSniffer (sn_uart s) (sn_demod s) (tag_is_active s)
        (uart_state_num (Uart.state (sn_uart s))
         >? uart_state_num STATE_14B_GOT_FALLING_EDGE_OF_SOF)
        (expect_tag_answer s) (sn_trace s)
    else s in
  (* no need to try decoding tag data if the reader is sending *)
  if negb (reader_is_active s) && expect_tag_answer s then
    let (eof, d1) :=
      Handle14443bSamplesFromTag (Z.shiftr ci 1) (Z.shiftr cq 1) (sn_demod s) in
    if negb (buf_within MAX_FRAME_SIZE (Demod.output d1)) then None
    else if eof then
      (* And ready to receive another response. *)
      Some (mkSniffer (Uart14bReset MAX_FRAME_SIZE (sn_uart s)) (Demod14bReset d1)
              false (reader_is_active s) false
              ((buf_bytes 0 (Demod.output d1) (Z.to_nat (Demod.len d1)), false)
               :: sn_trace s))
    else
      Some (mkSniffer (sn_uart s) d1
              (demod_state_num (Demod.state d1)
               >? demod_state_num DEMOD_GOT_FALLING_EDGE_OF_SOF)
              (reader_is_active s) (expect_tag_answer s) (sn_trace s))
  else Some s.

(** The [for (;;)] on the words the DMA delivers, up to the [break]; the
    state when the events end if the button is not pressed within them. *)
Fixpoint sniff_loop (evs : list rx_event) (s : sniffer) : option sniffer :=
  match evs with
  | [] => Some s
  | e :: r =>
      let ci := int8 (Z.shiftr (dma_word e) 8) in
      let cq := int8 (dma_word e) in
      if pressed e then Some s
      else match sniff_pair ci cq s with
           | Some s1 => sniff_loop r s1
           | None => None
           end
  end.

End Sniffer.

(** In the trace, most recent frame first, every frame of the tag comes
    right after a frame of the reader. *)
Fixpoint answers_follow (trace : list (list Z * bool)) : bool :=
  match trace with
  | [] => true
  | (_, true) :: r => answers_follow r
  | (_, false) :: r =>
      match r with
      | (_, true) :: _ => answers_follow r
      | _ => false
      end
  end.

(** The words the sniffer reads while a reader sends: two samples for the
    UART per word, in the low bits of the two bytes. *)
Fixpoint sniff_reader_events (samples : list bool) : list rx_event :=
  match samples with
  | s0 :: s1 :: r =>
      mkEvent (iq_word (if s0 then 1 else 0) (if s1 then 1 else 0)) false
      :: sniff_reader_events r
  | _ => []
  end.

(** The words the sniffer reads while a tag answers: the IQ pair above the
    low bits, which are set (the reader does not modulate). *)
Definition sniff_tag_events (pairs : list (Z * Z)) : list rx_event :=
  pairs_events (map (fun p => (2 * fst p + 1, 2 * snd p + 1)) pairs).

(** ** Frames with other timings than the encoders give them *)

(** A frame from a reader with [low] ETUs of zeros and [high] ETUs of ones
    in its SOF, and after each character the extra guard time given with
    it, in ETUs. *)
Definition timed_frame_bits (low high : nat) (chars : list (Z * nat)) : list bool :=
  repeat false low ++ repeat true high
  ++ flat_map (fun c => octet_bits (fst c) ++ repeat true (snd c)) chars
  ++ repeat false 10.

(** An answer of a tag with [tr1] ETUs of subcarrier before its SOF, the
    SOF and the guard times as in [timed_frame_bits]. *)
Definition timed_answer_bits (tr1 low high : nat) (chars : list (Z * nat)) : list bool :=
  repeat true tr1 ++ timed_frame_bits low high chars.

(** A character of a timed frame: an octet and at most [egt] ETUs of guard
    time. *)
Definition timed_char (egt : nat) (c : Z * nat) : Prop :=
  octet (fst c) /\ (snd c <= egt)%nat.

(** ** The time of a transmission *)






(** * Properties *)

(** ** Computations on the world *)

Lemma bind_returns {A B} (m : M A) (k : A -> M B) w b w2 :
  bind m k w = Some (b, w2) ->
  exists a w1, m w = Some (a, w1) /\ k a w1 = Some (b, w2).
Proof.
  unfold bind. destruct (m w) as [[a w1]|] eqn:E; [|discriminate].
  intros H. exists a, w1. split; [reflexivity|exact H].
Qed.

Lemma ret_returns {A} (a b : A) w w1 : ret a w = Some (b, w1) -> b = a /\ w1 = w.
Proof. unfold ret. intros H. inversion H. split; reflexivity. Qed.

Lemma same_session_refl w : same_session w w.
Proof. repeat split. Qed.

Lemma same_session_trans w w1 w2 :
  same_session w w1 -> same_session w1 w2 -> same_session w w2.
Proof.
  intros (A1 & A2 & A3) (B1 & B2 & B3). repeat split; congruence.
Qed.

Lemma transmit_session cmd w u w1 :
  CodeAndTransmit14443bAsReader cmd w = Some (u, w1) ->
  same_session w w1 /\ sent w1 = sent w ++ [cmd] /\ w_demod w1 = w_demod w.
Proof.
  unfold CodeAndTransmit14443bAsReader. intros H. inversion H. subst.
  repeat split.
Qed.

Lemma receive_session max_len timeout w r w1 :
  receive_answer max_len timeout w = Some (r, w1) ->
  same_session w w1 /\ sent w1 = sent w.
Proof.
  unfold receive_answer. destruct (air w) as [|sc rest]; [discriminate|].
  destruct (Get14443bAnswerFromTag max_len timeout sc (w_demod w)) as [[r0 d]|];
    [|discriminate].
  destruct (buf_within (u16 max_len) (Demod.output d)); [|discriminate].
  intros H. inversion H. subst. repeat split.
Qed.

Lemma response_array_returns n w l w1 :
  response_array n w = Some (l, w1) ->
  w1 = w /\ l = buf_bytes 0 (Demod.output (w_demod w)) n.
Proof. unfold response_array. intros H. inversion H. split; reflexivity. Qed.

(** ** The simulated tag and REQB in the Halted state *)

Lemma sim_request_gate_reqb cmd st :
  nth 0 cmd 0 = ISO14443B_REQB -> sim_request_gate cmd 5 st = SIM_SELECTING.
Proof.
  intros H. unfold sim_request_gate. rewrite H. simpl.
  rewrite orb_true_r. reflexivity.
Qed.

(** C5.  In the Halted state a command of five bytes that starts with 0x05
    moves the simulated tag to Selecting whatever bit 0x08 of byte 2 is: the
    REQB 05 00 00 71 FF, whose bit is clear, is not ignored; the turn of
    the loop transmits the ATQB and ends in Work. *)
Theorem sim_halted_reqb_not_ignored :
  Z.land (nth 2 cmdREQB 0) 8 = 0
  /\ sim_request_gate cmdREQB 5 SIM_HALTED = SIM_SELECTING
  /\ sim_turn cmdREQB 5 SIM_HALTED = (ReplyATQB, SIM_WORK).
Proof. repeat split. Qed.

(** ** The block number of the PCB *)

Lemma testbit_u8 x i : Z.testbit (u8 x) i = (i <? 8) && Z.testbit x i.
Proof.
  unfold u8. change 256 with (2 ^ 8).
  destruct (Z.ltb_spec i 0) as [Hneg|Hpos].
  - rewrite !Z.testbit_neg_r by assumption. rewrite andb_false_r. reflexivity.
  - rewrite Z.testbit_mod_pow2 by lia. reflexivity.
Qed.

Lemma testbit_one i : Z.testbit 1 i = (i =? 0).
Proof.
  destruct (Z.eqb_spec i 0) as [->|Hne]; [reflexivity|].
  destruct (Z.ltb_spec i 0).
  - apply Z.testbit_neg_r. assumption.
  - change 1 with (2 ^ 0). apply Z.pow2_bits_false. lia.
Qed.

Lemma pcb_byte_toggle p :
  let pcb1 := u8 (Z.lor 10 p) in
  let pcb2 := u8 (Z.lor 10 (u8 (Z.lxor p 1))) in
  Z.testbit pcb1 0 <> Z.testbit pcb2 0
  /\ forall i, i <> 0 -> Z.testbit pcb1 i = Z.testbit pcb2 i.
Proof.
  cbv zeta. split.
  - rewrite !testbit_u8, !Z.lor_spec, testbit_u8, Z.lxor_spec.
    change (Z.testbit 10 0) with false. change (Z.testbit 1 0) with true.
    change (0 <? 8) with true.
    destruct (Z.testbit p 0); simpl; discriminate.
  - intros i Hi. rewrite !testbit_u8, !Z.lor_spec, testbit_u8, Z.lxor_spec.
    rewrite testbit_one. destruct (Z.eqb_spec i 0) as [|_]; [contradiction|].
    rewrite xorb_false_r. destruct (i <? 8); reflexivity.
Qed.

Lemma AddCrc14B_head crc a b rest n :
  nth 0 (AddCrc14B crc (a :: b :: rest) (S (S n))) 0 = a.
Proof. reflexivity. Qed.

Section Apdu.

Variable crc14b : list Z -> Z.
Variable check_crc14b : list Z -> Z -> bool.

(** Every call of iso14443b_apdu that returns has transmitted one frame
    whose first byte is 0x0A | pcb_blocknum and has toggled pcb_blocknum,
    whatever the reply was. *)
Lemma apdu_toggles message response respmaxlen w r w1 :
  iso14443b_apdu crc14b check_crc14b message response respmaxlen w = Some (r, w1) ->
  pcb_blocknum w1 = u8 (Z.lxor (pcb_blocknum w) 1)
  /\ exists frame, sent w1 = sent w ++ [frame]
                   /\ nth 0 frame 0 = u8 (Z.lor 10 (pcb_blocknum w)).
Proof.
  unfold iso14443b_apdu. intros H.
  apply bind_returns in H. destruct H as (p & wa & Hget & H).
  unfold get_pcb_blocknum in Hget. inversion Hget. subst p wa. clear Hget.
  apply bind_returns in H. destruct H as ([] & wb & Hset & H).
  unfold set_pcb_blocknum in Hset. inversion Hset. subst wb. clear Hset.
  apply bind_returns in H. destruct H as ([] & wc & Htx & H).
  apply transmit_session in Htx. destruct Htx as ((T1 & T2 & T3) & Tsent & _).
  simpl in T1, Tsent.
  assert (Hrest : pcb_blocknum w1 = pcb_blocknum wc /\ sent w1 = sent wc).
  { destruct response; simpl in H.
    - apply bind_returns in H. destruct H as (retlen & wd & Hrx & H).
      apply receive_session in Hrx. destruct Hrx as ((R1 & _) & Rsent).
      apply bind_returns in H. destruct H as (resp & we & Hresp & H).
      apply response_array_returns in Hresp. destruct Hresp as [-> _].
      destruct (retlen <? 3);
        [|destruct (negb (check_crc14b resp retlen))];
        apply ret_returns in H; destruct H as [_ ->]; split; assumption.
    - apply ret_returns in H. destruct H as [_ ->]. split; reflexivity. }
  destruct Hrest as [Hp Hs]. split.
  - rewrite Hp, T1. reflexivity.
  - eexists. split.
    + rewrite Hs, Tsent. reflexivity.
    + replace (length message + 2)%nat with (S (S (length message))) by lia.
      apply AddCrc14B_head.
Qed.

(** C4.  pcb_blocknum is toggled once by every exchange that returns,
    whatever the reply; the PCB byte transmitted is 0x0A | pcb_blocknum
    as it was before the toggle, so the PCB bytes of two consecutive
    exchanges differ in bit 0 and agree in every other bit. *)
Theorem apdu_pcb_toggle m1 resp1 max1 m2 resp2 max2 w r1 w1 r2 w2 :
  iso14443b_apdu crc14b check_crc14b m1 resp1 max1 w = Some (r1, w1) ->
  iso14443b_apdu crc14b check_crc14b m2 resp2 max2 w1 = Some (r2, w2) ->
  exists f1 f2,
    sent w2 = sent w ++ [f1; f2]
    /\ nth 0 f1 0 = u8 (Z.lor 10 (pcb_blocknum w))
    /\ nth 0 f2 0 = u8 (Z.lor 10 (pcb_blocknum w1))
    /\ pcb_blocknum w1 = u8 (Z.lxor (pcb_blocknum w) 1)
    /\ pcb_blocknum w2 = u8 (Z.lxor (pcb_blocknum w1) 1)
    /\ Z.testbit (nth 0 f1 0) 0 <> Z.testbit (nth 0 f2 0) 0
    /\ forall i, i <> 0 -> Z.testbit (nth 0 f1 0) i = Z.testbit (nth 0 f2 0) i.
Proof.
  intros H1 H2.
  apply apdu_toggles in H1. destruct H1 as (P1 & f1 & S1 & F1).
  apply apdu_toggles in H2. destruct H2 as (P2 & f2 & S2 & F2).
  exists f1, f2. rewrite S2, S1, <- app_assoc. simpl.
  repeat split; try assumption.
  - rewrite F1, F2, P1. apply pcb_byte_toggle.
  - rewrite F1, F2, P1. apply pcb_byte_toggle.
Qed.

End Apdu.

(** Two exchanges after a selection: an exchange answered by an I-block and
    an exchange without response buffer. *)
Lemma apdu_pcb_toggle_witness :
  exists w1 w2 f1 f2,
    iso14443b_apdu crc_x25 check_crc_x25 [144; 0] true 256
      (fresh_world 256 [tag_answer respIBlock]) = Some (6, w1)
    /\ iso14443b_apdu crc_x25 check_crc_x25 [144; 0] false 256 w1 = Some (0, w2)
    /\ sent w2 = [f1; f2]
    /\ nth 0 f1 0 = 10 /\ nth 0 f2 0 = 11
    /\ pcb_blocknum w1 = 1 /\ pcb_blocknum w2 = 0.
Proof.
  destruct (iso14443b_apdu crc_x25 check_crc_x25 [144; 0] true 256
              (fresh_world 256 [tag_answer respIBlock])) as [[r1 w1]|] eqn:E1;
    [|vm_compute in E1; discriminate].
  destruct (iso14443b_apdu crc_x25 check_crc_x25 [144; 0] false 256 w1)
    as [[r2 w2]|] eqn:E2;
    [|vm_compute in E1; inversion E1; subst; vm_compute in E2; discriminate].
  destruct (apdu_pcb_toggle crc_x25 check_crc_x25 _ _ _ _ _ _ _ _ _ _ _ E1 E2)
    as (f1 & f2 & S2 & F1 & F2 & P1 & P2 & _).
  assert (R1 : r1 = 6) by (vm_compute in E1; inversion E1; reflexivity).
  assert (R2 : r2 = 0).
  { vm_compute in E1. inversion E1. subst. vm_compute in E2. inversion E2.
    reflexivity. }
  subst r1 r2. exists w1, w2, f1, f2. split; [reflexivity|].
  split; [exact E2|]. split; [exact S2|]. split; [exact F1|].
  split; [rewrite F2, P1; reflexivity|]. split; [exact P1|].
  rewrite P2, P1. reflexivity.
Defined.

(** ** Bytes decoded by the demodulator are octets *)

Lemma u8_octet x : octet (u8 x).
Proof. unfold octet, u8. apply Z.mod_pos_bound. lia. Qed.

Tactic Notation "step" hyp(H) "as" ident(a) ident(w) ident(E) :=
  apply bind_returns in H; destruct H as (a & w & E & H).

Ltac split_ifs_in H :=
  repeat match type of H with
         | context [if ?c then _ else _] => destruct c eqn:?
         end.

Ltac split_ifs :=
  repeat match goal with
         | |- context [if ?c then _ else _] => destruct c eqn:?
         end.

Lemma demod_step_octets ci cq d :
  octet_cells (Demod.output d) ->
  octet_cells (Demod.output (snd (Handle14443bSamplesFromTag ci cq d))).
Proof.
  intros H. unfold Handle14443bSamplesFromTag.
  destruct (Demod.state d);
    [ unfold demod_unsyncd | unfold demod_phase_ref_training
    | unfold demod_awaiting_falling_edge_of_sof
    | unfold demod_got_falling_edge_of_sof
    | unfold demod_awaiting_start_bit | unfold demod_receiving_data ];
    cbv zeta; split_ifs; simpl; try assumption.
  all: constructor; [apply u8_octet | assumption].
Qed.

Lemma answer_loop_octets timeout evs : forall samples d ret d1,
  octet_cells (Demod.output d) ->
  answer_loop timeout evs samples d = Some (ret, d1) ->
  octet_cells (Demod.output d1).
Proof.
  induction evs as [|e r IH]; intros samples d ret d1 Hd H; simpl in H.
  - discriminate.
  - destruct (pressed e).
    + inversion H. subst. assumption.
    + pose proof (demod_step_octets (int8 (Z.shiftr (dma_word e) 8))
                    (int8 (dma_word e)) d Hd) as Hs.
      destruct (Handle14443bSamplesFromTag _ _ d) as [eof d2]. simpl in Hs.
      destruct eof.
      * inversion H. subst. assumption.
      * destruct (_ && _).
        -- inversion H. subst. assumption.
        -- eapply IH; eassumption.
Qed.

Lemma Get14443bAnswerFromTag_octets max_len timeout sc d r d1 :
  Get14443bAnswerFromTag max_len timeout sc d = Some (r, d1) ->
  octet_cells (Demod.output d1).
Proof.
  unfold Get14443bAnswerFromTag. destruct (negb (dma_ok sc)).
  - intros H. inversion H. constructor.
  - destruct (answer_loop _ _ _ _) as [[ret d2]|] eqn:E; [|discriminate].
    intros H. assert (d1 = d2) by (destruct (ret <? 0); inversion H; reflexivity).
    subst d2. eapply answer_loop_octets; [|exact E]. constructor.
Qed.

Lemma buf_get_octet b i : octet_cells b -> octet (buf_get 0 b i).
Proof.
  induction b as [|[j v] r IH]; intros H; simpl.
  - unfold octet. lia.
  - inversion H; subst. destruct (j =? i); [assumption|auto].
Qed.

Lemma receive_answer_octets max_len timeout w r w1 :
  receive_answer max_len timeout w = Some (r, w1) ->
  octet_cells (Demod.output (w_demod w1)).
Proof.
  unfold receive_answer. destruct (air w) as [|sc rest]; [discriminate|].
  destruct (Get14443bAnswerFromTag _ _ _ _) as [[r0 d]|] eqn:E; [|discriminate].
  destruct (buf_within (u16 max_len) (Demod.output d)); [|discriminate].
  intros H. inversion H. subst. simpl.
  eapply Get14443bAnswerFromTag_octets. exact E.
Qed.

Lemma nth_buf_bytes b n k :
  (k < n)%nat -> nth k (buf_bytes 0 b n) 0 = buf_get 0 b (Z.of_nat k).
Proof.
  intros Hk. unfold buf_bytes.
  rewrite (nth_indep _ 0 (buf_get 0 b (Z.of_nat O)))
    by (rewrite length_map, length_seq; assumption).
  rewrite (map_nth (fun k => buf_get 0 b (Z.of_nat k))).
  rewrite seq_nth by assumption. reflexivity.
Qed.

(** ** iso14443b_select_card *)

(** The high nibble of an octet. *)
Lemma high_nibble v : octet v -> 0 <= Z.shiftr v 4 <= 15.
Proof.
  unfold octet. intros H. rewrite Z.shiftr_div_pow2 by lia.
  change (2 ^ 4) with 16. split.
  - apply Z.div_pos; lia.
  - assert (v / 16 < 16) by (apply Z.div_lt_upper_bound; lia). lia.
Qed.

(** The decoded frame size for each value of the frame-size nibble. *)
Lemma select_card_maxFrame_nibble v :
  octet v ->
  select_card_maxFrame v =
  (let n := Z.shiftr v 4 in
   if n <? 5 then 8 * n + 16
   else if n =? 5 then 64
   else if n =? 6 then 96
   else if n =? 7 then 128
   else if n =? 8 then 256
   else 257).
Proof.
  intros Hv. apply high_nibble in Hv. unfold select_card_maxFrame. cbv zeta.
  replace (u16 (Z.shiftr v 4)) with (Z.shiftr v 4)
    by (unfold u16; rewrite Z.mod_small; lia).
  destruct (Z.ltb_spec (Z.shiftr v 4) 5); [|reflexivity].
  unfold u16. rewrite Z.mod_small; lia.
Qed.

Section SelectCard.

Variable MAX_FRAME_SIZE : Z.
Variable crc14b : list Z -> Z.
Variable check_crc14b : list Z -> Z -> bool.


(** The setters under [if (card)], for an ATQB of octets. *)
Lemma select_card_params_returns c r_attrib w c1 w1 :
  octet (nth 5 (Card.atqb c) 0) -> octet (nth 6 (Card.atqb c) 0) ->
  select_card_params MAX_FRAME_SIZE c r_attrib w = Some (c1, w1) ->
  Card.atqb c1 = Card.atqb c
  /\ pcb_blocknum w1 = pcb_blocknum w
  /\ iso14b_timeout w1 = Z.shiftl 302 (Z.shiftr (nth 6 (Card.atqb c) 0) 4)
  /\ Uart.byteCntMax (w_uart w1) =
     (if Z.shiftr (nth 5 (Card.atqb c) 0) 4 <=? 8
      then select_card_maxFrame (nth 5 (Card.atqb c) 0)
      else u16 MAX_FRAME_SIZE).
Proof.
  intros H5 H6. pose proof (select_card_maxFrame_nibble _ H5) as Hmf.
  apply high_nibble in H5, H6.
  unfold select_card_params. cbv zeta. simpl Card.atqb.
  remember (Z.shiftr (nth 5 (Card.atqb c) 0) 4) as nib eqn:En.
  remember (Z.shiftr (nth 6 (Card.atqb c) 0) 4) as k eqn:Ek.
  replace (u8 k) with k by (unfold u8; rewrite Z.mod_small; lia).
  destruct (Z.ltb_spec k 16) as [_|]; [|lia].
  intros H. step H as u1 wa Ea. unfold set_maxframesize in Ea.
  inversion Ea. subst wa. clear Ea.
  step H as u2 wb Eb. unfold iso14b_set_timeout in Eb.
  inversion Eb. subst wb. clear Eb.
  apply ret_returns in H. destruct H as [-> ->]. simpl.
  repeat split.
  - assert (Hk : 0 <= Z.shiftl 302 k <= 302 * 2 ^ 15).
    { rewrite Z.shiftl_mul_pow2 by lia. split; [apply Z.mul_nonneg_nonneg; lia|].
      apply Z.mul_le_mono_nonneg_l; [lia|].
      apply Z.pow_le_mono_r; lia. }
    change (302 * 2 ^ 15) with 9895936 in Hk.
    unfold u32. rewrite Z.mod_small by lia.
    unfold MAX_TIMEOUT. destruct (Z.gtb_spec (Z.shiftl 302 k) 40542464); [lia|].
    reflexivity.
  - unfold iso14b_set_maxframesize. cbv zeta. simpl Uart.byteCntMax.
    rewrite Hmf. clear Hmf En.
    cbv zeta.
    destruct (Z.leb_spec nib 8), (Z.ltb_spec nib 5); try lia.
    + unfold u16. rewrite (Z.mod_small (8 * nib + 16)) by lia.
      destruct (Z.gtb_spec (8 * nib + 16) 256); [lia|reflexivity].
    + destruct (Z.eqb_spec nib 5); [reflexivity|].
      destruct (Z.eqb_spec nib 6); [reflexivity|].
      destruct (Z.eqb_spec nib 7); [reflexivity|].
      destruct (Z.eqb_spec nib 8); [reflexivity|lia].
    + destruct (Z.eqb_spec nib 5); [lia|]. destruct (Z.eqb_spec nib 6); [lia|].
      destruct (Z.eqb_spec nib 7); [lia|]. destruct (Z.eqb_spec nib 8); [lia|].
      reflexivity.
Qed.

(** The three ways out of iso14443b_select_card. *)
Lemma select_card_cases card w r card1 w1 :
  iso14443b_select_card MAX_FRAME_SIZE crc14b check_crc14b card w
  = Some ((r, card1), w1) ->
  ((r = -1 \/ r = -2) /\ same_session w w1)
  \/ (r = 0 /\ pcb_blocknum w1 = 0
      /\ match card with
         | None =>
             card1 = None /\ iso14b_timeout w1 = iso14b_timeout w
             /\ w_uart w1 = w_uart w
         | Some _ =>
             exists c1, card1 = Some c1
               /\ octet (nth 5 (Card.atqb c1) 0) /\ octet (nth 6 (Card.atqb c1) 0)
               /\ iso14b_timeout w1
                  = Z.shiftl 302 (Z.shiftr (nth 6 (Card.atqb c1) 0) 4)
               /\ Uart.byteCntMax (w_uart w1) =
                  (if Z.shiftr (nth 5 (Card.atqb c1) 0) 4 <=? 8
                   then select_card_maxFrame (nth 5 (Card.atqb c1) 0)
                   else u16 MAX_FRAME_SIZE)
         end).
Proof.
  unfold iso14443b_select_card. intros H.
  step H as u1 wa Ea. apply transmit_session in Ea. destruct Ea as (Sa & _).
  step H as retlen wb Eb. pose proof (receive_answer_octets _ _ _ _ _ Eb) as Hoct.
  apply receive_session in Eb. destruct Eb as (Sb & _).
  step H as r_pupid wc Ec. apply response_array_returns in Ec.
  destruct Ec as [-> Hpupid].
  pose proof (same_session_trans _ _ _ Sa Sb) as Sab.
  destruct (retlen <? 14).
  { apply ret_returns in H. destruct H as [H ->]. inversion H. subst.
    left. split; [left; reflexivity | assumption]. }
  destruct (negb (check_crc14b r_pupid retlen)).
  { apply ret_returns in H. destruct H as [H ->]. inversion H. subst.
    left. split; [right; reflexivity | assumption]. }
  cbv zeta in H.
  step H as u2 wd Ed. apply transmit_session in Ed. destruct Ed as (Sd & _).
  step H as retlen2 we Ee. apply receive_session in Ee. destruct Ee as (Se & _).
  step H as r_attrib wf Ef. apply response_array_returns in Ef.
  destruct Ef as [-> _].
  pose proof (same_session_trans _ _ _ Sab (same_session_trans _ _ _ Sd Se)) as Sall.
  destruct (retlen2 <? 3).
  { apply ret_returns in H. destruct H as [H ->]. inversion H. subst.
    left. split; [left; reflexivity | assumption]. }
  destruct (negb (check_crc14b r_attrib retlen2)).
  { apply ret_returns in H. destruct H as [H ->]. inversion H. subst.
    left. split; [right; reflexivity | assumption]. }
  right. step H as card2 wg Eg.
  step H as u3 wh Eh. unfold set_pcb_blocknum in Eh. inversion Eh. subst wh.
  clear Eh. apply ret_returns in H. destruct H as [H ->]. inversion H. subst.
  split; [reflexivity|]. split; [reflexivity|]. simpl.
  destruct card as [c|].
  - step Eg as c1 wi Ei. apply ret_returns in Eg. destruct Eg as [-> ->].
    assert (O5 : octet (nth 10 (buf_bytes 0 (Demod.output (w_demod wb)) 14) 0)).
    { rewrite nth_buf_bytes by lia. apply buf_get_octet. assumption. }
    assert (O6 : octet (nth 11 (buf_bytes 0 (Demod.output (w_demod wb)) 14) 0)).
    { rewrite nth_buf_bytes by lia. apply buf_get_octet. assumption. }
    apply select_card_params_returns in Ei; [|exact O5|exact O6].
    destruct Ei as (Hatqb & _ & Ht & Hm).
    exists c1. split; [reflexivity|]. rewrite Hatqb.
    split; [exact O5|]. split; [exact O6|]. split; assumption.
  - apply ret_returns in Eg. destruct Eg as [-> ->].
    destruct Sall as (_ & S2 & S3). repeat split; assumption.
Qed.

(** C10.  When iso14443b_select_card returns a value other than 0, the
    value is -1 or -2 and pcb_blocknum, iso14b_timeout and Uart.byteCntMax
    (the whole UART, in fact) are as they were at entry.  A call in which
    an answer is stored past the end of r_pupid or r_attrib has no
    return. *)
Theorem select_card_failure_keeps_session card w r card1 w1 :
  iso14443b_select_card MAX_FRAME_SIZE crc14b check_crc14b card w
  = Some ((r, card1), w1) ->
  r <> 0 ->
  (r = -1 \/ r = -2)
  /\ pcb_blocknum w1 = pcb_blocknum w
  /\ iso14b_timeout w1 = iso14b_timeout w
  /\ Uart.byteCntMax (w_uart w1) = Uart.byteCntMax (w_uart w)
  /\ w_uart w1 = w_uart w.
Proof.
  intros H Hr. apply select_card_cases in H.
  destruct H as [(Hv & S1 & S2 & S3) | (H0 & _)]; [|contradiction].
  rewrite S3. repeat split; assumption.
Qed.



End SelectCard.




(** A selection that hears nothing for 1701 sample pairs fails with -1 and
    leaves the session as it was. *)
Lemma select_card_failure_keeps_session_witness :
  exists card1 w1,
    iso14443b_select_card 256 crc_x25 check_crc_x25 (Some blank_card)
      (fresh_world 256 [silence 1701])
    = Some ((-1, card1), w1)
    /\ pcb_blocknum w1 = 0 /\ iso14b_timeout w1 = 35312
    /\ Uart.byteCntMax (w_uart w1) = 256.
Proof.
  destruct (iso14443b_select_card 256 crc_x25 check_crc_x25 (Some blank_card)
              (fresh_world 256 [silence 1701]))
    as [[[r card1] w1]|] eqn:E; [|vm_compute in E; discriminate].
  assert (Hr : r = -1) by (vm_compute in E; inversion E; reflexivity).
  subst r.
  destruct (select_card_failure_keeps_session 256 crc_x25 check_crc_x25 _ _ _ _ _ E)
    as (_ & Hp & Ht & Hm & _); [discriminate|].
  exists card1, w1. split; [reflexivity|].
  rewrite Hp, Ht, Hm. repeat split.
Defined.

(** An answer to WUPB of fifteen octets does not fit r_pupid: its last
    octet is stored past the end of the array, and the selection has no
    result. *)
Lemma select_card_answer_past_array :
  iso14443b_select_card 256 crc_x25 check_crc_x25 (Some blank_card)
    (fresh_world 256 [tag_answer (respATQB ++ [0])]) = None.
Proof. vm_compute. reflexivity. Qed.

(** ** The receive loop of Get14443bAnswerFromTag *)

Lemma answer_loop_cons timeout e r samples d :
  answer_loop timeout (e :: r) samples d =
  match answer_loop timeout [e] samples d with
  | Some x => Some x
  | None => answer_loop timeout r (samples + 1)
              (snd (Handle14443bSamplesFromTag (event_ci e) (event_cq e) d))
  end.
Proof.
  unfold event_ci, event_cq. simpl. destruct (pressed e); [reflexivity|].
  destruct (Handle14443bSamplesFromTag _ _ d) as [eof d1]. simpl.
  destruct eof; [reflexivity|]. destruct (_ && _); reflexivity.
Qed.

Lemma loop_continues_cons timeout e r samples d :
  loop_continues timeout (e :: r) samples d =
  match answer_loop timeout [e] samples d with
  | Some _ => None
  | None => loop_continues timeout r (samples + 1)
              (snd (Handle14443bSamplesFromTag (event_ci e) (event_cq e) d))
  end.
Proof. reflexivity. Qed.

Lemma answer_loop_app timeout pre rest : forall samples d n d0,
  loop_continues timeout pre samples d = Some (n, d0) ->
  answer_loop timeout (pre ++ rest) samples d = answer_loop timeout rest n d0.
Proof.
  induction pre as [|e r IH]; intros samples d n d0 H.
  - simpl in H. inversion H. reflexivity.
  - change ((e :: r) ++ rest) with (e :: (r ++ rest)).
    rewrite answer_loop_cons. rewrite loop_continues_cons in H.
    destruct (answer_loop timeout [e] samples d); [discriminate|].
    apply IH. exact H.
Qed.

Lemma answer_loop_exit timeout evs : forall samples d x,
  answer_loop timeout evs samples d = Some x ->
  exists pre e post n d0,
    evs = pre ++ e :: post
    /\ loop_continues timeout pre samples d = Some (n, d0)
    /\ answer_loop timeout [e] n d0 = Some x.
Proof.
  induction evs as [|e r IH]; intros samples d x H.
  - discriminate.
  - rewrite answer_loop_cons in H.
    destruct (answer_loop timeout [e] samples d) as [y|] eqn:E.
    + inversion H. subst y. exists [], e, r, samples, d. repeat split. exact E.
    + apply IH in H. destruct H as (pre & e1 & post & n & d0 & -> & Hc & Hx).
      exists (e :: pre), e1, post, n, d0. split; [reflexivity|].
      split; [|exact Hx]. rewrite loop_continues_cons, E. exact Hc.
Qed.

(** The three exits of one turn of the loop. *)
Lemma answer_loop_turn timeout e samples d ret d1 :
  answer_loop timeout [e] samples d = Some (ret, d1) ->
  (pressed e = true /\ ret = 0 /\ d1 = d)
  \/ (pressed e = false
      /\ Handle14443bSamplesFromTag (event_ci e) (event_cq e) d = (true, d1)
      /\ ret = (if Demod.len d1 >? Demod.max_len d1 then -2 else 0))
  \/ (pressed e = false
      /\ Handle14443bSamplesFromTag (event_ci e) (event_cq e) d = (false, d1)
      /\ samples + 1 > timeout /\ Demod.state d1 = DEMOD_UNSYNCD /\ ret = -1).
Proof.
  unfold event_ci, event_cq. simpl. destruct (pressed e).
  - intros H. inversion H. left. repeat split.
  - destruct (Handle14443bSamplesFromTag _ _ d) as [eof d2]. destruct eof.
    + intros H. inversion H. subst. right. left. repeat split.
    + destruct (Z.gtb_spec (samples + 1) timeout) as [Hgt|Hle]; simpl.
      * destruct (Demod.state d2) eqn:Es; simpl; try discriminate.
        intros H. inversion H. subst. right. right. repeat split; try assumption.
        lia.
      * discriminate.
Qed.

(** The byte count of the demodulator is never negative. *)
Lemma demod_step_len ci cq d :
  0 <= Demod.len d -> 0 <= Demod.len (snd (Handle14443bSamplesFromTag ci cq d)).
Proof.
  intros H. unfold Handle14443bSamplesFromTag.
  destruct (Demod.state d);
    [ unfold demod_unsyncd | unfold demod_phase_ref_training
    | unfold demod_awaiting_falling_edge_of_sof
    | unfold demod_got_falling_edge_of_sof
    | unfold demod_awaiting_start_bit | unfold demod_receiving_data ];
    cbv zeta; split_ifs; simpl; try assumption; try lia.
  all: unfold u16; apply Z.mod_pos_bound; lia.
Qed.

Lemma loop_continues_len timeout pre : forall samples d n d0,
  0 <= Demod.len d ->
  loop_continues timeout pre samples d = Some (n, d0) ->
  0 <= Demod.len d0.
Proof.
  induction pre as [|e r IH]; intros samples d n d0 Hd H.
  - simpl in H. inversion H. subst. exact Hd.
  - rewrite loop_continues_cons in H.
    destruct (answer_loop timeout [e] samples d); [discriminate|].
    eapply IH; [|exact H]. apply demod_step_len. exact Hd.
Qed.

(** Get14443bAnswerFromTag returns -2 exactly when its loop reaches a
    sample pair at which the demodulator signals EOF with more decoded
    bytes than max_len: the function then returns -2 with the demodulator
    as that EOF left it, and it returns -2 in no other way. *)
Lemma get_answer_overflow_exit max_len timeout sc d d1 :
  Get14443bAnswerFromTag max_len timeout sc d = Some (-2, d1)
  <->
  (dma_ok sc = true
   /\ exists pre e post n d0,
        events sc = pre ++ e :: post
        /\ loop_continues timeout pre 0 (Demod14bInit max_len d) = Some (n, d0)
        /\ pressed e = false
        /\ Handle14443bSamplesFromTag (event_ci e) (event_cq e) d0 = (true, d1)
        /\ Demod.len d1 > Demod.max_len d1).
Proof.
  unfold Get14443bAnswerFromTag. split.
  - destruct (dma_ok sc); simpl; [|discriminate].
    destruct (answer_loop _ _ _ _) as [[ret d2]|] eqn:E; [|discriminate].
    intros H. split; [reflexivity|].
    apply answer_loop_exit in E.
    destruct E as (pre & e & post & n & d0 & Hev & Hc & Hx).
    assert (Hlen : 0 <= Demod.len d0)
      by (eapply loop_continues_len; [|exact Hc]; simpl; lia).
    exists pre, e, post, n, d0. split; [exact Hev|]. split; [exact Hc|].
    apply answer_loop_turn in Hx.
    destruct Hx as [(_ & -> & ->) | [(Hp & Hh & ->) | (_ & Hh & _ & _ & ->)]].
    + simpl in H. inversion H. lia.
    + pose proof (demod_step_len (event_ci e) (event_cq e) d0 Hlen) as Hl.
      rewrite Hh in Hl. simpl in Hl.
      destruct (Z.gtb_spec (Demod.len d2) (Demod.max_len d2)); simpl in H.
      * inversion H. subst d2. repeat split; try assumption. lia.
      * inversion H. lia.
    + simpl in H. inversion H.
  - intros (Hok & pre & e & post & n & d0 & Hev & Hc & Hp & Hh & Hgt).
    rewrite Hok, Hev. simpl negb. cbv iota.
    rewrite (answer_loop_app _ _ _ _ _ _ _ Hc). rewrite answer_loop_cons.
    unfold answer_loop. fold event_ci event_cq. rewrite Hp.
    fold (event_ci e). fold (event_cq e). rewrite Hh.
    destruct (Z.gtb_spec (Demod.len d1) (Demod.max_len d1)); [|lia].
    reflexivity.
Qed.

(** ** What a step of the demodulator does to the counters and the stores *)

(** The four kinds of steps of the demodulator: an SOF is accepted; a bit
    is completed and a byte stored; a bit is completed and nothing stored;
    any other step, which keeps the counters and the stores. *)
Lemma demod_step_kind ci cq d :
  let d1 := snd (Handle14443bSamplesFromTag ci cq d) in
  (Demod.state d = DEMOD_GOT_FALLING_EDGE_OF_SOF
   /\ Demod.state d1 = DEMOD_AWAITING_START_BIT
   /\ Demod.len d1 = 0 /\ Demod.bitCount d1 = 0
   /\ Demod.output d1 = Demod.output d)
  \/ (Demod.state d = DEMOD_RECEIVING_DATA /\ Demod.posCount d <> 0
      /\ Demod.state d1 = DEMOD_AWAITING_START_BIT
      /\ (exists v, Demod.output d1 = (Demod.len d, v) :: Demod.output d)
      /\ Demod.len d1 = u16 (Demod.len d + 1) /\ Demod.bitCount d1 = 0
      /\ u16 (Demod.bitCount d + 1) = 10)
  \/ (Demod.state d = DEMOD_RECEIVING_DATA /\ Demod.posCount d <> 0
      /\ Demod.output d1 = Demod.output d /\ Demod.len d1 = Demod.len d
      /\ Demod.bitCount d1 = u16 (Demod.bitCount d + 1)
      /\ (Demod.state d1 = DEMOD_RECEIVING_DATA /\ Demod.bitCount d1 <> 10
          \/ Demod.state d1 = DEMOD_UNSYNCD))
  \/ (Demod.output d1 = Demod.output d /\ Demod.len d1 = Demod.len d
      /\ Demod.bitCount d1 = Demod.bitCount d
      /\ (Demod.state d = DEMOD_RECEIVING_DATA -> Demod.posCount d = 0)
      /\ (Demod.state d = DEMOD_GOT_FALLING_EDGE_OF_SOF ->
          Demod.state d1 <> DEMOD_AWAITING_START_BIT)
      /\ (Demod.state d1 = DEMOD_AWAITING_START_BIT ->
          Demod.state d = DEMOD_AWAITING_START_BIT)
      /\ (Demod.state d1 = DEMOD_RECEIVING_DATA ->
          Demod.state d = DEMOD_AWAITING_START_BIT
          \/ Demod.state d = DEMOD_RECEIVING_DATA)).
Proof.
  cbv zeta. unfold Handle14443bSamplesFromTag.
  destruct (Demod.state d) eqn:Es;
    [ unfold demod_unsyncd | unfold demod_phase_ref_training
    | unfold demod_awaiting_falling_edge_of_sof
    | unfold demod_got_falling_edge_of_sof
    | unfold demod_awaiting_start_bit | unfold demod_receiving_data ];
    cbv zeta; split_ifs; cbn -[Z.mul u16 u8 Z.shiftr Z.lor Z.land] in *;
    repeat match goal with
           | H : (_ =? _) = true |- _ => apply Z.eqb_eq in H
           | H : (_ =? _) = false |- _ => apply Z.eqb_neq in H
           end;
    try rewrite Es.
  all: try (right; right; right; repeat split; intros; try congruence; try discriminate;
            auto; fail).
  all: try (left; repeat split; congruence).
  all: try (right; left; repeat split; try eauto; try congruence; fail).
  all: try (right; right; left; repeat split; try congruence; auto; fail).
  all: right; left; split; [reflexivity|]; split; [assumption|];
    split; [reflexivity|]; split; [eexists; reflexivity|];
    split; [reflexivity|]; split; [reflexivity|assumption].
Qed.

Lemma buf_within_in size b i v :
  buf_within size b = true -> In (i, v) b -> 0 <= i < size.
Proof.
  unfold buf_within. rewrite forallb_forall. intros H Hin.
  apply H in Hin. cbn [fst] in Hin. apply andb_true_iff in Hin.
  destruct Hin as [H0 H1]. apply Z.leb_le in H0. apply Z.ltb_lt in H1. lia.
Qed.

Lemma demod_step_max_len ci cq d :
  Demod.max_len (snd (Handle14443bSamplesFromTag ci cq d)) = Demod.max_len d.
Proof.
  unfold Handle14443bSamplesFromTag.
  destruct (Demod.state d);
    [ unfold demod_unsyncd | unfold demod_phase_ref_training
    | unfold demod_awaiting_falling_edge_of_sof
    | unfold demod_got_falling_edge_of_sof
    | unfold demod_awaiting_start_bit | unfold demod_receiving_data ];
    cbv zeta; split_ifs; reflexivity.
Qed.

(** The byte counter is a uint16_t, and while it is not 0 the cell before
    the one it points at has been stored to. *)
Lemma demod_step_last_store ci cq d :
  (0 <= Demod.len d < 65536
   /\ (Demod.len d <> 0 -> exists v, In (Demod.len d - 1, v) (Demod.output d))) ->
  let d1 := snd (Handle14443bSamplesFromTag ci cq d) in
  0 <= Demod.len d1 < 65536
  /\ (Demod.len d1 <> 0 -> exists v, In (Demod.len d1 - 1, v) (Demod.output d1)).
Proof.
  intros (Hl & Hs).
  destruct (demod_step_kind ci cq d)
    as [(_ & _ & Hl1 & _ & Ho)
       |[(_ & _ & _ & (v & Ho) & Hl1 & _)
        |[(_ & _ & Ho & Hl1 & _)|(Ho & Hl1 & _)]]];
    cbv zeta in *; rewrite Hl1, Ho.
  - split; [lia|]. intros E. contradiction E. reflexivity.
  - split; [unfold u16; apply Z.mod_pos_bound; lia|]. intros Hne.
    exists v. left. f_equal. unfold u16 in *.
    destruct (Z.eq_dec (Demod.len d + 1) 65536) as [E|E].
    + rewrite E in Hne. contradiction Hne. reflexivity.
    + rewrite Z.mod_small by lia. lia.
  - split; assumption.
  - split; assumption.
Qed.

Lemma loop_continues_last_store timeout pre : forall samples d n d0,
  (0 <= Demod.len d < 65536
   /\ (Demod.len d <> 0 -> exists v, In (Demod.len d - 1, v) (Demod.output d))) ->
  loop_continues timeout pre samples d = Some (n, d0) ->
  Demod.max_len d0 = Demod.max_len d
  /\ 0 <= Demod.len d0 < 65536
  /\ (Demod.len d0 <> 0 -> exists v, In (Demod.len d0 - 1, v) (Demod.output d0)).
Proof.
  induction pre as [|e r IH]; intros samples d n d0 Hd H.
  - simpl in H. inversion H. subst. split; [reflexivity|exact Hd].
  - rewrite loop_continues_cons in H.
    destruct (answer_loop timeout [e] samples d); [discriminate|].
    apply IH in H; [|apply demod_step_last_store; exact Hd].
    rewrite demod_step_max_len in H. exact H.
Qed.

(** The overflow is looked for after the stores: when the loop finds
    [Demod.len > Demod.max_len] at an EOF, the cell [len - 1] has been
    stored to. *)
Lemma answer_overflow_last_store max_len timeout sc d d1 :
  Get14443bAnswerFromTag max_len timeout sc d = Some (-2, d1) ->
  Demod.max_len d1 = u16 max_len
  /\ u16 max_len <= Demod.len d1 - 1
  /\ exists v, In (Demod.len d1 - 1, v) (Demod.output d1).
Proof.
  intros H. apply get_answer_overflow_exit in H.
  destruct H as (_ & pre & e & post & n & d0 & _ & Hc & _ & Hh & Hgt).
  apply loop_continues_last_store in Hc;
    [|cbn; split; [lia|intros E; contradiction E; reflexivity]].
  destruct Hc as (Hm & Hd0).
  pose proof (demod_step_last_store (event_ci e) (event_cq e) d0 Hd0) as Hd1.
  pose proof (demod_step_max_len (event_ci e) (event_cq e) d0) as Hm1.
  cbv zeta in Hd1. rewrite Hh in Hd1, Hm1. cbn [snd] in Hd1, Hm1.
  rewrite Hm in Hm1. cbn in Hm1. destruct Hd1 as (Hl & Hs).
  assert (Hpos : 0 <= u16 max_len)
    by (unfold u16; apply Z.mod_pos_bound; lia).
  destruct Hs as (v & Hin); [lia|].
  split; [exact Hm1|]. split; [lia|]. exists v. exact Hin.
Qed.



(** A receive of the reader functions never returns -2: the run that
    would has stored outside the array. *)
Lemma receive_answer_no_overflow max_len timeout w r w1 :
  receive_answer max_len timeout w = Some (r, w1) -> r <> -2.
Proof.
  unfold receive_answer. destruct (air w) as [|sc rest]; [discriminate|].
  destruct (Get14443bAnswerFromTag _ _ _ _) as [[r0 d]|] eqn:E; [|discriminate].
  destruct (buf_within (u16 max_len) (Demod.output d)) eqn:Ew; [|discriminate].
  intros [= <- <-] ->. apply answer_overflow_last_store in E.
  destruct E as (_ & Hge & v & Hin).
  pose proof (buf_within_in _ _ _ _ Ew Hin). lia.
Qed.

(** C7, amended.  When a turn of the receive loop has consumed more than
    timeout sample pairs, the demodulator did not signal EOF and is in the
    Unsynced state after the pair, Get14443bAnswerFromTag returns -1.  In
    any other state, PhaseRefTraining included, the loop goes on with the
    next pair. *)
Theorem get_answer_timeout max_len timeout sc d pre e post n d0 d1 :
  dma_ok sc = true ->
  events sc = pre ++ e :: post ->
  loop_continues timeout pre 0 (Demod14bInit max_len d) = Some (n, d0) ->
  pressed e = false ->
  Handle14443bSamplesFromTag (event_ci e) (event_cq e) d0 = (false, d1) ->
  n + 1 > timeout ->
  (Demod.state d1 = DEMOD_UNSYNCD ->
   Get14443bAnswerFromTag max_len timeout sc d = Some (-1, d1))
  /\ (Demod.state d1 <> DEMOD_UNSYNCD ->
      answer_loop timeout (events sc) 0 (Demod14bInit max_len d)
      = answer_loop timeout post (n + 1) d1).
Proof.
  intros Hok Hev Hc Hp Hh Hgt.
  assert (Hloop : answer_loop timeout (events sc) 0 (Demod14bInit max_len d)
                  = if demod_state_num (Demod.state d1) <? 1
                    then Some (-1, d1)
                    else answer_loop timeout post (n + 1) d1).
  { rewrite Hev, (answer_loop_app _ _ _ _ _ _ _ Hc), answer_loop_cons.
    unfold answer_loop at 1. fold (event_ci e). fold (event_cq e).
    rewrite Hp, Hh. destruct (Z.gtb_spec (n + 1) timeout) as [_|]; [|lia].
    simpl.
    destruct (demod_state_num (Demod.state d1) <? 1); reflexivity. }
  split; intros Hs.
  - unfold Get14443bAnswerFromTag. rewrite Hok, Hloop, Hs. reflexivity.
  - rewrite Hloop. destruct (Demod.state d1); try reflexivity. contradiction.
Qed.

(** 1701 sample pairs of silence: the timeout of the callers is 1700. *)
Lemma get_answer_timeout_witness :
  exists d1,
    Demod.state d1 = DEMOD_UNSYNCD
    /\ Get14443bAnswerFromTag 14 1700 (silence 1701) blank_demod = Some (-1, d1).
Proof.
  exists (Demod14bInit 14 blank_demod). split; [reflexivity|].
  refine (proj1 (get_answer_timeout 14 1700 (silence 1701) blank_demod
                   (repeat (mkEvent 0 false) 1700) (mkEvent 0 false) [] 1700
                   (Demod14bInit 14 blank_demod) (Demod14bInit 14 blank_demod)
                   _ _ _ _ _ _) _);
    vm_compute; reflexivity.
Defined.

(** C7 as stated does not hold in the PhaseRefTraining state: after 1700
    pairs of silence the subcarrier of an answer starts with pair 1701;
    more than timeout = 1700 pairs are consumed, the demodulator is in
    PhaseRefTraining, the loop does not end, and the function returns the
    three bytes of the answer instead of -1. *)
Lemma get_answer_no_timeout_in_training :
  let evs := repeat (mkEvent 0 false) 1700 ++ bpsk_events (tag_frame_bits respOK) in
  exists d0 d1,
    loop_continues 1700 (firstn 1701 evs) 0 (Demod14bInit 3 blank_demod)
    = Some (1701, d0)
    /\ Demod.state d0 = DEMOD_PHASE_REF_TRAINING
    /\ 1701 > ISO14443B_READER_TIMEOUT
    /\ Get14443bAnswerFromTag 3 ISO14443B_READER_TIMEOUT (mkScript true evs) blank_demod
       = Some (3, d1).
Proof.
  cbv zeta. eexists. eexists.
  split; [vm_compute; reflexivity|]. split; [reflexivity|].
  split; [reflexivity|]. vm_compute. reflexivity.
Qed.

(** ** Empty frames accepted by the demodulator *)

(** What the demodulator received since the SOF, step by step. *)
Lemma demod_observe_kind ci cq d o :
  let d1 := snd (Handle14443bSamplesFromTag ci cq d) in
  (Demod.state d = DEMOD_GOT_FALLING_EDGE_OF_SOF ->
   Demod.state d1 = DEMOD_AWAITING_START_BIT ->
   demod_observe ci cq d o = Some (0%nat, 0%nat))
  /\ (Demod.state d = DEMOD_RECEIVING_DATA ->
      forall bits bytes, o = Some (bits, bytes) ->
      demod_observe ci cq d o
      = Some (if negb (Demod.posCount d =? 0) then S bits else bits,
              if (length (Demod.output d) <? length (Demod.output d1))%nat
              then S bytes else bytes))
  /\ (Demod.output d1 = Demod.output d ->
      (Demod.state d = DEMOD_GOT_FALLING_EDGE_OF_SOF ->
       Demod.state d1 <> DEMOD_AWAITING_START_BIT) ->
      (Demod.state d = DEMOD_RECEIVING_DATA -> Demod.posCount d = 0) ->
      demod_observe ci cq d o = o).
Proof.
  cbv zeta. unfold demod_observe.
  set (d1 := snd (Handle14443bSamplesFromTag ci cq d)). split; [|split].
  - intros -> ->. reflexivity.
  - intros -> bits bytes ->. reflexivity.
  - intros Ho Hs Hp. rewrite Ho, Nat.ltb_irrefl.
    destruct (Demod.state d) eqn:Es.
    1-3, 5: destruct o as [[bits bytes]|]; reflexivity.
    + destruct (Demod.state d1) eqn:Es1;
        try (destruct o as [[bits bytes]|]; reflexivity).
      exfalso. apply Hs; reflexivity.
    + rewrite Hp by reflexivity. destruct o as [[bits bytes]|]; reflexivity.
Qed.

Lemma demod_tracked_step size ci cq d o :
  size <= 65535 ->
  demod_tracked size d o ->
  demod_tracked size (snd (Handle14443bSamplesFromTag ci cq d)) (demod_observe ci cq d o).
Proof.
  intros Hs (A & B & C).
  destruct (demod_observe_kind ci cq d o) as (O1 & O2 & O3).
  destruct (demod_step_kind ci cq d)
    as [(Es & Es1 & Hl & Hb & Ho)
       |[(Es & Hp & Es1 & (v & Ho) & Hl & Hb & Hten)
        |[(Es & Hp & Ho & Hl & Hb & Hst)
         |(Ho & Hl & Hb & Hp & Hsof & Haw & Hrc)]]];
    cbv zeta in *; set (d1 := snd (Handle14443bSamplesFromTag ci cq d)) in *.
  - (* an SOF is accepted *)
    rewrite (O1 Es Es1). unfold demod_tracked. split; [|split].
    + intros _. split; [exact Hb|]. exists 0%nat. reflexivity.
    + rewrite Es1. discriminate.
    + intros _ bits bytes [= <- <-]. exact Hl.
  - (* a byte is stored *)
    destruct (B Es) as (Hbc & bits & bytes & -> & Hbits).
    rewrite (O2 Es bits bytes eq_refl).
    destruct (Z.eqb_spec (Demod.posCount d) 0) as [|_]; [contradiction|].
    rewrite Ho. cbn [length negb].
    replace (length (Demod.output d) <? S (length (Demod.output d)))%nat with true
      by (symmetry; apply Nat.ltb_lt; lia).
    assert (Hnine : Demod.bitCount d = 9)
      by (unfold u16 in Hten; rewrite Z.mod_small in Hten by lia; lia).
    unfold demod_tracked. split; [|split].
    + intros _. split; [exact Hb|]. exists (S bytes). f_equal. f_equal. lia.
    + rewrite Es1. discriminate.
    + rewrite Ho. cbn [buf_within forallb fst]. intros Hw bits0 bytes0 [= <- <-].
      apply andb_true_iff in Hw. destruct Hw as [Hi Hw].
      apply andb_true_iff in Hi. destruct Hi as [Hi0 Hi1].
      apply Z.leb_le in Hi0. apply Z.ltb_lt in Hi1.
      rewrite Hl, (C Hw bits bytes eq_refl) in *. unfold u16.
      rewrite Z.mod_small by lia. lia.
  - (* a bit is completed, nothing stored *)
    destruct (B Es) as (Hbc & bits & bytes & -> & Hbits).
    rewrite (O2 Es bits bytes eq_refl).
    destruct (Z.eqb_spec (Demod.posCount d) 0) as [|_]; [contradiction|].
    rewrite Ho, Nat.ltb_irrefl. cbn [negb].
    assert (Hb1 : Demod.bitCount d1 = Demod.bitCount d + 1)
      by (rewrite Hb; unfold u16; apply Z.mod_small; lia).
    unfold demod_tracked. split; [|split].
    + destruct Hst as [(E1 & _)|E1]; rewrite E1; discriminate.
    + intros E2. destruct Hst as [(_ & Hne)|E1]; [|rewrite E1 in E2; discriminate].
      split; [lia|]. exists (S bits), bytes. split; [reflexivity|]. lia.
    + rewrite Ho, Hl. intros Hw bits0 bytes0 [= <- <-].
      exact (C Hw bits bytes eq_refl).
  - (* any other step *)
    rewrite (O3 Ho Hsof Hp). unfold demod_tracked. split; [|split].
    + intros E1. rewrite Hb. exact (A (Haw E1)).
    + intros E1. rewrite Hb. destruct (Hrc E1) as [Ea|Er].
      * destruct (A Ea) as (Hz & bytes & ->). split; [lia|].
        exists (10 * bytes)%nat, bytes. split; [reflexivity|]. lia.
      * exact (B Er).
    + rewrite Ho, Hl. exact C.
Qed.

Lemma demod_tracked_feed size pairs : forall d o,
  size <= 65535 ->
  demod_tracked size d o ->
  demod_tracked size (demod_feed pairs d) (demod_since_sof pairs d o).
Proof.
  induction pairs as [|[ci cq] r IH]; intros d o Hs Ht; [exact Ht|].
  cbn [demod_feed demod_since_sof]. apply IH; [exact Hs|].
  apply demod_tracked_step; assumption.
Qed.


(** C6, amended.  For every sample sequence, Handle14443bSamplesFromTag
    returns true with len = 0 only in two ways: from AwaitingStartBit, when
    the wait for a start bit exceeds its limit with bitCount = 0 and
    len = 0; or from ReceivingData, when the tenth bit completes an
    all-zero character (an EOF) with len = 0.  It never does so from any of
    the other four states.  As long as the demodulator has stored inside
    the max_len cells of its output array, the counters tell what was
    received since the SOF: in the first case neither a bit nor a byte, in
    the second the nine bits before the one that completes the EOF and no
    byte. *)
Theorem demod_empty_frame_acceptance max_len d pairs ci cq d1 :
  let d0 := demod_feed pairs (Demod14bInit max_len d) in
  let seen := demod_since_sof pairs (Demod14bInit max_len d) None in
  Handle14443bSamplesFromTag ci cq d0 = (true, d1) ->
  Demod.len d1 = 0 ->
  (Demod.state d0 = DEMOD_AWAITING_START_BIT
   /\ Demod.bitCount d0 = 0 /\ Demod.len d0 = 0
   /\ Demod.posCount d0 + 1 > 12
   /\ MAKE_SOFT_DECISION d0 ci cq > 0
   /\ (buf_within (u16 max_len) (Demod.output d0) = true ->
       seen = Some (0%nat, 0%nat)))
  \/ (Demod.state d0 = DEMOD_RECEIVING_DATA
      /\ Demod.len d0 = 0
      /\ Demod.bitCount d1 = 10 /\ Demod.shiftReg d1 = 0
      /\ Demod.state d1 = DEMOD_UNSYNCD
      /\ (buf_within (u16 max_len) (Demod.output d0) = true ->
          seen = Some (9%nat, 0%nat))).
Proof.
  cbv zeta.
  assert (Ht : demod_tracked (u16 max_len)
                 (demod_feed pairs (Demod14bInit max_len d))
                 (demod_since_sof pairs (Demod14bInit max_len d) None)).
  { apply demod_tracked_feed.
    - unfold u16. pose proof (Z.mod_pos_bound max_len 65536). lia.
    - unfold demod_tracked. cbn. split; [discriminate|]. split; [discriminate|].
      intros _ bits bytes. discriminate. }
  revert Ht.
  generalize (demod_since_sof pairs (Demod14bInit max_len d) None) as seen.
  generalize (demod_feed pairs (Demod14bInit max_len d)) as d0.
  intros d0 seen (A & B & C) H Hlen. unfold Handle14443bSamplesFromTag in H.
  destruct (Demod.state d0) eqn:Es;
    [ unfold demod_unsyncd in H | unfold demod_phase_ref_training in H
    | unfold demod_awaiting_falling_edge_of_sof in H
    | unfold demod_got_falling_edge_of_sof in H
    | unfold demod_awaiting_start_bit in H | unfold demod_receiving_data in H ];
    cbv zeta in H; split_ifs_in H; try discriminate.
  - left. inversion H. subst d1. simpl in Hlen.
    match goal with
    | Hc : (_ =? 0) && (_ =? 0) = true |- _ =>
        apply andb_true_iff in Hc; destruct Hc as [Hb Hl]
    end.
    apply Z.eqb_eq in Hb, Hl.
    split; [reflexivity|]. split; [exact Hb|]. split; [exact Hl|]. split; [|split].
    + match goal with
      | Hc : (_ >? 6 * 2) = true |- _ => apply Z.gtb_lt in Hc; simpl in Hc; lia
      end.
    + match goal with
      | Hc : (MAKE_SOFT_DECISION _ _ _ >? 0) = true |- _ =>
          apply Z.gtb_lt in Hc; apply Z.lt_gt; exact Hc
      end.
    + intros Hw. destruct (A eq_refl) as (_ & bytes & ->).
      pose proof (C Hw _ _ eq_refl) as Hc. simpl in Hl.
      assert (bytes = 0%nat) by lia. subst bytes. reflexivity.
  - right. inversion H. subst d1. simpl in Hlen. simpl.
    split; [reflexivity|]. split; [exact Hlen|].
    split; [match goal with Hc : (_ =? 10) = true |- _ =>
                              apply Z.eqb_eq in Hc; exact Hc end|].
    split; [match goal with Hc : (_ =? 0) = true |- _ =>
                              apply Z.eqb_eq in Hc; exact Hc end|].
    split; [reflexivity|].
    intros Hw. destruct (B eq_refl) as (Hbc & bits & bytes & -> & Hbits).
    pose proof (C Hw _ _ eq_refl) as Hc.
    match goal with Hc : (_ =? 10) = true |- _ =>
      apply Z.eqb_eq in Hc; simpl in Hc; unfold u16 in Hc;
      rewrite Z.mod_small in Hc by lia end.
    f_equal. f_equal; lia.
  - right. inversion H. subst d1. simpl in Hlen. simpl.
    split; [reflexivity|]. split; [exact Hlen|].
    split; [match goal with Hc : (_ =? 10) = true |- _ =>
                              apply Z.eqb_eq in Hc; exact Hc end|].
    split; [match goal with Hc : (_ =? 0) = true |- _ =>
                              apply Z.eqb_eq in Hc; exact Hc end|].
    split; [reflexivity|].
    intros Hw. destruct (B eq_refl) as (Hbc & bits & bytes & -> & Hbits).
    pose proof (C Hw _ _ eq_refl) as Hc.
    match goal with Hc : (_ =? 10) = true |- _ =>
      apply Z.eqb_eq in Hc; simpl in Hc; unfold u16 in Hc;
      rewrite Z.mod_small in Hc by lia end.
    f_equal. f_equal; lia.
Qed.

(** An SOF followed by subcarrier without a start bit: the fourteenth pair
    after the low phase of the SOF ends the frame, from AwaitingStartBit,
    with nothing received since the SOF. *)
Lemma demod_empty_frame_acceptance_witness :
  let pairs := bpsk_pairs (repeat true 20 ++ repeat false 10 ++ repeat true 6)
               ++ [(20, 0)] in
  let d0 := demod_feed pairs (Demod14bInit 256 blank_demod) in
  exists d1,
    Handle14443bSamplesFromTag 20 0 d0 = (true, d1)
    /\ Demod.len d1 = 0
    /\ Demod.state d0 = DEMOD_AWAITING_START_BIT
    /\ demod_since_sof pairs (Demod14bInit 256 blank_demod) None
       = Some (0%nat, 0%nat).
Proof.
  cbv zeta. eexists. split; [vm_compute; reflexivity|]. split; [reflexivity|].
  destruct (demod_empty_frame_acceptance 256 blank_demod
              (bpsk_pairs (repeat true 20 ++ repeat false 10 ++ repeat true 6)
               ++ [(20, 0)])
              20 0 _ ltac:(vm_compute; reflexivity) ltac:(reflexivity))
    as [(Hs & _ & _ & _ & _ & Hseen) | (Hs & _)].
  - split; [exact Hs|]. apply Hseen. vm_compute. reflexivity.
  - vm_compute in Hs. discriminate.
Defined.

(** C6 as stated does not hold: after TR1 and an SOF, ten zero bits (an EOF
    with no data byte before it) make the demodulator return true with
    len = 0 from the ReceivingData state. *)
Lemma demod_empty_frame_from_receiving_data :
  let pairs := bpsk_pairs (repeat true 20 ++ repeat false 10 ++ [true; true])
               ++ repeat (-20, 0) 19 in
  let d0 := demod_feed pairs (Demod14bInit 256 blank_demod) in
  exists d1,
    Demod.state d0 = DEMOD_RECEIVING_DATA
    /\ Handle14443bSamplesFromTag (-20) 0 d0 = (true, d1)
    /\ Demod.len d1 = 0.
Proof.
  cbv zeta. eexists. split; [vm_compute; reflexivity|].
  split; [vm_compute; reflexivity|]. reflexivity.
Qed.

(** ** Stores of the UART stay inside the frame buffer *)

Ltac unfold_uart_step :=
  unfold Handle14443bSampleFromReader;
  match goal with
  | |- context [match Uart.state ?u with _ => _ end] =>
      destruct (Uart.state u) eqn:?;
      [ unfold uart_unsyncd | unfold uart_got_falling_edge_of_sof
      | unfold uart_awaiting_start_bit | unfold uart_receiving_data ]
  end;
  cbv zeta.

Lemma uart_step_byteCntMax bit u :
  Uart.byteCntMax (snd (Handle14443bSampleFromReader bit u)) = Uart.byteCntMax u.
Proof. unfold_uart_step; split_ifs; reflexivity. Qed.

Ltac uart_cases :=
  repeat match goal with
         | H : (_ >=? _) = true |- _ => apply Z.geb_le in H
         | H : (_ >=? _) = false |- _ => rewrite Z.geb_leb in H; apply Z.leb_gt in H
         end;
  try match goal with
      | Hlt : _ \/ _ -> Uart.byteCnt ?u < Uart.byteCntMax ?u |- _ =>
          assert (Uart.byteCnt u < Uart.byteCntMax u) by (apply Hlt; auto)
      end;
  simpl in *.

Lemma uart_step_inv bit u :
  0 < Uart.byteCntMax u -> uart_inv u ->
  uart_inv (snd (Handle14443bSampleFromReader bit u)).
Proof.
  intros Hmax (Hcnt & Hlt & Hst). unfold uart_inv.
  unfold_uart_step; split_ifs; simpl; uart_cases.
  all: split; [lia|].
  all: split; [intros [?|?]; try congruence; lia|].
  all: try assumption.
  all: constructor; [simpl; lia | assumption].
Qed.

Lemma uart_feed_cons s r u :
  uart_feed (s :: r) u =
  (let u1 := snd (Handle14443bSampleFromReader s u) in
   ((if fst (Handle14443bSampleFromReader s u)
     then u1 :: fst (uart_feed r u1) else fst (uart_feed r u1)),
    snd (uart_feed r u1))).
Proof.
  simpl. destruct (Handle14443bSampleFromReader s u) as [ret u1]. simpl.
  destruct (uart_feed r u1). reflexivity.
Qed.

Lemma uart_feed_inv samples : forall u,
  0 < Uart.byteCntMax u -> uart_inv u ->
  uart_inv (snd (uart_feed samples u))
  /\ Uart.byteCntMax (snd (uart_feed samples u)) = Uart.byteCntMax u.
Proof.
  induction samples as [|s r IH]; intros u Hmax Hinv.
  - split; [exact Hinv|reflexivity].
  - rewrite uart_feed_cons. cbv zeta. simpl snd.
    pose proof (uart_step_byteCntMax s u) as Hm.
    destruct (IH (snd (Handle14443bSampleFromReader s u))) as [H1 H2].
    + rewrite Hm. exact Hmax.
    + apply uart_step_inv; assumption.
    + split; [exact H1|]. rewrite H2. exact Hm.
Qed.

Lemma uart_init_inv MAX_FRAME_SIZE u0 :
  0 < MAX_FRAME_SIZE -> uart_inv (Uart14bInit MAX_FRAME_SIZE u0).
Proof.
  intros H. unfold uart_inv. simpl. split; [lia|]. split.
  - intros [?|?]; discriminate.
  - constructor.
Qed.

(** A turn of the UART at the end of which byteCnt has reached byteCntMax
    ends in Unsynced; once there, no sample stores anything as long as
    byteCnt stays at byteCntMax. *)
Lemma uart_step_full bit u :
  0 < Uart.byteCntMax u -> uart_inv u ->
  let u1 := snd (Handle14443bSampleFromReader bit u) in
  (Uart.byteCnt u < Uart.byteCntMax u ->
   Uart.byteCnt u1 = Uart.byteCntMax u1 ->
   Uart.state u1 = STATE_14B_UNSYNCD
   /\ fst (Handle14443bSampleFromReader bit u) = false)
  /\ (Uart.byteCnt u = Uart.byteCntMax u ->
      Uart.output u1 = Uart.output u
      /\ (Uart.byteCnt u1 = Uart.byteCntMax u1 ->
          Uart.state u1 = STATE_14B_UNSYNCD
          \/ Uart.state u1 = STATE_14B_GOT_FALLING_EDGE_OF_SOF)).
Proof.
  intros Hmax (Hcnt & Hlt & Hst). cbv zeta.
  unfold_uart_step; split_ifs; simpl; uart_cases.
  all: split; [intros H1 H2; try lia; auto | intros H1; try lia].
  all: split; [reflexivity | intros H2; try lia; auto].
Qed.

(** C9.  After Uart14bInit, whatever samples are fed to
    Handle14443bSampleFromReader: every store made through Uart.output is
    at an index from 0 below Uart.byteCntMax, Uart.byteCnt never exceeds
    Uart.byteCntMax, the turn in which byteCnt reaches byteCntMax ends in
    Unsynced, and while byteCnt stays at byteCntMax no sample stores a
    byte. *)
Theorem uart_stores_bounded MAX_FRAME_SIZE u0 samples :
  0 < MAX_FRAME_SIZE ->
  let u := snd (uart_feed samples (Uart14bInit MAX_FRAME_SIZE u0)) in
  Uart.byteCntMax u = MAX_FRAME_SIZE
  /\ Forall (fun c => 0 <= fst c < Uart.byteCntMax u) (Uart.output u)
  /\ 0 <= Uart.byteCnt u <= Uart.byteCntMax u
  /\ forall bit,
       let u1 := snd (Handle14443bSampleFromReader bit u) in
       (Uart.byteCnt u < Uart.byteCntMax u ->
        Uart.byteCnt u1 = Uart.byteCntMax u1 ->
        Uart.state u1 = STATE_14B_UNSYNCD
        /\ fst (Handle14443bSampleFromReader bit u) = false)
       /\ (Uart.byteCnt u = Uart.byteCntMax u ->
           Uart.output u1 = Uart.output u
           /\ (Uart.byteCnt u1 = Uart.byteCntMax u1 ->
               Uart.state u1 = STATE_14B_UNSYNCD
               \/ Uart.state u1 = STATE_14B_GOT_FALLING_EDGE_OF_SOF)).
Proof.
  intros Hmax. cbv zeta.
  destruct (uart_feed_inv samples (Uart14bInit MAX_FRAME_SIZE u0)) as [Hinv Hm].
  - exact Hmax.
  - apply uart_init_inv. exact Hmax.
  - split; [exact Hm|]. destruct Hinv as (Hcnt & Hlt & Hst).
    split; [exact Hst|]. split; [exact Hcnt|].
    intros bit. apply uart_step_full; [rewrite Hm; exact Hmax|].
    split; [exact Hcnt|]. split; [exact Hlt|exact Hst].
Qed.

(** ** Round trip of a reader frame through the UART *)

Lemma uart_etu_start u :
  Uart.state u = STATE_14B_AWAITING_START_BIT ->
  uart_feed [false; false; false; false] u =
  ([], Uart.mk STATE_14B_RECEIVING_DATA 0 1 (Uart.byteCnt u) (Uart.byteCntMax u) 3
         (Uart.output u)).
Proof.
  destruct u as [st sr bc byc bcm pc out]. simpl. intros ->. reflexivity.
Qed.

Lemma uart_etu_data x sr k byc bcm out :
  1 <= k <= 8 ->
  uart_feed [x; x; x; x] (Uart.mk STATE_14B_RECEIVING_DATA sr k byc bcm 3 out) =
  ([], Uart.mk STATE_14B_RECEIVING_DATA (shift_in x sr) (k + 1) byc bcm 3 out).
Proof.
  intros Hk.
  assert (H : k = 1 \/ k = 2 \/ k = 3 \/ k = 4 \/ k = 5 \/ k = 6 \/ k = 7 \/ k = 8) by lia.
  destruct H as [->|[->|[->|[->|[->|[->|[->| ->]]]]]]]; destruct x; reflexivity.
Qed.

Lemma uart_etu_stop sr byc bcm out :
  c_true (Z.land (shift_in true sr) 512) = true ->
  c_true (Z.land (shift_in true sr) 1) = false ->
  byc + 1 < bcm ->
  uart_feed [true; true; true; true] (Uart.mk STATE_14B_RECEIVING_DATA sr 9 byc bcm 3 out) =
  ([], Uart.mk STATE_14B_AWAITING_START_BIT (shift_in true sr) 10 (byc + 1) bcm 1
         (buf_store byc (Z.land (Z.shiftr (shift_in true sr) 1) 255) out)).
Proof.
  intros H1 H2 H3. unfold shift_in in *.
  unfold uart_feed, Handle14443bSampleFromReader. simpl Uart.state. cbv iota.
  unfold uart_receiving_data at 1. simpl.
  unfold uart_receiving_data at 1. simpl.
  unfold uart_receiving_data at 1. cbv zeta. simpl Uart.posCnt. simpl.
  rewrite H1, H2. simpl.
  destruct (Z.geb_spec (byc + 1) bcm) as [|_]; [lia|].
  simpl. destruct (Z.geb_spec (byc + 1) bcm) as [|_]; [lia|]. reflexivity.
Qed.

Lemma uart_etu_eof byc bcm out :
  0 < byc ->
  uart_feed [false; false; false; false] (Uart.mk STATE_14B_RECEIVING_DATA 0 9 byc bcm 3 out) =
  ([Uart.mk STATE_14B_UNSYNCD 0 10 byc bcm 2 out],
   Uart.mk STATE_14B_GOT_FALLING_EDGE_OF_SOF 0 0 byc bcm 0 out).
Proof.
  intros H. destruct byc as [|p|p]; try lia. reflexivity.
Qed.

Lemma uart_sof MAX u0 :
  uart_feed (etu_samples (repeat false 10 ++ [true; true])) (Uart14bInit MAX u0) =
  ([], Uart.mk STATE_14B_AWAITING_START_BIT 0 11 0 MAX 5 []).
Proof. reflexivity. Qed.

Lemma uart_trailer byc bcm out :
  uart_feed (etu_samples (repeat true 8))
    (Uart.mk STATE_14B_GOT_FALLING_EDGE_OF_SOF 0 0 byc bcm 0 out) =
  ([], Uart.mk STATE_14B_UNSYNCD 0 1 byc bcm 2 out).
Proof. reflexivity. Qed.

Lemma feeds_app a b u e1 u1 e2 u2 :
  feeds a u e1 u1 -> feeds b u1 e2 u2 -> feeds (a ++ b) u (e1 ++ e2) u2.
Proof.
  unfold feeds. revert u e1 u1. induction a as [|s r IH]; intros u e1 u1 Ha Hb.
  - simpl in Ha. inversion Ha. subst. exact Hb.
  - simpl in Ha |- *.
    destruct (Handle14443bSampleFromReader s u) as [ret ua].
    destruct (uart_feed r ua) as [er ur] eqn:Er.
    inversion Ha. subst.
    rewrite (IH ua er u1 Er Hb). destruct ret; reflexivity.
Qed.

Lemma feeds_etu x r u e1 u1 e2 u2 :
  feeds [x; x; x; x] u e1 u1 -> feeds (etu_samples r) u1 e2 u2 ->
  feeds (etu_samples (x :: r)) u (e1 ++ e2) u2.
Proof. intros H1 H2. exact (feeds_app _ _ _ _ _ _ _ H1 H2). Qed.

Lemma feeds_nil u : feeds (etu_samples []) u [] u.
Proof. reflexivity. Qed.

Lemma etu_samples_app a b : etu_samples (a ++ b) = etu_samples a ++ etu_samples b.
Proof. unfold etu_samples. apply flat_map_app. Qed.

Lemma octet_forall (f : Z -> bool) :
  forallb f (map Z.of_nat (seq 0 256)) = true ->
  forall b, octet b -> f b = true.
Proof.
  intros H b Hb. rewrite forallb_forall in H. apply H.
  apply in_map_iff. exists (Z.to_nat b). split.
  - unfold octet in Hb. lia.
  - apply in_seq. unfold octet in Hb. lia.
Qed.

Lemma octet_frame_valid b : octet b -> octet_frame_ok b = true.
Proof. apply octet_forall. vm_compute. reflexivity. Qed.

Lemma uart_octet b u :
  octet b ->
  Uart.state u = STATE_14B_AWAITING_START_BIT ->
  Uart.byteCnt u + 1 < Uart.byteCntMax u ->
  feeds (etu_samples (octet_bits b)) u []
    (Uart.mk STATE_14B_AWAITING_START_BIT (octet_shiftreg b) 10
       (Uart.byteCnt u + 1) (Uart.byteCntMax u) 1
       (buf_store (Uart.byteCnt u) b (Uart.output u))).
Proof.
  intros Hb Hs Hc. pose proof (octet_frame_valid b Hb) as Hok.
  unfold octet_frame_ok in Hok.
  apply andb_true_iff in Hok. destruct Hok as [Hok H3].
  apply andb_true_iff in Hok. destruct Hok as [H1 H2].
  apply negb_true_iff in H2. apply Z.eqb_eq in H3.
  rewrite <- H3 at 3.
  unfold octet_bits.
  change (@nil Uart.t) with (@nil Uart.t ++ ([] ++ ([] ++ ([] ++ ([] ++ ([] ++
            ([] ++ ([] ++ ([] ++ ([] ++ [])))))))))).
  eapply feeds_etu; [apply uart_etu_start; exact Hs|].
  do 8 (eapply feeds_etu; [apply uart_etu_data; lia|]).
  eapply feeds_etu; [|apply feeds_nil].
  apply uart_etu_stop; assumption.
Qed.

Lemma uart_octets M : forall u,
  Forall octet M ->
  Uart.state u = STATE_14B_AWAITING_START_BIT ->
  Uart.byteCnt u + Z.of_nat (length M) < Uart.byteCntMax u ->
  exists u1,
    feeds (etu_samples (flat_map octet_bits M)) u [] u1
    /\ Uart.state u1 = STATE_14B_AWAITING_START_BIT
    /\ Uart.byteCnt u1 = Uart.byteCnt u + Z.of_nat (length M)
    /\ Uart.byteCntMax u1 = Uart.byteCntMax u
    /\ Uart.output u1 = store_frame (Uart.byteCnt u) M (Uart.output u).
Proof.
  induction M as [|b r IH]; intros u Hoct Hs Hc.
  - exists u. split; [apply feeds_nil|]. split; [exact Hs|].
    split; [simpl; lia|]. split; reflexivity.
  - inversion Hoct as [|? ? Hb Hr]; subst.
    simpl length in Hc. rewrite Nat2Z.inj_succ in Hc.
    pose proof (uart_octet b u Hb Hs ltac:(lia)) as H1.
    set (ub := Uart.mk STATE_14B_AWAITING_START_BIT (octet_shiftreg b) 10
                 (Uart.byteCnt u + 1) (Uart.byteCntMax u) 1
                 (buf_store (Uart.byteCnt u) b (Uart.output u))) in *.
    assert (Hcb : Uart.byteCnt ub + Z.of_nat (length r) < Uart.byteCntMax ub)
      by (simpl; lia).
    destruct (IH ub Hr eq_refl Hcb) as (u1 & F & S1 & C1 & M1 & O1).
    exists u1. simpl in C1, M1, O1. split.
    + change (flat_map octet_bits (b :: r)) with (octet_bits b ++ flat_map octet_bits r).
      rewrite etu_samples_app. change (@nil Uart.t) with (@nil Uart.t ++ []).
      eapply feeds_app; eassumption.
    + split; [exact S1|]. split; [simpl length; lia|]. split; [exact M1|exact O1].
Qed.

Lemma uart_eof u :
  Uart.state u = STATE_14B_AWAITING_START_BIT ->
  0 < Uart.byteCnt u ->
  feeds (etu_samples (repeat false 10)) u
    [Uart.mk STATE_14B_UNSYNCD 0 10 (Uart.byteCnt u) (Uart.byteCntMax u) 2 (Uart.output u)]
    (Uart.mk STATE_14B_GOT_FALLING_EDGE_OF_SOF 0 0 (Uart.byteCnt u) (Uart.byteCntMax u) 0
       (Uart.output u)).
Proof.
  intros Hs Hc.
  change (repeat false 10) with [false; false; false; false; false; false; false;
                                 false; false; false].
  match goal with
  | |- feeds _ _ [?x] _ =>
      change [x] with ([] ++ ([] ++ ([] ++ ([] ++ ([] ++ ([] ++ ([] ++
                        ([] ++ ([] ++ ([x] ++ []))))))))))
  end.
  eapply feeds_etu; [apply uart_etu_start; exact Hs|].
  do 8 (eapply feeds_etu; [apply (uart_etu_data false); lia|]).
  eapply feeds_etu; [|apply feeds_nil].
  apply uart_etu_eof. exact Hc.
Qed.

(** Samples at zero alone never complete a frame. *)
Lemma uart_zeros n : forall u,
  Uart.state u = STATE_14B_UNSYNCD \/ Uart.state u = STATE_14B_GOT_FALLING_EDGE_OF_SOF ->
  fst (uart_feed (repeat false n) u) = []
  /\ Uart.output (snd (uart_feed (repeat false n) u)) = Uart.output u
  /\ Uart.byteCnt (snd (uart_feed (repeat false n) u)) = Uart.byteCnt u.
Proof.
  induction n as [|n IH]; intros u Hs.
  - repeat split.
  - change (repeat false (S n)) with (false :: repeat false n).
    rewrite uart_feed_cons. cbv zeta.
    assert (H : fst (Handle14443bSampleFromReader false u) = false
                /\ (Uart.state (snd (Handle14443bSampleFromReader false u)) = STATE_14B_UNSYNCD
                    \/ Uart.state (snd (Handle14443bSampleFromReader false u))
                       = STATE_14B_GOT_FALLING_EDGE_OF_SOF)
                /\ Uart.output (snd (Handle14443bSampleFromReader false u)) = Uart.output u
                /\ Uart.byteCnt (snd (Handle14443bSampleFromReader false u)) = Uart.byteCnt u).
    { unfold Handle14443bSampleFromReader.
      destruct Hs as [Hs|Hs]; rewrite Hs.
      - unfold uart_unsyncd. simpl. auto.
      - unfold uart_got_falling_edge_of_sof. cbv zeta. split_ifs; simpl; auto. }
    destruct H as (Hr & Hs1 & Ho & Hc). rewrite Hr.
    destruct (IH _ Hs1) as (I1 & I2 & I3). simpl fst. simpl snd.
    rewrite I1, I2, I3. auto.
Qed.

Lemma etu_samples_repeat x n : etu_samples (repeat x n) = repeat x (4 * n).
Proof.
  induction n as [|n IH]; [reflexivity|].
  replace (4 * S n)%nat with (S (S (S (S (4 * n))))) by lia.
  simpl. f_equal. f_equal. f_equal. f_equal. exact IH.
Qed.

Lemma uart_reader_frame MAX u0 M pad :
  Forall octet M -> M <> [] -> Z.of_nat (length M) < MAX ->
  exists u_end,
    uart_feed (etu_samples (reader_frame_bits M ++ repeat false pad))
      (Uart14bInit MAX u0)
    = ([Uart.mk STATE_14B_UNSYNCD 0 10 (Z.of_nat (length M)) MAX 2 (store_frame 0 M [])],
       u_end).
Proof.
  intros Hoct Hne Hlen.
  destruct (uart_octets M (Uart.mk STATE_14B_AWAITING_START_BIT 0 11 0 MAX 5 [])
              Hoct eq_refl ltac:(simpl; lia)) as (u1 & F1 & S1 & C1 & M1 & O1).
  simpl in C1, M1, O1.
  assert (Hpos : 0 < Uart.byteCnt u1).
  { rewrite C1. destruct M; [contradiction|]. simpl length. lia. }
  pose proof (uart_eof u1 S1 Hpos) as F2. rewrite C1, M1, O1 in F2.
  pose proof (uart_trailer (Z.of_nat (length M)) MAX (store_frame 0 M [])) as F3.
  destruct (uart_zeros (4 * pad)
              (Uart.mk STATE_14B_UNSYNCD 0 1 (Z.of_nat (length M)) MAX 2
                 (store_frame 0 M [])) (or_introl eq_refl)) as (Z1 & _).
  destruct (uart_feed (repeat false (4 * pad)) _) as [ez uz] eqn:F4.
  simpl in Z1. subst ez.
  exists uz. unfold reader_frame_bits.
  rewrite !etu_samples_app, <- !app_assoc. rewrite (etu_samples_repeat false pad).
  pose proof (feeds_app _ _ _ _ _ _ _ (uart_sof MAX u0)
                (feeds_app _ _ _ _ _ _ _ F1
                   (feeds_app _ _ _ _ _ _ _ F2
                      (feeds_app _ _ _ _ _ _ _ F3 F4)))) as F.
  rewrite etu_samples_app in F. rewrite <- app_assoc in F. exact F.
Qed.

Lemma buf_get_store_frame dflt M : forall i out j,
  buf_get dflt (store_frame i M out) j =
  if (i <=? j) && (j <? i + Z.of_nat (length M))
  then nth (Z.to_nat (j - i)) M 0
  else buf_get dflt out j.
Proof.
  induction M as [|b r IH]; intros i out j.
  - simpl. destruct (Z.leb_spec i j), (Z.ltb_spec j (i + 0)); try reflexivity. lia.
  - simpl store_frame. rewrite IH. simpl length. rewrite Nat2Z.inj_succ.
    unfold buf_store. simpl buf_get.
    destruct (Z.eqb_spec i j) as [->|Hne].
    + destruct (Z.leb_spec (j + 1) j); [lia|]. destruct (Z.leb_spec j j); [|lia].
      destruct (Z.ltb_spec j (j + Z.succ (Z.of_nat (length r)))); [|lia].
      simpl. replace (j - j) with 0 by lia. reflexivity.
    + destruct (Z.leb_spec (i + 1) j), (Z.ltb_spec j (i + 1 + Z.of_nat (length r)));
        destruct (Z.leb_spec i j), (Z.ltb_spec j (i + Z.succ (Z.of_nat (length r))));
        simpl; try lia; try reflexivity.
      replace (Z.to_nat (j - i)) with (S (Z.to_nat (j - (i + 1)))) by lia. reflexivity.
Qed.

Lemma buf_bytes_store_frame dflt M : buf_bytes dflt (store_frame 0 M []) (length M) = M.
Proof.
  unfold buf_bytes. apply nth_ext with (d := buf_get dflt (store_frame 0 M []) (Z.of_nat 0)) (d' := 0).
  - rewrite length_map, length_seq. reflexivity.
  - intros n Hn. rewrite length_map, length_seq in Hn.
    rewrite (map_nth (fun k => buf_get dflt (store_frame 0 M []) (Z.of_nat k))).
    rewrite seq_nth by assumption. rewrite buf_get_store_frame.
    destruct (Z.leb_spec 0 (Z.of_nat (0 + n))); [|lia].
    destruct (Z.ltb_spec (Z.of_nat (0 + n)) (0 + Z.of_nat (length M))); [|lia].
    simpl. f_equal. lia.
Qed.

(** ** The stuffbits held by ToSend *)

Lemma bools_eqb_eq a b : bools_eqb a b = true <-> a = b.
Proof. unfold bools_eqb. destruct (list_eq_dec bool_dec a b); split; congruence. Qed.

Lemma set_symbol p x pre :
  (length pre <= 7)%nat -> p = length pre -> octet x ->
  byte_symbols 8 x = pre ++ repeat false (8 - p) ->
  byte_symbols 8 (Z.lor x (Z.shiftl 1 (7 - Z.of_nat p)))
  = (pre ++ [true]) ++ repeat false (7 - p)
  /\ octet (Z.lor x (Z.shiftl 1 (7 - Z.of_nat p))).
Proof.
  intros Hp -> Hx Hsym.
  assert (Hok : set_symbol_ok (length pre) x = true).
  { assert (Hc : (length pre = 0 \/ length pre = 1 \/ length pre = 2 \/ length pre = 3
                  \/ length pre = 4 \/ length pre = 5 \/ length pre = 6
                  \/ length pre = 7)%nat) by lia.
    destruct Hc as [->|[->|[->|[->|[->|[->|[->| ->]]]]]]];
      revert x Hx Hsym; intros x Hx _; revert x Hx; apply octet_forall;
      vm_compute; reflexivity. }
  unfold set_symbol_ok in Hok.
  assert (Hskip : skipn (length pre) (byte_symbols 8 x) = repeat false (8 - length pre)).
  { rewrite Hsym, skipn_app, skipn_all, Nat.sub_diag. reflexivity. }
  assert (Hfirst : firstn (length pre) (byte_symbols 8 x) = pre).
  { rewrite Hsym, firstn_app, firstn_all, Nat.sub_diag, firstn_O, app_nil_r. reflexivity. }
  rewrite Hskip, Hfirst in Hok.
  rewrite (proj2 (bools_eqb_eq _ _) eq_refl) in Hok.
  cbv beta iota delta [implb] in Hok.
  apply andb_true_iff in Hok. destruct Hok as [Hok H3].
  apply andb_true_iff in Hok. destruct Hok as [H1 H2].
  apply bools_eqb_eq in H1. apply Z.ltb_lt in H2. apply Z.leb_le in H3.
  split; [|unfold octet; lia].
  rewrite H1, <- app_assoc. reflexivity.
Qed.

Lemma array_update_last f l y :
  array_update (length l) f (l ++ [y]) = l ++ [f y].
Proof. induction l as [|a l IH]; simpl; [reflexivity|]. rewrite IH. reflexivity. Qed.

Lemma packed_stuffbit b bits ts :
  packed bits ts -> packed (bits ++ [c_true b]) (tosend_stuffbit b ts).
Proof.
  intros H. destruct H as [|init x pre Hlen Hx Hsym].
  - unfold tosend_stuffbit. simpl.
    destruct (c_true b); simpl.
    + apply (packed_byte [] 128 [true]); [simpl; lia|unfold octet; lia|reflexivity].
    + apply (packed_byte [] 0 [false]); [simpl; lia|unfold octet; lia|reflexivity].
  - unfold tosend_stuffbit. simpl ToSend.bit. simpl ToSend.max. simpl ToSend.buf.
    destruct (Z.geb_spec (Z.of_nat (length pre)) 8) as [Hfull|Hroom].
    + assert (Hp : length pre = 8%nat) by lia.
      rewrite Hp, Nat.sub_diag in Hsym. cbn [repeat] in Hsym. rewrite app_nil_r in Hsym.
      simpl ToSend.bit. simpl ToSend.max. simpl ToSend.buf.
      replace (Z.to_nat (Z.of_nat (length init) + 1)) with (length (init ++ [x]))
        by (rewrite length_app; simpl; lia).
      rewrite array_update_last.
      replace (Z.of_nat (length init) + 1) with (Z.of_nat (length (init ++ [x])))
        by (rewrite length_app; simpl; lia).
      replace (flat_map (byte_symbols 8) init ++ pre)
        with (flat_map (byte_symbols 8) (init ++ [x]))
        by (rewrite flat_map_app; cbn [flat_map]; rewrite app_nil_r, Hsym; reflexivity).
      destruct (c_true b); simpl Z.add.
      * apply (packed_byte (init ++ [x]) (Z.lor 0 (Z.shiftl 1 (7 - 0))) [true]);
          [simpl; lia|unfold octet; simpl; lia|reflexivity].
      * apply (packed_byte (init ++ [x]) 0 [false]);
          [simpl; lia|unfold octet; lia|reflexivity].
    + cbn [ToSend.max ToSend.bit ToSend.buf].
      rewrite Nat2Z.id, array_update_last.
      replace (Z.of_nat (length pre) + 1) with (Z.of_nat (length (pre ++ [c_true b])))
        by (rewrite length_app; simpl; lia).
      rewrite <- app_assoc.
      destruct (c_true b).
      * destruct (set_symbol (length pre) x pre ltac:(lia) eq_refl Hx Hsym) as [Hs Ho].
        apply packed_byte; [rewrite length_app; simpl; lia|exact Ho|].
        rewrite Hs, length_app. cbn [length].
        replace (8 - (length pre + 1))%nat with (7 - length pre)%nat by lia.
        reflexivity.
      * apply packed_byte; [rewrite length_app; simpl; lia|exact Hx|].
        rewrite Hsym, length_app, <- app_assoc. cbn [length app].
        replace (8 - length pre)%nat with (S (8 - (length pre + 1))) by lia.
        reflexivity.
Qed.

Lemma packed_stuffbits n b : forall bits ts,
  packed bits ts -> packed (bits ++ repeat (c_true b) n) (stuffbits n b ts).
Proof.
  induction n as [|n IH]; intros bits ts H; simpl.
  - rewrite app_nil_r. exact H.
  - change (c_true b :: repeat (c_true b) n) with ([c_true b] ++ repeat (c_true b) n).
    rewrite app_assoc. apply IH. apply packed_stuffbit. exact H.
Qed.

Lemma c_true_bit b k : 0 <= k -> c_true (Z.land (Z.shiftr b k) 1) = Z.testbit b k.
Proof.
  intros Hk. change 1 with (Z.ones 1). rewrite Z.land_ones by lia.
  change (2 ^ 1) with 2. rewrite <- Z.bit0_mod, Z.shiftr_spec by lia.
  simpl Z.add. unfold c_true. destruct (Z.testbit b k); reflexivity.
Qed.

Lemma packed_octet b bits ts :
  packed bits ts -> packed (bits ++ octet_bits b) (code_reader_octet ts b).
Proof.
  intros H. unfold code_reader_octet, octet_bits.
  rewrite <- (c_true_bit b 0), <- (c_true_bit b 1), <- (c_true_bit b 2),
    <- (c_true_bit b 3), <- (c_true_bit b 4), <- (c_true_bit b 5),
    <- (c_true_bit b 6), <- (c_true_bit b 7) by lia.
  rewrite Z.shiftr_0_r.
  change false with (c_true 0). change true with (c_true 1).
  repeat match goal with
         | |- packed (?l ++ ?c :: ?r) _ =>
             change (l ++ c :: r) with (l ++ [c] ++ r); rewrite (app_assoc l [c] r)
         end.
  rewrite app_nil_r.
  repeat apply packed_stuffbit. exact H.
Qed.

Lemma packed_octets M : forall bits ts,
  packed bits ts ->
  packed (bits ++ flat_map octet_bits M) (fold_left code_reader_octet M ts).
Proof.
  induction M as [|b r IH]; intros bits ts H; cbn [flat_map fold_left].
  - rewrite app_nil_r. exact H.
  - rewrite app_assoc. apply IH. apply packed_octet. exact H.
Qed.

Lemma packed_symbols bits ts :
  packed bits ts ->
  exists pad,
    tosend_symbols (ToSend.mk (ToSend.max ts + 1) (ToSend.bit ts) (ToSend.buf ts))
    = bits ++ repeat false pad.
Proof.
  intros H. destruct H as [|init x pre Hlen Hx Hsym].
  - exists O. reflexivity.
  - exists (8 - length pre)%nat. unfold tosend_symbols.
    cbn [ToSend.max ToSend.bit ToSend.buf].
    replace (Z.to_nat (Z.of_nat (length init) + 1)) with (length (init ++ [x]))
      by (rewrite length_app; simpl; lia).
    rewrite firstn_all, flat_map_app. cbn [flat_map]. rewrite app_nil_r, Hsym.
    rewrite app_assoc. reflexivity.
Qed.

Lemma reader_frame_symbols M :
  exists pad,
    tosend_symbols (CodeIso14443bAsReader M) = reader_frame_bits M ++ repeat false pad.
Proof.
  unfold CodeIso14443bAsReader. cbv zeta. apply packed_symbols.
  unfold reader_frame_bits.
  change (repeat true 8) with (repeat (c_true 1) 8).
  change (repeat false 10) with (repeat (c_true 0) 10).
  rewrite !app_assoc. apply packed_stuffbits. apply packed_stuffbits.
  apply packed_octets.
  change [true; true] with ([c_true 1] ++ [c_true 1]). rewrite app_assoc.
  apply packed_stuffbit. apply packed_stuffbit.
  apply (packed_stuffbits 10 0 [] tosend_reset). constructor.
Qed.

(** C1, amended.  For every nonempty octet sequence M shorter than
    MAX_FRAME_SIZE: when M is coded by CodeIso14443bAsReader and every
    stuffbit of ToSend, in transmission order, is fed four times to
    Handle14443bSampleFromReader after Uart14bInit, the UART signals EOF
    exactly once, and at that moment byteCnt is the length of M and the
    stores made through Uart.output are the bytes of M at 0, 1, 2, ... *)
Theorem reader_frame_round_trip MAX_FRAME_SIZE u0 M :
  Forall octet M -> M <> [] -> Z.of_nat (length M) < MAX_FRAME_SIZE ->
  exists u_eof u_end,
    uart_feed (etu_samples (tosend_symbols (CodeIso14443bAsReader M)))
      (Uart14bInit MAX_FRAME_SIZE u0)
    = ([u_eof], u_end)
    /\ Uart.byteCnt u_eof = Z.of_nat (length M)
    /\ Uart.output u_eof = store_frame 0 M []
    /\ forall dflt, buf_bytes dflt (Uart.output u_eof) (length M) = M.
Proof.
  intros Hoct Hne Hlen.
  destruct (reader_frame_symbols M) as [pad Hsym].
  destruct (uart_reader_frame MAX_FRAME_SIZE u0 M pad Hoct Hne Hlen) as [u_end H].
  rewrite Hsym. eexists. exists u_end. split; [exact H|].
  split; [reflexivity|]. split; [reflexivity|].
  intros dflt. apply buf_bytes_store_frame.
Qed.

(** The WUPB command through the UART of a tag with a buffer of 256. *)
Lemma reader_frame_round_trip_witness :
  exists u_eof u_end,
    uart_feed (etu_samples (tosend_symbols (CodeIso14443bAsReader cmdWUPB)))
      (Uart14bInit 256 blank_uart)
    = ([u_eof], u_end)
    /\ Uart.byteCnt u_eof = 5
    /\ buf_bytes 0 (Uart.output u_eof) 5 = cmdWUPB.
Proof.
  destruct (reader_frame_round_trip 256 blank_uart cmdWUPB) as (u_eof & u_end & H & Hc & _ & Hb).
  - repeat constructor; unfold octet; lia.
  - discriminate.
  - simpl. lia.
  - exists u_eof, u_end. split; [exact H|]. split; [exact Hc|]. exact (Hb 0).
Defined.

(** C1 as stated does not hold at either end of its range: for the empty
    sequence the UART never signals EOF, and for a sequence of exactly
    MAX_FRAME_SIZE octets (here WUPB with a buffer of 5) it gives up at the
    last octet and never signals EOF either. *)
Lemma reader_frame_no_eof :
  fst (uart_feed (etu_samples (tosend_symbols (CodeIso14443bAsReader [])))
         (Uart14bInit 256 blank_uart)) = []
  /\ Z.of_nat (length cmdWUPB) <= 5
  /\ fst (uart_feed (etu_samples (tosend_symbols (CodeIso14443bAsReader cmdWUPB)))
            (Uart14bInit 5 blank_uart)) = [].
Proof. split; [reflexivity|]. split; [simpl; lia|reflexivity]. Qed.

(** The frame of WUPB through a UART with room for five bytes: five stores,
    all below byteCntMax. *)
Lemma uart_stores_bounded_witness :
  let u := snd (uart_feed (etu_samples (tosend_symbols (CodeIso14443bAsReader cmdWUPB)))
                  (Uart14bInit 5 blank_uart)) in
  Uart.byteCntMax u = 5
  /\ Forall (fun c => 0 <= fst c < Uart.byteCntMax u) (Uart.output u)
  /\ length (Uart.output u) = 5%nat
  /\ Uart.byteCnt u <= Uart.byteCntMax u.
Proof.
  cbv zeta.
  destruct (uart_stores_bounded 5 blank_uart
              (etu_samples (tosend_symbols (CodeIso14443bAsReader cmdWUPB)))
              ltac:(lia)) as (Hm & Hst & Hc & _).
  split; [exact Hm|]. split; [exact Hst|]. split; [reflexivity|]. lia.
Defined.

(** ** An ideal answer through the demodulator *)

Ltac demod_fields :=
  cbn [Demod.state Demod.bitCount Demod.posCount Demod.thisBit Demod.shiftReg
       Demod.max_len Demod.output Demod.len Demod.sumI Demod.sumQ
       Demod.set_state Demod.set_bitCount Demod.set_posCount Demod.set_thisBit
       Demod.set_shiftReg Demod.set_output Demod.set_len Demod.set_sumI
       Demod.set_sumQ].

Lemma demod_quiet_cons ci cq r d d1 d2 :
  Handle14443bSamplesFromTag ci cq d = (false, d1) ->
  Demod.state d1 <> DEMOD_UNSYNCD ->
  demod_quiet r d1 = Some d2 ->
  demod_quiet ((ci, cq) :: r) d = Some d2.
Proof.
  intros H Hs Hr. cbn [demod_quiet]. rewrite H.
  destruct (Demod.state d1); try exact Hr. contradiction.
Qed.

Lemma demod_quiet_app a : forall b d d1 d2,
  demod_quiet a d = Some d1 -> demod_quiet b d1 = Some d2 ->
  demod_quiet (a ++ b) d = Some d2.
Proof.
  induction a as [|[ci cq] r IH]; intros b d d1 d2 Ha Hb.
  - simpl in Ha. inversion Ha. subst. exact Hb.
  - cbn [demod_quiet app] in Ha |- *.
    destruct (Handle14443bSamplesFromTag ci cq d) as [ret da].
    destruct ret; [discriminate|].
    destruct (Demod.state da); try discriminate; eapply IH; eassumption.
Qed.

Lemma demod_run_quiet pairs : forall d d1,
  demod_quiet pairs d = Some d1 -> demod_run pairs d = ([], d1).
Proof.
  induction pairs as [|[ci cq] r IH]; intros d d1 H.
  - simpl in H. inversion H. reflexivity.
  - cbn [demod_quiet demod_run] in H |- *.
    destruct (Handle14443bSamplesFromTag ci cq d) as [ret da].
    destruct ret; [discriminate|].
    assert (Hr : demod_quiet r da = Some d1)
      by (destruct (Demod.state da); try discriminate; exact H).
    rewrite (IH _ _ Hr). reflexivity.
Qed.

Lemma demod_run_app a : forall b d,
  demod_run (a ++ b) d =
  (fst (demod_run a d) ++ fst (demod_run b (snd (demod_run a d))),
   snd (demod_run b (snd (demod_run a d)))).
Proof.
  induction a as [|[ci cq] r IH]; intros b d.
  - simpl. destruct (demod_run b d). reflexivity.
  - cbn [demod_run app].
    destruct (Handle14443bSamplesFromTag ci cq d) as [ret da].
    rewrite IH. destruct (demod_run r da) as [e1 d1]. simpl.
    destruct ret; reflexivity.
Qed.

Lemma iq_pairs_app I0 Q0 a b : iq_pairs I0 Q0 (a ++ b) = iq_pairs I0 Q0 a ++ iq_pairs I0 Q0 b.
Proof. unfold iq_pairs. apply flat_map_app. Qed.

Lemma iq_pairs_repeat I0 Q0 x n :
  iq_pairs I0 Q0 (repeat x n)
  = repeat (if x then (I0, Q0) else (- I0, - Q0)) (2 * n).
Proof.
  induction n as [|n IH]; [reflexivity|].
  replace (2 * S n)%nat with (S (S (2 * n))) by lia.
  cbn [repeat]. rewrite <- IH. destruct x; reflexivity.
Qed.

Section IdealAnswer.

Variables I0 Q0 : Z.
Hypothesis Hamp : AMPLITUDE I0 Q0 > SUBCARRIER_DETECT_THRESHOLD.

(** The soft decision for a pair in phase with the reference. *)
Local Abbreviation A := (Z.abs I0 + Z.abs Q0).

Lemma ideal_amplitude : (AMPLITUDE I0 Q0 >? SUBCARRIER_DETECT_THRESHOLD) = true.
Proof. apply Z.gtb_lt. lia. Qed.

Lemma ideal_level : 0 < A.
Proof.
  destruct (Z.eq_dec I0 0) as [HI|HI]; [|lia].
  destruct (Z.eq_dec Q0 0) as [HQ|HQ]; [|lia].
  subst. vm_compute in Hamp. discriminate.
Qed.

Lemma soft_one d :
  Demod.sumI d = 8 * I0 -> Demod.sumQ d = 8 * Q0 ->
  MAKE_SOFT_DECISION d I0 Q0 = A.
Proof.
  intros HI HQ. unfold MAKE_SOFT_DECISION. rewrite HI, HQ.
  destruct (Z.gtb_spec (8 * I0) 0), (Z.gtb_spec (8 * Q0) 0); lia.
Qed.

Lemma soft_zero d :
  Demod.sumI d = 8 * I0 -> Demod.sumQ d = 8 * Q0 ->
  MAKE_SOFT_DECISION d (- I0) (- Q0) = - A.
Proof.
  intros HI HQ. unfold MAKE_SOFT_DECISION. rewrite HI, HQ.
  destruct (Z.gtb_spec (8 * I0) 0), (Z.gtb_spec (8 * Q0) 0); lia.
Qed.

Lemma level_tests :
  (A >? 0) = true /\ (A <? 0) = false /\ (- A >? 0) = false /\ (- A <? 0) = true
  /\ (A + A >? 0) = true /\ (- A + - A >? 0) = false.
Proof.
  pose proof ideal_level as H.
  repeat split;
    first [apply Z.gtb_lt; lia | apply Z.ltb_lt; lia | apply Z.ltb_ge; lia
          | (rewrite Z.gtb_ltb; apply Z.ltb_ge; lia)].
Qed.

Ltac ideal_step :=
  unfold Handle14443bSamplesFromTag; demod_fields; cbv iota;
  unfold demod_unsyncd, demod_phase_ref_training, demod_awaiting_falling_edge_of_sof,
    demod_got_falling_edge_of_sof, demod_awaiting_start_bit, demod_receiving_data;
  cbv zeta; demod_fields;
  rewrite ?ideal_amplitude;
  rewrite ?soft_one by reflexivity;
  rewrite ?soft_zero by reflexivity;
  destruct level_tests as (T1 & T2 & T3 & T4 & T5 & T6);
  rewrite ?T1, ?T2, ?T3, ?T4, ?T5, ?T6;
  cbv iota; demod_fields;
  rewrite ?T1, ?T2, ?T3, ?T4, ?T5, ?T6;
  cbv iota; demod_fields.

(** Phase reference training: nine pairs of subcarrier. *)
Lemma ideal_training_first max_len d :
  Handle14443bSamplesFromTag I0 Q0 (Demod14bInit max_len d)
  = (false, Demod.mk DEMOD_PHASE_REF_TRAINING 0 1 0 0 (u16 max_len) [] 0 I0 Q0).
Proof. unfold Demod14bInit, Demod14bReset. ideal_step. reflexivity. Qed.

Lemma ideal_training_step p ml sI sQ :
  p < 8 ->
  Handle14443bSamplesFromTag I0 Q0 (Demod.mk DEMOD_PHASE_REF_TRAINING 0 p 0 0 ml [] 0 sI sQ)
  = (false, Demod.mk DEMOD_PHASE_REF_TRAINING 0 (p + 1) 0 0 ml [] 0 (sI + I0) (sQ + Q0)).
Proof.
  intros Hp. ideal_step. destruct (Z.ltb_spec p 8); [|lia]. reflexivity.
Qed.

Lemma ideal_training_last ml sI sQ :
  Handle14443bSamplesFromTag I0 Q0 (Demod.mk DEMOD_PHASE_REF_TRAINING 0 8 0 0 ml [] 0 sI sQ)
  = (false, Demod.mk DEMOD_AWAITING_FALLING_EDGE_OF_SOF 0 8 0 0 ml [] 0 sI sQ).
Proof. ideal_step. reflexivity. Qed.

Lemma ideal_training max_len d :
  demod_quiet (repeat (I0, Q0) 9) (Demod14bInit max_len d)
  = Some (Demod.mk DEMOD_AWAITING_FALLING_EDGE_OF_SOF 0 8 0 0 (u16 max_len) [] 0
            (8 * I0) (8 * Q0)).
Proof.
  cbn [repeat].
  eapply demod_quiet_cons; [apply ideal_training_first|discriminate|].
  do 7 (eapply demod_quiet_cons; [apply ideal_training_step; lia|discriminate|]).
  eapply demod_quiet_cons; [apply ideal_training_last|discriminate|].
  cbn [demod_quiet]. f_equal. f_equal; lia.
Qed.


Local Abbreviation synced s bc pc tb sr ml out ln :=
  (Demod.mk s bc pc tb sr ml out ln (8 * I0) (8 * Q0)).

(** The rest of TR1: subcarrier while the falling edge is awaited. *)
Lemma ideal_tr1_rest m : forall p ml,
  p + Z.of_nat m <= 51 ->
  demod_quiet (repeat (I0, Q0) m)
    (synced DEMOD_AWAITING_FALLING_EDGE_OF_SOF 0 p 0 0 ml [] 0)
  = Some (synced DEMOD_AWAITING_FALLING_EDGE_OF_SOF 0 (p + Z.of_nat m) 0 0 ml [] 0).
Proof.
  induction m as [|m IH]; intros p ml Hp.
  - cbn [repeat demod_quiet]. replace (p + Z.of_nat 0) with p by (simpl; lia).
    reflexivity.
  - cbn [repeat]. eapply demod_quiet_cons with
      (d1 := synced DEMOD_AWAITING_FALLING_EDGE_OF_SOF 0 (p + 1) 0 0 ml [] 0).
    + ideal_step. destruct (Z.gtb_spec p (200 / 4)) as [Hgt|_].
      * change (200 / 4) with 50 in Hgt. lia.
      * reflexivity.
    + discriminate.
    + rewrite IH by lia.
      replace (p + Z.of_nat (S m)) with (p + 1 + Z.of_nat m) by lia. reflexivity.
Qed.

(** The low phase of the SOF. *)
Lemma ideal_falling_edge p ml :
  Handle14443bSamplesFromTag (- I0) (- Q0)
    (synced DEMOD_AWAITING_FALLING_EDGE_OF_SOF 0 p 0 0 ml [] 0)
  = (false, synced DEMOD_GOT_FALLING_EDGE_OF_SOF 0 1 0 0 ml [] 0).
Proof. ideal_step. reflexivity. Qed.

Lemma ideal_sof_low m : forall p ml,
  p + Z.of_nat m <= 28 ->
  demod_quiet (repeat (- I0, - Q0) m)
    (synced DEMOD_GOT_FALLING_EDGE_OF_SOF 0 p 0 0 ml [] 0)
  = Some (synced DEMOD_GOT_FALLING_EDGE_OF_SOF 0 (p + Z.of_nat m) 0 0 ml [] 0).
Proof.
  induction m as [|m IH]; intros p ml Hp.
  - cbn [repeat demod_quiet]. replace (p + Z.of_nat 0) with p by (simpl; lia).
    reflexivity.
  - cbn [repeat]. eapply demod_quiet_cons with
      (d1 := synced DEMOD_GOT_FALLING_EDGE_OF_SOF 0 (p + 1) 0 0 ml [] 0).
    + ideal_step. destruct (Z.gtb_spec (p + 1) (14 * 2)) as [Hgt|_].
      * change (14 * 2) with 28 in Hgt. lia.
      * reflexivity.
    + discriminate.
    + rewrite IH by lia.
      replace (p + Z.of_nat (S m)) with (p + 1 + Z.of_nat m) by lia. reflexivity.
Qed.

(** The rising edge of the SOF, after a low phase of at least nine ETUs. *)
Lemma ideal_rising_edge p bc tb sr ml out ln :
  17 <= p ->
  Handle14443bSamplesFromTag I0 Q0
    (synced DEMOD_GOT_FALLING_EDGE_OF_SOF bc p tb sr ml out ln)
  = (false, synced DEMOD_AWAITING_START_BIT 0 0 tb sr ml out 0).
Proof.
  intros Hp. ideal_step. destruct (Z.ltb_spec (p + 1) (9 * 2)) as [Hlt|_].
  - change (9 * 2) with 18 in Hlt. lia.
  - reflexivity.
Qed.

(** Subcarrier while a start bit is awaited. *)
Lemma ideal_gap m : forall p bc tb sr ml out ln,
  p + Z.of_nat m <= 12 ->
  demod_quiet (repeat (I0, Q0) m)
    (synced DEMOD_AWAITING_START_BIT bc p tb sr ml out ln)
  = Some (synced DEMOD_AWAITING_START_BIT bc (p + Z.of_nat m) tb sr ml out ln).
Proof.
  induction m as [|m IH]; intros p bc tb sr ml out ln Hp.
  - cbn [repeat demod_quiet]. replace (p + Z.of_nat 0) with p by (simpl; lia).
    reflexivity.
  - cbn [repeat]. eapply demod_quiet_cons with
      (d1 := synced DEMOD_AWAITING_START_BIT bc (p + 1) tb sr ml out ln).
    + ideal_step. destruct (Z.gtb_spec (p + 1) (6 * 2)) as [Hgt|_].
      * change (6 * 2) with 12 in Hgt. lia.
      * reflexivity.
    + discriminate.
    + rewrite IH by lia.
      replace (p + Z.of_nat (S m)) with (p + 1 + Z.of_nat m) by lia. reflexivity.
Qed.

(** The two pairs of a start bit. *)
Lemma ideal_start_bit p tb sr ml out ln :
  demod_quiet [(- I0, - Q0); (- I0, - Q0)]
    (synced DEMOD_AWAITING_START_BIT 0 p tb sr ml out ln)
  = Some (synced DEMOD_RECEIVING_DATA 1 0 (- A + - A) 0 ml out ln).
Proof.
  eapply demod_quiet_cons with
    (d1 := synced DEMOD_RECEIVING_DATA 0 1 (- A) 0 ml out ln).
  - ideal_step. reflexivity.
  - discriminate.
  - eapply demod_quiet_cons; [ideal_step; reflexivity|discriminate|reflexivity].
Qed.

(** The two pairs of a bit that does not complete the character. *)
Lemma ideal_data_bit (x : bool) k tb sr ml out ln :
  (u16 (k + 1) =? 10) = false ->
  demod_quiet (iq_pairs I0 Q0 [x])
    (synced DEMOD_RECEIVING_DATA k 0 tb sr ml out ln)
  = Some (synced DEMOD_RECEIVING_DATA (u16 (k + 1)) 0
            ((if x then A else - A) + (if x then A else - A)) (shift_in x sr) ml out ln).
Proof.
  intros Hk. destruct x; cbn [iq_pairs flat_map app].
  - eapply demod_quiet_cons with
      (d1 := synced DEMOD_RECEIVING_DATA k 1 A sr ml out ln).
    + ideal_step. reflexivity.
    + discriminate.
    + eapply demod_quiet_cons;
        [ideal_step; rewrite Hk; reflexivity|discriminate|reflexivity].
  - eapply demod_quiet_cons with
      (d1 := synced DEMOD_RECEIVING_DATA k 1 (- A) sr ml out ln).
    + ideal_step. reflexivity.
    + discriminate.
    + eapply demod_quiet_cons;
        [ideal_step; rewrite Hk; reflexivity|discriminate|reflexivity].
Qed.

(** The two pairs of a stop bit that completes a well-framed character. *)
Lemma ideal_stop_bit tb sr ml out ln :
  c_true (Z.land (shift_in true sr) 512) = true ->
  c_true (Z.land (shift_in true sr) 1) = false ->
  demod_quiet [(I0, Q0); (I0, Q0)]
    (synced DEMOD_RECEIVING_DATA 9 0 tb sr ml out ln)
  = Some (synced DEMOD_AWAITING_START_BIT 0 0 (A + A) (shift_in true sr) ml
            (buf_store ln (u8 (Z.shiftr (shift_in true sr) 1)) out) (u16 (ln + 1))).
Proof.
  intros H1 H2. unfold shift_in in *.
  eapply demod_quiet_cons with
    (d1 := synced DEMOD_RECEIVING_DATA 9 1 A sr ml out ln).
  - ideal_step. reflexivity.
  - discriminate.
  - eapply demod_quiet_cons;
      [ideal_step; change (u16 (9 + 1) =? 10) with true; cbv iota;
       rewrite H1, H2; reflexivity
      |discriminate|reflexivity].
Qed.

(** The last pairs of an EOF: the second one ends the frame. *)
Lemma ideal_eof_bit tb ml out ln :
  exists d0,
    Handle14443bSamplesFromTag (- I0) (- Q0)
      (synced DEMOD_RECEIVING_DATA 9 0 tb 0 ml out ln) = (false, d0)
    /\ Demod.state d0 <> DEMOD_UNSYNCD
    /\ Handle14443bSamplesFromTag (- I0) (- Q0) d0
       = (true, synced DEMOD_UNSYNCD 10 1 (- A + - A) 0 ml out ln).
Proof.
  exists (synced DEMOD_RECEIVING_DATA 9 1 (- A) 0 ml out ln).
  split; [ideal_step; reflexivity|]. split; [discriminate|].
  ideal_step. reflexivity.
Qed.


Lemma octet_demod_valid b : octet b -> octet_demod_ok b = true.
Proof. apply octet_forall. vm_compute. reflexivity. Qed.

(** The twenty pairs of an octet. *)
Lemma ideal_octet b p tb sr ml out ln :
  octet b ->
  demod_quiet (iq_pairs I0 Q0 (octet_bits b))
    (synced DEMOD_AWAITING_START_BIT 0 p tb sr ml out ln)
  = Some (synced DEMOD_AWAITING_START_BIT 0 0 (A + A) (octet_shiftreg b) ml
            (buf_store ln b out) (u16 (ln + 1))).
Proof.
  intros Hb. pose proof (octet_demod_valid b Hb) as Hok.
  unfold octet_demod_ok in Hok.
  apply andb_true_iff in Hok. destruct Hok as [Hok H3].
  apply andb_true_iff in Hok. destruct Hok as [H1 H2].
  apply negb_true_iff in H2. apply Z.eqb_eq in H3.
  rewrite <- H3 at 3.
  change (octet_bits b)
    with ([false] ++ [Z.testbit b 0] ++ [Z.testbit b 1] ++ [Z.testbit b 2]
          ++ [Z.testbit b 3] ++ [Z.testbit b 4] ++ [Z.testbit b 5]
          ++ [Z.testbit b 6] ++ [Z.testbit b 7] ++ [true]).
  rewrite !iq_pairs_app.
  eapply demod_quiet_app; [apply ideal_start_bit|].
  do 8 (eapply demod_quiet_app; [apply ideal_data_bit; reflexivity|]).
  apply ideal_stop_bit; assumption.
Qed.

Lemma ideal_chars chars : forall p tb sr ml out ln,
  Forall (timed_char 6) chars -> 0 <= ln -> ln + Z.of_nat (length chars) < 65536 ->
  exists p1 tb1 sr1,
    demod_quiet
      (iq_pairs I0 Q0
         (flat_map (fun c => octet_bits (fst c) ++ repeat true (snd c)) chars))
      (synced DEMOD_AWAITING_START_BIT 0 p tb sr ml out ln)
    = Some (synced DEMOD_AWAITING_START_BIT 0 p1 tb1 sr1 ml
              (store_frame ln (map fst chars) out)
              (ln + Z.of_nat (length chars))).
Proof.
  induction chars as [|[b g] r IH]; intros p tb sr ml out ln Hc Hln Hlen.
  - exists p, tb, sr. cbn [flat_map iq_pairs demod_quiet store_frame length map].
    replace (ln + Z.of_nat 0) with ln by (simpl; lia). reflexivity.
  - inversion Hc as [|c r' [Hb Hg] Hr]; subst c r'. cbn [fst snd] in Hb, Hg.
    cbn [length] in Hlen. rewrite Nat2Z.inj_succ in Hlen.
    destruct (IH (0 + Z.of_nat (2 * g)) (A + A) (octet_shiftreg b) ml
                (buf_store ln b out) (ln + 1) Hr)
      as (p1 & tb1 & sr1 & Hrest); [lia|lia|].
    exists p1, tb1, sr1.
    cbn [flat_map store_frame length map fst snd]. rewrite !iq_pairs_app.
    rewrite <- app_assoc.
    eapply demod_quiet_app; [apply ideal_octet; exact Hb|].
    replace (u16 (ln + 1)) with (ln + 1)
      by (unfold u16; rewrite Z.mod_small; lia).
    eapply demod_quiet_app.
    { rewrite (iq_pairs_repeat I0 Q0 true g). apply ideal_gap. lia. }
    rewrite Hrest. rewrite Nat2Z.inj_succ. do 2 f_equal. lia.
Qed.

(** The ten zero bits of an EOF but for their last pair, and that pair. *)
Lemma ideal_eof p tb sr ml out ln :
  exists d0,
    demod_quiet (iq_pairs I0 Q0 (repeat false 9) ++ [(- I0, - Q0)])
      (synced DEMOD_AWAITING_START_BIT 0 p tb sr ml out ln) = Some d0
    /\ Handle14443bSamplesFromTag (- I0) (- Q0) d0
       = (true, synced DEMOD_UNSYNCD 10 1 (- A + - A) 0 ml out ln).
Proof.
  destruct (ideal_eof_bit (- A + - A) ml out ln) as (d0 & H1 & Hs & H2).
  exists d0. split; [|exact H2].
  change (repeat false 9)
    with ([false] ++ [false] ++ [false] ++ [false] ++ [false] ++ [false]
          ++ [false] ++ [false] ++ [false]).
  rewrite !iq_pairs_app. rewrite <- !app_assoc.
  eapply demod_quiet_app; [apply ideal_start_bit|].
  do 8 (eapply demod_quiet_app; [apply (ideal_data_bit false); reflexivity|]).
  eapply demod_quiet_cons; [exact H1|exact Hs|reflexivity].
Qed.

(** The whole answer: every pair but the last is taken without a result,
    the last one returns true. *)
Lemma timed_answer_decoded (tr1 low high : nat) chars max_len d :
  (5 <= tr1 <= 26)%nat -> (9 <= low <= 14)%nat -> (1 <= high <= 6)%nat ->
  Forall (timed_char 6) chars -> Z.of_nat (length chars) < 65536 ->
  exists pre d0,
    iq_pairs I0 Q0 (timed_answer_bits tr1 low high chars) = pre ++ [(- I0, - Q0)]
    /\ demod_quiet pre (Demod14bInit max_len d) = Some d0
    /\ Handle14443bSamplesFromTag (- I0) (- Q0) d0
       = (true, synced DEMOD_UNSYNCD 10 1 (- A + - A) 0 (u16 max_len)
                  (store_frame 0 (map fst chars) []) (Z.of_nat (length chars))).
Proof.
  intros Htr Hlow Hhigh Hc Hlen.
  destruct (ideal_chars chars (0 + Z.of_nat (2 * high - 1)) 0 0 (u16 max_len) [] 0 Hc)
    as (p1 & tb1 & sr1 & HM); [lia|lia|].
  destruct (ideal_eof p1 tb1 sr1 (u16 max_len) (store_frame 0 (map fst chars) [])
              (Z.of_nat (length chars))) as (d0 & Hq & Hlast).
  exists (repeat (I0, Q0) 9 ++ repeat (I0, Q0) (2 * tr1 - 9)
          ++ [(- I0, - Q0)] ++ repeat (- I0, - Q0) (2 * low - 1)
          ++ [(I0, Q0)] ++ repeat (I0, Q0) (2 * high - 1)
          ++ iq_pairs I0 Q0
               (flat_map (fun c => octet_bits (fst c) ++ repeat true (snd c)) chars)
          ++ iq_pairs I0 Q0 (repeat false 9) ++ [(- I0, - Q0)]), d0.
  split; [|split; [|exact Hlast]].
  - unfold timed_answer_bits, timed_frame_bits.
    change (repeat false 10) with (repeat false 9 ++ [false]).
    rewrite !iq_pairs_app, (iq_pairs_repeat I0 Q0 true tr1),
      (iq_pairs_repeat I0 Q0 false low), (iq_pairs_repeat I0 Q0 true high).
    replace (2 * tr1)%nat with (9 + (2 * tr1 - 9))%nat by lia.
    replace (2 * low)%nat with (1 + (2 * low - 1))%nat by lia.
    replace (2 * high)%nat with (1 + (2 * high - 1))%nat by lia.
    rewrite !repeat_app.
    replace (9 + (2 * tr1 - 9) - 9)%nat with (2 * tr1 - 9)%nat by lia.
    replace (1 + (2 * low - 1) - 1)%nat with (2 * low - 1)%nat by lia.
    replace (1 + (2 * high - 1) - 1)%nat with (2 * high - 1)%nat by lia.
    rewrite <- !app_assoc. reflexivity.
  - eapply demod_quiet_app; [apply ideal_training|].
    eapply demod_quiet_app;
      [apply (ideal_tr1_rest (2 * tr1 - 9) 8); lia|].
    eapply demod_quiet_app.
    { eapply demod_quiet_cons; [apply ideal_falling_edge|discriminate|reflexivity]. }
    eapply demod_quiet_app; [apply (ideal_sof_low (2 * low - 1) 1); lia|].
    eapply demod_quiet_app.
    { eapply demod_quiet_cons; [apply ideal_rising_edge; lia|discriminate|reflexivity]. }
    eapply demod_quiet_app; [apply (ideal_gap (2 * high - 1) 0); lia|].
    eapply demod_quiet_app; [exact HM|].
    exact Hq.
Qed.

Lemma ideal_answer_decoded (tr1 : nat) M max_len d :
  (5 <= tr1 <= 26)%nat -> Forall octet M -> Z.of_nat (length M) < 65536 ->
  exists pre d0,
    iq_pairs I0 Q0 (tag_answer_bits tr1 M) = pre ++ [(- I0, - Q0)]
    /\ demod_quiet pre (Demod14bInit max_len d) = Some d0
    /\ Handle14443bSamplesFromTag (- I0) (- Q0) d0
       = (true, synced DEMOD_UNSYNCD 10 1 (- A + - A) 0 (u16 max_len)
                  (store_frame 0 M []) (Z.of_nat (length M))).
Proof.
  intros Htr Hoct Hlen.
  assert (Hbits : tag_answer_bits tr1 M
                  = timed_answer_bits tr1 10 2 (map (fun b => (b, O)) M)).
  { unfold tag_answer_bits, timed_answer_bits, timed_frame_bits.
    change (repeat true 2) with [true; true]. rewrite <- !app_assoc.
    f_equal. f_equal. f_equal. f_equal.
    clear Htr Hoct Hlen. induction M as [|b r IHM]; [reflexivity|].
    cbn [map flat_map fst snd repeat]. rewrite app_nil_r, IHM. reflexivity. }
  assert (Hmap : map fst (map (fun b : Z => (b, O)) M) = M)
    by (rewrite map_map; cbn [fst]; apply map_id).
  destruct (timed_answer_decoded tr1 10 2 (map (fun b => (b, O)) M) max_len d)
    as (pre & d0 & H1 & H2 & H3); try lia.
  - apply Forall_map. apply Forall_impl with (2 := Hoct).
    intros b Hb. split; [exact Hb|cbn; lia].
  - rewrite length_map. exact Hlen.
  - exists pre, d0. rewrite Hbits. rewrite Hmap, length_map in H3.
    split; [exact H1|]. split; [exact H2|exact H3].
Qed.

End IdealAnswer.

(** ** An answer through the receive loop *)

Lemma int8_u8 x : -128 <= x <= 127 -> int8 (u8 x) = x.
Proof.
  intros H. unfold int8, u8. rewrite Z.mod_mod by lia.
  destruct (Z.leb_spec 0 x) as [Hx|Hx].
  - rewrite Z.mod_small by lia. destruct (Z.geb_spec x 128); [lia|reflexivity].
  - replace (x mod 256) with (x + 256)
      by (apply Z.mod_unique with (q := -1); lia).
    destruct (Z.geb_spec (x + 256) 128); lia.
Qed.

Lemma event_iq ci cq :
  -128 <= ci <= 127 -> -128 <= cq <= 127 ->
  event_ci (mkEvent (iq_word ci cq) false) = ci
  /\ event_cq (mkEvent (iq_word ci cq) false) = cq.
Proof.
  intros Hi Hq. unfold event_ci, event_cq, iq_word. cbn [dma_word].
  assert (Bi : 0 <= u8 ci < 256) by (unfold u8; apply Z.mod_pos_bound; lia).
  assert (Bq : 0 <= u8 cq < 256) by (unfold u8; apply Z.mod_pos_bound; lia).
  split.
  - rewrite Z.shiftr_div_pow2 by lia. change (2 ^ 8) with 256.
    rewrite Z.div_add_l by lia. rewrite Z.div_small by lia.
    rewrite Z.add_0_r. apply int8_u8. exact Hi.
  - rewrite <- (int8_u8 cq Hq) at 2. unfold int8.
    replace (u8 (u8 ci * 256 + u8 cq)) with (u8 (u8 cq)); [reflexivity|].
    unfold u8 at 1 3. rewrite Z.add_comm, Z.mod_add by lia. reflexivity.
Qed.

Lemma loop_continues_quiet timeout pairs : forall n d d1,
  Forall pair_in_range pairs ->
  demod_quiet pairs d = Some d1 ->
  loop_continues timeout (pairs_events pairs) n d
  = Some (n + Z.of_nat (length pairs), d1).
Proof.
  induction pairs as [|[ci cq] r IH]; intros n d d1 Hr Hq.
  - simpl in Hq. inversion Hq. simpl. f_equal. f_equal. lia.
  - inversion Hr as [|p r' [Hi Hc] Hr']; subst. cbn [fst snd] in Hi, Hc.
    destruct (event_iq ci cq Hi Hc) as [Ei Ec].
    cbn [demod_quiet] in Hq.
    destruct (Handle14443bSamplesFromTag ci cq d) as [eof da] eqn:E.
    destruct eof; [discriminate|].
    assert (Hs : Demod.state da <> DEMOD_UNSYNCD)
      by (destruct (Demod.state da); [discriminate Hq|..]; discriminate).
    assert (Hq' : demod_quiet r da = Some d1)
      by (destruct (Demod.state da); [discriminate Hq|..]; exact Hq).
    change (pairs_events ((ci, cq) :: r))
      with (mkEvent (iq_word ci cq) false :: pairs_events r).
    rewrite loop_continues_cons. rewrite Ei, Ec, E. cbn [snd].
    assert (Hone : answer_loop timeout [mkEvent (iq_word ci cq) false] n d = None).
    { cbn [answer_loop pressed]. fold (event_ci (mkEvent (iq_word ci cq) false)).
      fold (event_cq (mkEvent (iq_word ci cq) false)). rewrite Ei, Ec, E.
      destruct (Demod.state da); [contradiction Hs; reflexivity|..];
        cbn; rewrite andb_false_r; reflexivity. }
    rewrite Hone. rewrite (IH (n + 1) da d1 Hr' Hq').
    cbn [length]. rewrite Nat2Z.inj_succ. f_equal. f_equal. lia.
Qed.

Lemma iq_pairs_in_range I0 Q0 bits :
  iq_in_range I0 Q0 -> Forall pair_in_range (iq_pairs I0 Q0 bits).
Proof.
  intros [Hi Hq]. induction bits as [|b r IH]; [constructor|].
  change (b :: r) with ([b] ++ r). rewrite iq_pairs_app.
  apply Forall_app. split; [|exact IH].
  destruct b; cbn [iq_pairs flat_map app]; repeat constructor; cbn [fst snd]; lia.
Qed.

Lemma pairs_events_app a b : pairs_events (a ++ b) = pairs_events a ++ pairs_events b.
Proof. unfold pairs_events. apply map_app. Qed.

(** Get14443bAnswerFromTag on an answer. *)
Lemma ideal_answer_received I0 Q0 (tr1 : nat) M rest max_len timeout d :
  AMPLITUDE I0 Q0 > SUBCARRIER_DETECT_THRESHOLD ->
  iq_in_range I0 Q0 ->
  (5 <= tr1 <= 26)%nat -> Forall octet M -> Z.of_nat (length M) < 65536 ->
  Get14443bAnswerFromTag max_len timeout (ideal_answer I0 Q0 tr1 M rest) d
  = Some ((if Z.of_nat (length M) >? u16 max_len then -2 else Z.of_nat (length M)),
          Demod.mk DEMOD_UNSYNCD 10 1
            (- (Z.abs I0 + Z.abs Q0) + - (Z.abs I0 + Z.abs Q0)) 0 (u16 max_len)
            (store_frame 0 M []) (Z.of_nat (length M)) (8 * I0) (8 * Q0)).
Proof.
  intros Hamp Hr Htr Hoct Hlen.
  destruct (ideal_answer_decoded I0 Q0 Hamp tr1 M max_len d Htr Hoct Hlen)
    as (pre & d0 & Hsplit & Hq & Hlast).
  pose proof (iq_pairs_in_range I0 Q0 (tag_answer_bits tr1 M) Hr) as Hall.
  rewrite Hsplit in Hall. apply Forall_app in Hall. destruct Hall as [Hpre Hl].
  inversion Hl as [|p l [Hi Hc] _]; subst. cbn [fst snd] in Hi, Hc.
  destruct (event_iq (- I0) (- Q0) Hi Hc) as [Ei Ec].
  unfold Get14443bAnswerFromTag, ideal_answer. cbn [dma_ok events negb].
  rewrite Hsplit, pairs_events_app, <- app_assoc.
  rewrite (answer_loop_app timeout _ _ 0 _ _ d0
             (loop_continues_quiet timeout pre 0 _ d0 Hpre Hq)).
  change (pairs_events [(- I0, - Q0)] ++ rest)
    with (mkEvent (iq_word (- I0) (- Q0)) false :: rest).
  cbn [answer_loop pressed].
  fold (event_ci (mkEvent (iq_word (- I0) (- Q0)) false)).
  fold (event_cq (mkEvent (iq_word (- I0) (- Q0)) false)).
  rewrite Ei, Ec, Hlast. cbn [Demod.len Demod.max_len].
  destruct (Z.of_nat (length M) >? u16 max_len); cbn.
  - reflexivity.
  - destruct (Z.ltb_spec (Z.of_nat (length M)) 0); [lia|reflexivity].
Qed.

Lemma ideal_answer_fits I0 Q0 (tr1 : nat) M rest max_len timeout d :
  AMPLITUDE I0 Q0 > SUBCARRIER_DETECT_THRESHOLD ->
  iq_in_range I0 Q0 ->
  (5 <= tr1 <= 26)%nat -> Forall octet M -> Z.of_nat (length M) <= u16 max_len ->
  exists d1,
    Get14443bAnswerFromTag max_len timeout (ideal_answer I0 Q0 tr1 M rest) d
    = Some (Z.of_nat (length M), d1)
    /\ Demod.output d1 = store_frame 0 M [].
Proof.
  intros Hamp Hr Htr Hoct Hlen.
  assert (Hb : Z.of_nat (length M) < 65536)
    by (unfold u16 in Hlen; pose proof (Z.mod_pos_bound max_len 65536); lia).
  eexists. rewrite (ideal_answer_received I0 Q0 tr1 M rest max_len timeout d
                      Hamp Hr Htr Hoct Hb).
  destruct (Z.gtb_spec (Z.of_nat (length M)) (u16 max_len)); [lia|].
  split; reflexivity.
Qed.

(** The stores of a frame that fits stay inside the array. *)
Lemma buf_within_store_frame M : forall i size b,
  0 <= i -> i + Z.of_nat (length M) <= size ->
  buf_within size (store_frame i M b) = buf_within size b.
Proof.
  induction M as [|x r IH]; intros i size b Hi Hlen; [reflexivity|].
  cbn [length] in Hlen. cbn [store_frame]. rewrite IH by lia.
  unfold buf_store. cbn [buf_within forallb fst].
  destruct (Z.leb_spec 0 i); [|lia]. destruct (Z.ltb_spec i size); [|lia].
  reflexivity.
Qed.

(** receive_answer when the air carries an answer that fits. *)
Lemma receive_ideal_answer I0 Q0 (tr1 : nat) M rest more max_len timeout w :
  air w = ideal_answer I0 Q0 tr1 M rest :: more ->
  AMPLITUDE I0 Q0 > SUBCARRIER_DETECT_THRESHOLD ->
  iq_in_range I0 Q0 ->
  (5 <= tr1 <= 26)%nat -> Forall octet M -> Z.of_nat (length M) <= u16 max_len ->
  exists d1,
    receive_answer max_len timeout w
    = Some (Z.of_nat (length M),
            mkWorld (pcb_blocknum w) (iso14b_timeout w) (w_uart w) d1
              (w_tosend w) (sent w) more)
    /\ Demod.output d1 = store_frame 0 M [].
Proof.
  intros Hair Hamp Hr Htr Hoct Hlen.
  destruct (ideal_answer_fits I0 Q0 tr1 M rest max_len timeout (w_demod w)
              Hamp Hr Htr Hoct Hlen) as (d1 & Hget & Hout).
  exists d1. unfold receive_answer.
  rewrite Hair, Hget, Hout, (buf_within_store_frame M 0 (u16 max_len)) by lia.
  split; reflexivity.
Qed.

(** X1.  Round trip through the demodulator.  An answer whose IQ pairs are
    the reference vector (I0, Q0) for a one and its opposite for a zero, two
    pairs per ETU, with an amplitude above the detection threshold, a TR1 of
    5 to 26 ETUs, an SOF of 9 to 14 ETUs low and 1 to 6 ETUs high, and up to
    6 ETUs of guard time after each character, makes
    Handle14443bSamplesFromTag return true exactly once, at the last pair:
    the demodulator is then back in DEMOD_UNSYNCD, Demod.len is the number
    of characters and the stores through Demod.output are their octets. *)
Theorem demod_answer_round_trip I0 Q0 (tr1 low high : nat) chars max_len d :
  AMPLITUDE I0 Q0 > SUBCARRIER_DETECT_THRESHOLD ->
  (5 <= tr1 <= 26)%nat -> (9 <= low <= 14)%nat -> (1 <= high <= 6)%nat ->
  Forall (timed_char 6) chars -> Z.of_nat (length chars) <= u16 max_len ->
  exists d1,
    demod_run (iq_pairs I0 Q0 (timed_answer_bits tr1 low high chars))
      (Demod14bInit max_len d)
    = ([d1], d1)
    /\ Demod.state d1 = DEMOD_UNSYNCD
    /\ Demod.len d1 = Z.of_nat (length chars)
    /\ buf_bytes 0 (Demod.output d1) (length chars) = map fst chars.
Proof.
  intros Hamp Htr Hlow Hhigh Hc Hlen.
  assert (Hb : Z.of_nat (length chars) < 65536)
    by (unfold u16 in Hlen; pose proof (Z.mod_pos_bound max_len 65536); lia).
  destruct (timed_answer_decoded I0 Q0 Hamp tr1 low high chars max_len d
              Htr Hlow Hhigh Hc Hb)
    as (pre & d0 & Hsplit & Hq & Hlast).
  eexists. rewrite Hsplit, demod_run_app, (demod_run_quiet pre _ d0 Hq).
  cbn [fst snd app demod_run]. rewrite Hlast.
  split; [reflexivity|]. split; [reflexivity|]. split; [reflexivity|].
  cbn [Demod.output]. rewrite <- (length_map fst chars). apply buf_bytes_store_frame.
Qed.

(** The answer to ATTRIB with the longest SOF and guard times and the
    shortest TR1, in a phase of its own. *)
Lemma demod_answer_round_trip_witness :
  exists d1,
    demod_run (iq_pairs (-12) 9 (timed_answer_bits 5 14 6 [(0, 6%nat); (120, 0%nat); (240, 3%nat)]))
      (Demod14bInit 3 blank_demod)
    = ([d1], d1)
    /\ Demod.state d1 = DEMOD_UNSYNCD
    /\ Demod.len d1 = 3
    /\ buf_bytes 0 (Demod.output d1) 3 = respOK.
Proof.
  apply (demod_answer_round_trip (-12) 9 5 14 6
           [(0, 6%nat); (120, 0%nat); (240, 3%nat)] 3 blank_demod).
  - reflexivity.
  - lia.
  - lia.
  - lia.
  - repeat constructor; cbn; unfold octet; lia.
  - vm_compute. discriminate.
Defined.

(** X2.  Get14443bAnswerFromTag on an answer of the tag (TR1 of 5 to 26
    ETUs, then the frame the tag codes) that fits max_len returns the number
    of its octets, whatever the timeout and whatever follows the EOF on the
    air, and the array it was given holds the octets. *)
Theorem get_answer_round_trip I0 Q0 (tr1 : nat) M rest max_len timeout d :
  AMPLITUDE I0 Q0 > SUBCARRIER_DETECT_THRESHOLD ->
  iq_in_range I0 Q0 ->
  (5 <= tr1 <= 26)%nat -> Forall octet M -> Z.of_nat (length M) <= u16 max_len ->
  exists d1,
    Get14443bAnswerFromTag max_len timeout (ideal_answer I0 Q0 tr1 M rest) d
    = Some (Z.of_nat (length M), d1)
    /\ buf_bytes 0 (Demod.output d1) (length M) = M.
Proof.
  intros Hamp Hr Htr Hoct Hlen.
  destruct (ideal_answer_fits I0 Q0 tr1 M rest max_len timeout d
              Hamp Hr Htr Hoct Hlen) as (d1 & Hget & Hout).
  exists d1. split; [exact Hget|]. rewrite Hout. apply buf_bytes_store_frame.
Qed.

Lemma get_answer_round_trip_witness :
  exists d1,
    Get14443bAnswerFromTag 3 0 (ideal_answer 5 (-30) 5 respOK [mkEvent 0 true]) blank_demod
    = Some (3, d1)
    /\ buf_bytes 0 (Demod.output d1) 3 = respOK.
Proof.
  apply (get_answer_round_trip 5 (-30) 5 respOK [mkEvent 0 true] 3 0 blank_demod).
  - reflexivity.
  - unfold iq_in_range. lia.
  - lia.
  - repeat constructor; unfold octet; lia.
  - vm_compute. discriminate.
Defined.

Lemma receive_hearable I0 Q0 (tr1 : nat) M rest more max_len timeout w :
  air w = ideal_answer I0 Q0 tr1 M rest :: more ->
  hearable I0 Q0 tr1 M -> Z.of_nat (length M) <= u16 max_len ->
  exists d1,
    receive_answer max_len timeout w
    = Some (Z.of_nat (length M),
            mkWorld (pcb_blocknum w) (iso14b_timeout w) (w_uart w) d1
              (w_tosend w) (sent w) more)
    /\ buf_bytes 0 (Demod.output d1) (length M) = M.
Proof.
  intros Hair (Hamp & Hr & Htr & Hoct) Hlen.
  destruct (receive_ideal_answer I0 Q0 tr1 M rest more max_len timeout w
              Hair Hamp Hr Htr Hoct Hlen) as (d1 & Hrec & Hout).
  exists d1. split; [exact Hrec|]. rewrite Hout. apply buf_bytes_store_frame.
Qed.

Section Exchange.

Variable MAX_FRAME_SIZE : Z.
Variable crc14b : list Z -> Z.
Variable check_crc14b : list Z -> Z -> bool.

(** X3.  An exchange of iso14443b_apdu that succeeds.  When the tag
    answers with R, of at least 3 and at most respmaxlen octets with a good
    CRC, the function returns the length of R as a uint8_t (so 0 for 256
    octets), the response buffer holds R, and the one frame sent is
    0x0A | pcb_blocknum, 0x00, the message and the CRC of these. *)
Theorem apdu_round_trip message respmaxlen w I0 Q0 (tr1 : nat) R rest more :
  air w = ideal_answer I0 Q0 tr1 R rest :: more ->
  hearable I0 Q0 tr1 R ->
  3 <= Z.of_nat (length R) <= u16 respmaxlen ->
  check_crc14b R (Z.of_nat (length R)) = true ->
  exists w1,
    iso14443b_apdu crc14b check_crc14b message true respmaxlen w
    = Some (u8 (Z.of_nat (length R)), w1)
    /\ buf_bytes 0 (Demod.output (w_demod w1)) (length R) = R
    /\ sent w1 = sent w ++ [AddCrc14B crc14b
                              ([u8 (Z.lor 10 (pcb_blocknum w)); 0] ++ message ++ [0; 0])
                              (length message + 2)]
    /\ air w1 = more.
Proof.
  intros Hair Hh Hlen Hcrc.
  unfold iso14443b_apdu, bind, get_pcb_blocknum, set_pcb_blocknum,
    CodeAndTransmit14443bAsReader. cbn [negb].
  match goal with
  | |- context [receive_answer ?m ?t ?w0] =>
      destruct (receive_hearable I0 Q0 tr1 R rest more m t w0 Hair Hh)
        as (d1 & Hrec & Hbytes); [lia|rewrite Hrec]
  end.
  unfold response_array. cbn [w_demod]. rewrite Nat2Z.id, Hbytes.
  destruct (Z.ltb_spec (Z.of_nat (length R)) 3); [lia|].
  rewrite Hcrc. cbn [negb]. unfold ret. eexists. split; [reflexivity|].
  cbn [w_demod sent air pcb_blocknum]. repeat split. exact Hbytes.
Qed.


(** X4.  The handshake of iso14443b_select_card.  When the tag answers
    WUPB with 14 octets and ATTRIB with 3, both with a good CRC, the
    selection returns 0: uidlen is 4, the uid starts with ATQB[1..4], the
    descriptor's atqb with ATQB[5..11], cid is the first octet of the answer
    to ATTRIB; the two frames sent are WUPB and
    1D PUPI 00 08 (ATQB[10] & 0x0F) 00 + CRC; pcb_blocknum is 0. *)
Theorem select_card_handshake c w I1 Q1 (t1 : nat) atqb r1 I2 Q2 (t2 : nat) attr r2 more :
  air w = ideal_answer I1 Q1 t1 atqb r1 :: ideal_answer I2 Q2 t2 attr r2 :: more ->
  hearable I1 Q1 t1 atqb -> length atqb = 14%nat -> check_crc14b atqb 14 = true ->
  hearable I2 Q2 t2 attr -> length attr = 3%nat -> check_crc14b attr 3 = true ->
  exists c1 w1,
    iso14443b_select_card MAX_FRAME_SIZE crc14b check_crc14b (Some c) w
    = Some ((0, Some c1), w1)
    /\ Card.uidlen c1 = 4
    /\ Card.uid c1 = array_slice atqb 1 4 ++ skipn 4 (Card.uid c)
    /\ Card.atqb c1 = array_slice atqb 5 7 ++ skipn 7 (Card.atqb c)
    /\ Card.cid c1 = nth 0 attr 0
    /\ Card.chipid c1 = Card.chipid c
    /\ sent w1 = sent w
                 ++ [[5; 0; 8; 57; 115];
                     AddCrc14B crc14b
                       ([29] ++ array_slice atqb 1 4
                        ++ [0; 8; Z.land (nth 10 atqb 0) 15; 0; 0; 0]) 9]
    /\ pcb_blocknum w1 = 0
    /\ air w1 = more.
Proof.
  intros Hair H1 L1 C1 H2 L2 C2.
  unfold iso14443b_select_card, bind, CodeAndTransmit14443bAsReader.
  match goal with
  | |- context [receive_answer ?m ?t ?w0] =>
      destruct (receive_hearable I1 Q1 t1 atqb r1 _ m t w0 Hair H1)
        as (d1 & Hrec & Hbytes); [rewrite L1; vm_compute; discriminate|rewrite Hrec]
  end.
  rewrite L1 in Hbytes |- *. unfold response_array at 1. cbn [w_demod].
  rewrite Hbytes. change (Z.of_nat 14 <? 14) with false. cbv iota.
  change (Z.of_nat 14) with 14. rewrite C1. cbn [negb].
  match goal with
  | |- context [receive_answer ?m ?t ?w0] =>
      destruct (receive_hearable I2 Q2 t2 attr r2 more m t w0 eq_refl H2)
        as (d2 & Hrec2 & Hbytes2); [rewrite L2; vm_compute; discriminate|rewrite Hrec2]
  end.
  rewrite L2 in Hbytes2 |- *. unfold response_array. cbn [w_demod].
  rewrite Hbytes2. change (Z.of_nat 3 <? 3) with false. cbv iota.
  change (Z.of_nat 3) with 3. rewrite C2. cbn [negb].
  unfold select_card_params, bind, set_maxframesize, ret, set_pcb_blocknum.
  match goal with
  | |- context [if ?b then iso14b_set_timeout ?x else _] => destruct b
  end; unfold iso14b_set_timeout; cbn beta iota;
    (do 2 eexists; split; [reflexivity|]);
    cbn [Card.uidlen Card.uid Card.atqb Card.cid Card.chipid sent pcb_blocknum air];
    rewrite <- app_assoc; repeat split.
Qed.

End Exchange.

Lemma apdu_round_trip_witness :
  exists w1,
    iso14443b_apdu crc_x25 check_crc_x25 [0; 164; 4; 0] true 256
      (fresh_world 256 [ideal_answer 20 0 20 respIBlock []])
    = Some (6, w1)
    /\ buf_bytes 0 (Demod.output (w_demod w1)) 6 = respIBlock
    /\ sent w1 = [[10; 0; 0; 164; 4; 0; 87; 213]]
    /\ air w1 = [].
Proof.
  apply (apdu_round_trip crc_x25 check_crc_x25 [0; 164; 4; 0] 256
           (fresh_world 256 [ideal_answer 20 0 20 respIBlock []])
           20 0 20 respIBlock [] []).
  - reflexivity.
  - unfold hearable, iq_in_range. repeat split; try lia.
    repeat constructor; unfold octet; lia.
  - vm_compute. split; discriminate.
  - vm_compute. reflexivity.
Defined.

Lemma select_card_handshake_witness :
  exists c1 w1,
    iso14443b_select_card 256 crc_x25 check_crc_x25 (Some blank_card)
      (fresh_world 256 [ideal_answer 20 0 20 respATQB []; ideal_answer 0 (-33) 8 respOK []])
    = Some ((0, Some c1), w1)
    /\ Card.uidlen c1 = 4
    /\ Card.uid c1 = [130; 13; 225; 116; 0; 0; 0; 0]
    /\ Card.atqb c1 = [32; 56; 25; 34; 0; 33; 133]
    /\ Card.cid c1 = 0
    /\ Card.chipid c1 = 0
    /\ sent w1 = [[5; 0; 8; 57; 115]; [29; 130; 13; 225; 116; 0; 8; 1; 0; 162; 204]]
    /\ pcb_blocknum w1 = 0
    /\ air w1 = [].
Proof.
  apply (select_card_handshake 256 crc_x25 check_crc_x25 blank_card
           (fresh_world 256 [ideal_answer 20 0 20 respATQB [];
                             ideal_answer 0 (-33) 8 respOK []])
           20 0 20 respATQB [] 0 (-33) 8 respOK [] []).
  - reflexivity.
  - unfold hearable, iq_in_range. repeat split; try lia.
    repeat constructor; unfold octet; lia.
  - reflexivity.
  - vm_compute. reflexivity.
  - unfold hearable, iq_in_range. repeat split; try lia.
    repeat constructor; unfold octet; lia.
  - reflexivity.
  - vm_compute. reflexivity.
Defined.

(** ** SRx tags *)

(** A command and its answer: what every exchange of the reader does to
    the world before it looks at the answer. *)
Lemma exchange_returns {B} cmd max_len timeout n (k : Z -> list Z -> M B) w b w2 :
  (CodeAndTransmit14443bAsReader cmd ;;;
   retlen <- receive_answer max_len timeout ;;
   r <- response_array n ;;
   k retlen r) w = Some (b, w2) ->
  exists retlen w1,
    same_session w w1 /\ sent w1 = sent w ++ [cmd]
    /\ k retlen (buf_bytes 0 (Demod.output (w_demod w1)) n) w1 = Some (b, w2).
Proof.
  intros H.
  step H as u wa Ea. apply transmit_session in Ea. destruct Ea as (Sa & Ta & _).
  step H as retlen wb Eb. apply receive_session in Eb. destruct Eb as (Sb & Tb).
  step H as r wc Ec. apply response_array_returns in Ec. destruct Ec as (-> & ->).
  exists retlen, wb. split; [eapply same_session_trans; eassumption|].
  split; [congruence|exact H].
Qed.

(** A receive that has a result stored inside the array and did not return
    -2. *)
Lemma receive_answer_heard max_len timeout w r w1 :
  receive_answer max_len timeout w = Some (r, w1) ->
  exists sc rest,
    air w = sc :: rest /\ air w1 = rest
    /\ Get14443bAnswerFromTag max_len timeout sc (w_demod w) = Some (r, w_demod w1)
    /\ buf_within (u16 max_len) (Demod.output (w_demod w1)) = true.
Proof.
  unfold receive_answer. destruct (air w) as [|sc rest]; [discriminate|].
  destruct (Get14443bAnswerFromTag max_len timeout sc (w_demod w)) as [[r0 d]|] eqn:E;
    [|discriminate].
  destruct (buf_within (u16 max_len) (Demod.output d)) eqn:Ew; [|discriminate].
  intros [= <- <-]. exists sc, rest. cbn.
  split; [reflexivity|]. split; [reflexivity|]. split; [exact E|exact Ew].
Qed.

(** The first exchange of a function of the reader, with what the receive
    loop was given. *)
Lemma exchange_heard {B} cmd max_len timeout n (k : Z -> list Z -> M B) w b w2 :
  (CodeAndTransmit14443bAsReader cmd ;;;
   retlen <- receive_answer max_len timeout ;;
   r <- response_array n ;;
   k retlen r) w = Some (b, w2) ->
  exists sc rest retlen d w1,
    air w = sc :: rest
    /\ Get14443bAnswerFromTag max_len timeout sc (w_demod w) = Some (retlen, d)
    /\ buf_within (u16 max_len) (Demod.output d) = true
    /\ k retlen (buf_bytes 0 (Demod.output d) n) w1 = Some (b, w2).
Proof.
  intros H.
  step H as u wa Ea. unfold CodeAndTransmit14443bAsReader in Ea.
  injection Ea as _ <-.
  step H as retlen wb Eb. apply receive_answer_heard in Eb.
  destruct Eb as (sc & rest & Hair & _ & Hget & Hw). cbn in Hair, Hget.
  step H as r wc Ec. apply response_array_returns in Ec. destruct Ec as (-> & ->).
  exists sc, rest, retlen, (w_demod wb), wb. repeat split; assumption.
Qed.

(** The cells of the array after an answer of any length: the answer, then
    the zeros the array was initialised with. *)
Lemma buf_bytes_answer M n :
  buf_bytes 0 (store_frame 0 M []) n = array_slice M 0 n.
Proof.
  unfold buf_bytes, array_slice. apply map_ext. intros k.
  rewrite buf_get_store_frame.
  destruct (Z.leb_spec 0 (Z.of_nat k)); [|lia]. cbn [andb].
  rewrite Z.sub_0_r, Nat2Z.id.
  destruct (Z.ltb_spec (Z.of_nat k) (0 + Z.of_nat (length M))); [reflexivity|].
  cbn [buf_get]. symmetry. apply nth_overflow. lia.
Qed.

Lemma receive_hearable_cells I0 Q0 (tr1 : nat) M rest more max_len timeout w :
  air w = ideal_answer I0 Q0 tr1 M rest :: more ->
  hearable I0 Q0 tr1 M -> Z.of_nat (length M) <= u16 max_len ->
  exists d1,
    receive_answer max_len timeout w
    = Some (Z.of_nat (length M),
            mkWorld (pcb_blocknum w) (iso14b_timeout w) (w_uart w) d1
              (w_tosend w) (sent w) more)
    /\ forall n, buf_bytes 0 (Demod.output d1) n = array_slice M 0 n.
Proof.
  intros Hair (Hamp & Hr & Htr & Hoct) Hlen.
  destruct (receive_ideal_answer I0 Q0 tr1 M rest more max_len timeout w
              Hair Hamp Hr Htr Hoct Hlen) as (d1 & Hrec & Hout).
  exists d1. split; [exact Hrec|]. intros n. rewrite Hout. apply buf_bytes_answer.
Qed.

Lemma array_slice_whole M : array_slice M 0 (length M) = M.
Proof.
  unfold array_slice. apply nth_ext with (d := nth 0 M 0) (d' := 0).
  - rewrite length_map, length_seq. reflexivity.
  - intros n Hn. rewrite length_map, length_seq in Hn.
    rewrite (map_nth (fun k => nth k M 0)), seq_nth by assumption. reflexivity.
Qed.

Section SRx.

Variable crc14b : list Z -> Z.
Variable check_crc14b : list Z -> Z -> bool.

(** What every return of iso14443b_select_srx_card leaves alone. *)
Lemma select_srx_card_frame card w r card1 w1 :
  iso14443b_select_srx_card crc14b check_crc14b card w = Some ((r, card1), w1) ->
  0 <= r <= 3
  /\ pcb_blocknum w1 = pcb_blocknum w
  /\ iso14b_timeout w1 = iso14b_timeout w
  /\ w_uart w1 = w_uart w
  /\ (card = None -> card1 = None)
  /\ forall c, card = Some c ->
       exists c1, card1 = Some c1
         /\ Card.atqb c1 = Card.atqb c /\ Card.cid c1 = Card.cid c
         /\ (r <> 0 -> Card.uid c1 = Card.uid c /\ Card.uidlen c1 = Card.uidlen c)
         /\ (r = 0 -> Card.uidlen c1 = 8).
Proof.
  unfold iso14443b_select_srx_card. intros H.
  apply exchange_returns in H. destruct H as (len1 & wa & Sa & _ & H).
  assert (Hret : forall x w0 (c0 : option Card.t),
             ret (x, c0) w0 = Some ((r, card1), w1) -> r = x /\ card1 = c0 /\ w1 = w0).
  { intros x w0 c0 E. apply ret_returns in E. destruct E as (E & ->).
    inversion E. repeat split. }
  destruct (len1 <=? 0).
  { apply Hret in H. destruct H as (-> & -> & ->). destruct Sa as (S1 & S2 & S3).
    split; [lia|]. split; [exact S1|]. split; [exact S2|]. split; [exact S3|].
    split; [intros ->; reflexivity|].
    intros c ->. exists c. split; [reflexivity|]. split; [reflexivity|].
    split; [reflexivity|]. split; [intros _; split; reflexivity|discriminate]. }
  apply exchange_returns in H. destruct H as (len2 & wb & Sb & _ & H).
  pose proof (same_session_trans _ _ _ Sa Sb) as Sab.
  assert (Early : forall x w0,
             x <> 0 -> 0 <= x <= 3 -> same_session w w0 ->
             ret (x, match card with
                     | Some c =>
                         Some (Card.mk (Card.uid c) (Card.uidlen c) (Card.atqb c)
                                 (nth 0 (buf_bytes 0 (Demod.output (w_demod wa)) 3) 0)
                                 (Card.cid c))
                     | None => None
                     end) w0 = Some ((r, card1), w1) ->
             0 <= r <= 3
             /\ pcb_blocknum w1 = pcb_blocknum w
             /\ iso14b_timeout w1 = iso14b_timeout w
             /\ w_uart w1 = w_uart w
             /\ (card = None -> card1 = None)
             /\ forall c, card = Some c ->
                  exists c1, card1 = Some c1
                    /\ Card.atqb c1 = Card.atqb c /\ Card.cid c1 = Card.cid c
                    /\ (r <> 0 -> Card.uid c1 = Card.uid c
                                  /\ Card.uidlen c1 = Card.uidlen c)
                    /\ (r = 0 -> Card.uidlen c1 = 8)).
  { intros x w0 Hx Hx3 (S1 & S2 & S3) E. apply Hret in E. destruct E as (-> & -> & ->).
    split; [exact Hx3|]. split; [exact S1|]. split; [exact S2|]. split; [exact S3|].
    split; [intros ->; reflexivity|].
    intros c ->. eexists. split; [reflexivity|]. cbn.
    split; [reflexivity|]. split; [reflexivity|].
    split; [intros _; split; reflexivity|intros E0; contradiction]. }
  destruct (negb (len2 =? 3)); [apply (Early 2 wb); [lia|lia|exact Sab|exact H]|].
  destruct (negb (check_crc14b _ len2)); [apply (Early 3 wb); [lia|lia|exact Sab|exact H]|].
  destruct (negb (_ =? _)); [apply (Early 1 wb); [lia|lia|exact Sab|exact H]|].
  apply exchange_returns in H. destruct H as (len3 & wc & Sc & _ & H).
  pose proof (same_session_trans _ _ _ Sab Sc) as Sabc.
  destruct (negb (len3 =? 10)); [apply (Early 2 wc); [lia|lia|exact Sabc|exact H]|].
  destruct (negb (check_crc14b _ len3)); [apply (Early 3 wc); [lia|lia|exact Sabc|exact H]|].
  apply Hret in H. destruct H as (-> & -> & ->). destruct Sabc as (S1 & S2 & S3).
  split; [lia|]. split; [exact S1|]. split; [exact S2|]. split; [exact S3|].
  split; [intros ->; reflexivity|].
  intros c ->. eexists. split; [reflexivity|]. cbn.
  split; [reflexivity|]. split; [reflexivity|].
  split; [intros E0; contradiction E0; reflexivity|intros _; reflexivity].
Qed.

(** The chip id of the descriptor is written from the first octet of the
    answer to INITIATE as soon as that answer is not empty. *)
Lemma select_srx_card_chipid card w r card1 w1 :
  iso14443b_select_srx_card crc14b check_crc14b card w = Some ((r, card1), w1) ->
  exists sc rest retlen d,
    air w = sc :: rest
    /\ Get14443bAnswerFromTag 3 ISO14443B_READER_TIMEOUT sc (w_demod w)
       = Some (retlen, d)
    /\ buf_within 3 (Demod.output d) = true
    /\ (retlen <= 0 -> r = 2 /\ card1 = card)
    /\ (0 < retlen -> forall c, card = Some c ->
        exists c1, card1 = Some c1
                   /\ Card.chipid c1 = buf_get 0 (Demod.output d) 0).
Proof.
  unfold iso14443b_select_srx_card. intros H.
  apply exchange_heard in H.
  destruct H as (sc & rest & len1 & d & wa & Hair & Hget & Hw & H).
  exists sc, rest, len1, d. split; [exact Hair|]. split; [exact Hget|].
  split; [exact Hw|].
  assert (Hret : forall x w0 (c0 : option Card.t),
             ret (x, c0) w0 = Some ((r, card1), w1) -> r = x /\ card1 = c0).
  { intros x w0 c0 E. apply ret_returns in E. destruct E as (E & _).
    inversion E. split; reflexivity. }
  destruct (Z.leb_spec len1 0) as [Hle|Hgt].
  { apply Hret in H. split; [intros _; exact H|]. intros; lia. }
  split; [intros; lia|]. intros _ c ->.
  change (nth 0 (buf_bytes 0 (Demod.output d) 3) 0)
    with (buf_get 0 (Demod.output d) 0) in H.
  apply exchange_returns in H. destruct H as (len2 & wb & _ & _ & H).
  destruct (negb (len2 =? 3));
    [apply Hret in H; destruct H as (_ & ->); eexists; split; reflexivity|].
  destruct (negb (check_crc14b _ len2));
    [apply Hret in H; destruct H as (_ & ->); eexists; split; reflexivity|].
  destruct (negb (_ =? _));
    [apply Hret in H; destruct H as (_ & ->); eexists; split; reflexivity|].
  apply exchange_returns in H. destruct H as (len3 & wc & _ & _ & H).
  destruct (negb (len3 =? 10));
    [apply Hret in H; destruct H as (_ & ->); eexists; split; reflexivity|].
  destruct (negb (check_crc14b _ len3));
    [apply Hret in H; destruct H as (_ & ->); eexists; split; reflexivity|].
  apply Hret in H. destruct H as (_ & ->). eexists. split; reflexivity.
Qed.

(** X5.  Every return of iso14443b_select_srx_card.  The value is 0, 1, 2
    or 3; pcb_blocknum, iso14b_timeout and the UART are as before the call,
    also on success; of the descriptor, atqb and cid are never written, uid
    and uidlen only on success (uidlen is then 8).  The answer to INITIATE
    was stored inside r_init; when it is empty or missing the value is 2
    and the descriptor untouched; otherwise chipid is its first octet,
    also when a later step fails. *)
Theorem select_srx_card_outcome card w r card1 w1 :
  iso14443b_select_srx_card crc14b check_crc14b card w = Some ((r, card1), w1) ->
  0 <= r <= 3
  /\ pcb_blocknum w1 = pcb_blocknum w
  /\ iso14b_timeout w1 = iso14b_timeout w
  /\ w_uart w1 = w_uart w
  /\ (card = None -> card1 = None)
  /\ (forall c, card = Some c ->
       exists c1, card1 = Some c1
         /\ Card.atqb c1 = Card.atqb c /\ Card.cid c1 = Card.cid c
         /\ (r <> 0 -> Card.uid c1 = Card.uid c /\ Card.uidlen c1 = Card.uidlen c)
         /\ (r = 0 -> Card.uidlen c1 = 8))
  /\ exists sc rest retlen d,
       air w = sc :: rest
       /\ Get14443bAnswerFromTag 3 ISO14443B_READER_TIMEOUT sc (w_demod w)
          = Some (retlen, d)
       /\ buf_within 3 (Demod.output d) = true
       /\ (retlen <= 0 -> r = 2 /\ card1 = card)
       /\ (0 < retlen -> forall c, card = Some c ->
           exists c1, card1 = Some c1
                      /\ Card.chipid c1 = buf_get 0 (Demod.output d) 0).
Proof.
  intros H.
  destruct (select_srx_card_frame _ _ _ _ _ H) as (A1 & A2 & A3 & A4 & A5 & A6).
  split; [exact A1|]. split; [exact A2|]. split; [exact A3|]. split; [exact A4|].
  split; [exact A5|]. split; [exact A6|].
  exact (select_srx_card_chipid _ _ _ _ _ H).
Qed.

Lemma srx_handshake c w I1 Q1 (t1 : nat) a_init r1
    I2 Q2 (t2 : nat) a_select r2 I3 Q3 (t3 : nat) a_uid r3 more :
  air w = ideal_answer I1 Q1 t1 a_init r1 :: ideal_answer I2 Q2 t2 a_select r2
          :: ideal_answer I3 Q3 t3 a_uid r3 :: more ->
  hearable I1 Q1 t1 a_init -> (1 <= length a_init <= 3)%nat ->
  hearable I2 Q2 t2 a_select -> length a_select = 3%nat ->
  check_crc14b a_select 3 = true -> nth 0 a_select 0 = nth 0 a_init 0 ->
  hearable I3 Q3 t3 a_uid -> length a_uid = 10%nat ->
  check_crc14b a_uid 10 = true ->
  exists c1 w1,
    iso14443b_select_srx_card crc14b check_crc14b (Some c) w = Some ((0, Some c1), w1)
    /\ Card.uidlen c1 = 8
    /\ Card.uid c1 = firstn 8 a_uid ++ skipn 8 (Card.uid c)
    /\ Card.chipid c1 = nth 0 a_init 0
    /\ sent w1 = sent w
                 ++ [[6; 0; 151; 91];
                     [14; nth 0 a_init 0;
                      Z.land (crc14b [14; nth 0 a_init 0]) 255;
                      Z.land (Z.shiftr (crc14b [14; nth 0 a_init 0]) 8) 255];
                     [11; Z.land (crc14b [11]) 255;
                      Z.land (Z.shiftr (crc14b [11]) 8) 255]]
    /\ air w1 = more.
Proof.
  intros Hair H1 L1 H2 L2 C2 Echo H3 L3 C3.
  unfold iso14443b_select_srx_card, bind, CodeAndTransmit14443bAsReader.
  match goal with
  | |- context [receive_answer ?m ?t ?w0] =>
      destruct (receive_hearable_cells I1 Q1 t1 a_init r1 _ m t w0 Hair H1)
        as (d1 & Hrec & Hcells);
        [change (u16 3) with 3; lia|rewrite Hrec]
  end.
  unfold response_array at 1. cbn [w_demod]. rewrite Hcells.
  destruct (Z.leb_spec (Z.of_nat (length a_init)) 0); [lia|].
  change (nth 0 (array_slice a_init 0 3) 0) with (nth 0 a_init 0).
  match goal with
  | |- context [receive_answer ?m ?t ?w0] =>
      destruct (receive_hearable_cells I2 Q2 t2 a_select r2 _ m t w0 eq_refl H2)
        as (d2 & Hrec2 & Hcells2);
        [rewrite L2; vm_compute; discriminate|rewrite Hrec2]
  end.
  unfold response_array at 1. cbn [w_demod]. rewrite Hcells2.
  assert (Hs2 : array_slice a_select 0 3 = a_select)
    by (rewrite <- L2; apply array_slice_whole).
  rewrite Hs2, L2.
  change (Z.of_nat 3) with 3. change (negb (3 =? 3)) with false. cbv iota.
  rewrite C2. cbn [negb].
  change (nth 1 (AddCrc14B crc14b (array_blit [ISO14443B_SELECT; 0; 0; 0] 1
                                     [nth 0 a_init 0]) 2) 0)
    with (nth 0 a_init 0).
  rewrite Echo, Z.eqb_refl. cbn [negb].
  match goal with
  | |- context [receive_answer ?m ?t ?w0] =>
      destruct (receive_hearable_cells I3 Q3 t3 a_uid r3 more m t w0 eq_refl H3)
        as (d3 & Hrec3 & Hcells3);
        [rewrite L3; vm_compute; discriminate|rewrite Hrec3]
  end.
  unfold response_array. cbn [w_demod]. rewrite Hcells3.
  assert (Hs3 : array_slice a_uid 0 10 = a_uid)
    by (rewrite <- L3; apply array_slice_whole).
  rewrite Hs3, L3.
  change (Z.of_nat 10) with 10. change (negb (10 =? 10)) with false. cbv iota.
  rewrite C3. cbn [negb]. unfold ret.
  do 2 eexists. split; [reflexivity|].
  cbn [Card.uidlen Card.uid Card.chipid sent air].
  split; [reflexivity|]. split.
  { unfold array_blit. cbn [firstn app Nat.add].
    destruct a_uid as [|u0 [|u1 [|u2 [|u3 [|u4 [|u5 [|u6 [|u7 [|u8 [|u9 [|]]]]]]]]]]];
      try discriminate L3. reflexivity. }
  split; [reflexivity|]. split; [|reflexivity].
  rewrite <- !app_assoc. reflexivity.
Qed.

(** X6.  The handshake of iso14443b_select_srx_card.  When the tag answers
    INITIATE with 1 to 3 octets (their CRC is not looked at), SELECT with 3
    octets with a good CRC that echo the chip id, and GET_UID with 10 octets
    with a good CRC, the selection returns 0 with uidlen 8, the first 8
    octets of the last answer as uid and the chip id in chipid; the frames
    sent are 06 00 97 5B, 0E chipid CRC and 0B CRC. *)
Theorem select_srx_card_handshake c w h_init h_select h_uid more :
  air w = heard_script h_init :: heard_script h_select :: heard_script h_uid :: more ->
  hearable (heard_I h_init) (heard_Q h_init) (heard_tr1 h_init) (heard_frame h_init) ->
  (1 <= length (heard_frame h_init) <= 3)%nat ->
  heard_ok check_crc14b 3 h_select ->
  nth 0 (heard_frame h_select) 0 = nth 0 (heard_frame h_init) 0 ->
  heard_ok check_crc14b 10 h_uid ->
  exists c1 w1,
    iso14443b_select_srx_card crc14b check_crc14b (Some c) w = Some ((0, Some c1), w1)
    /\ Card.uidlen c1 = 8
    /\ Card.uid c1 = firstn 8 (heard_frame h_uid) ++ skipn 8 (Card.uid c)
    /\ Card.chipid c1 = nth 0 (heard_frame h_init) 0
    /\ sent w1 = sent w
                 ++ [[6; 0; 151; 91];
                     AddCrc14B crc14b [14; nth 0 (heard_frame h_init) 0; 0; 0] 2;
                     firstn 3 (AddCrc14B crc14b [11; 0; 0] 1)]
    /\ air w1 = more.
Proof.
  intros Hair Hinit Linit (Hsel & Lsel & Csel) Echo (Huid & Luid & Cuid).
  unfold heard_script in Hair.
  destruct (srx_handshake c w _ _ _ _ _ _ _ _ _ _ _ _ _ _ _ _
              Hair Hinit Linit Hsel Lsel Csel Echo Huid Luid Cuid)
    as (c1 & w1 & H & H1 & H2 & H3 & H4 & H5).
  exists c1, w1. repeat (split; [assumption|]). exact H5.
Qed.

End SRx.

Ltac heard_witness :=
  unfold heard_ok, hearable, iq_in_range;
  cbn [heard_I heard_Q heard_tr1 heard_frame];
  repeat match goal with |- _ /\ _ => split end;
  try lia; try reflexivity;
  repeat constructor; unfold octet; lia.

(** A tag that answers INITIATE with chip id 55 and SELECT with 56: the
    selection fails with 1, the descriptor has the chip id and keeps the
    rest. *)
Lemma select_srx_card_outcome_witness :
  exists card1 w1,
    iso14443b_select_srx_card crc_x25 check_crc_x25 (Some blank_card)
      (fresh_world 256 [ideal_answer 20 0 20 [55; 68; 181] [];
                        ideal_answer 20 0 20 [56; 179; 77] []])
    = Some ((1, card1), w1)
    /\ pcb_blocknum w1 = 0 /\ iso14b_timeout w1 = 35312
    /\ exists c1, card1 = Some c1 /\ Card.chipid c1 = 55
                  /\ Card.uid c1 = [0; 0; 0; 0; 0; 0; 0; 0] /\ Card.uidlen c1 = 0.
Proof.
  destruct (iso14443b_select_srx_card crc_x25 check_crc_x25 (Some blank_card)
              (fresh_world 256 [ideal_answer 20 0 20 [55; 68; 181] [];
                                ideal_answer 20 0 20 [56; 179; 77] []]))
    as [[[r card1] w1]|] eqn:E; [|vm_compute in E; discriminate].
  assert (Hr : r = 1) by (vm_compute in E; inversion E; reflexivity).
  subst r.
  destruct (select_srx_card_outcome crc_x25 check_crc_x25 _ _ _ _ _ E)
    as (_ & Hp & Ht & _ & _ & Hcard & sc & rest & retlen & d & Hair & Hget & _ & _ & Hchip).
  injection Hair as <- _.
  assert (Hd : retlen = 3 /\ buf_get 0 (Demod.output d) 0 = 55)
    by (vm_compute in Hget; injection Hget as <- <-; split; reflexivity).
  destruct Hd as [-> Hd].
  destruct (Hcard blank_card eq_refl) as (c1 & -> & _ & _ & Hkeep & _).
  destruct (Hchip ltac:(lia) blank_card eq_refl) as (c2 & [= <-] & Hc).
  destruct Hkeep as [Hu Hl]; [discriminate|].
  exists (Some c1), w1. split; [reflexivity|].
  rewrite Hp, Ht. split; [reflexivity|]. split; [reflexivity|].
  exists c1. split; [reflexivity|]. split; [rewrite Hc; exact Hd|].
  rewrite Hu, Hl. split; reflexivity.
Defined.

Lemma select_srx_card_handshake_witness :
  exists c1 w1,
    iso14443b_select_srx_card crc_x25 check_crc_x25 (Some blank_card)
      (fresh_world 256 [heard_script (mkHeard 20 0 20 [55; 68; 181] []);
                        heard_script (mkHeard 20 0 20 [55; 68; 181] []);
                        heard_script
                          (mkHeard 20 0 20 [1; 2; 3; 4; 5; 6; 7; 208; 17; 55] [])])
    = Some ((0, Some c1), w1)
    /\ Card.uidlen c1 = 8
    /\ Card.uid c1 = [1; 2; 3; 4; 5; 6; 7; 208]
    /\ Card.chipid c1 = 55
    /\ sent w1 = [[6; 0; 151; 91]; [14; 55; 107; 208]; [11; 171; 78]]
    /\ air w1 = [].
Proof.
  apply (select_srx_card_handshake crc_x25 check_crc_x25 blank_card
           (fresh_world 256
              [heard_script (mkHeard 20 0 20 [55; 68; 181] []);
               heard_script (mkHeard 20 0 20 [55; 68; 181] []);
               heard_script (mkHeard 20 0 20 [1; 2; 3; 4; 5; 6; 7; 208; 17; 55] [])])
           (mkHeard 20 0 20 [55; 68; 181] []) (mkHeard 20 0 20 [55; 68; 181] [])
           (mkHeard 20 0 20 [1; 2; 3; 4; 5; 6; 7; 208; 17; 55] []) []).
  - reflexivity.
  - heard_witness.
  - simpl. lia.
  - heard_witness.
  - reflexivity.
  - heard_witness.
Defined.

(** ** The memory dump of an SRx tag *)

Lemma store_frame_app a : forall b i out,
  store_frame i (a ++ b) out = store_frame (i + Z.of_nat (length a)) b (store_frame i a out).
Proof.
  induction a as [|x r IH]; intros b i out.
  - cbn [app store_frame length]. replace (i + Z.of_nat 0) with i by (simpl; lia).
    reflexivity.
  - cbn [app store_frame length]. rewrite IH. rewrite Nat2Z.inj_succ.
    replace (i + 1 + Z.of_nat (length r)) with (i + Z.succ (Z.of_nat (length r))) by lia.
    reflexivity.
Qed.

Lemma blocks_data_length check blocks :
  Forall (heard_ok check 6) blocks ->
  length (blocks_data blocks) = (4 * length blocks)%nat.
Proof.
  induction 1 as [|h r (_ & L & _) _ IH]; [reflexivity|].
  unfold blocks_data in *. cbn [flat_map length]. rewrite length_app, IH.
  rewrite length_firstn, L. simpl. lia.
Qed.

Lemma array_slice_app_left a b : array_slice (a ++ b) 0 (length a) = a.
Proof.
  transitivity (array_slice a 0 (length a)); [|apply array_slice_whole].
  unfold array_slice. apply map_ext_in. intros k Hk. apply in_seq in Hk.
  apply app_nth1. lia.
Qed.

Section Dump.

Variable MAX_FRAME_SIZE : Z.
Variable crc14b : list Z -> Z.
Variable check_crc14b : list Z -> Z -> bool.

(** ReadSTBlock on an answer of six octets with a good CRC. *)
Lemma read_block_heard blocknr at_ mem w h more :
  air w = heard_script h :: more ->
  heard_ok check_crc14b 6 h ->
  exists w1,
    ReadSTBlock crc14b check_crc14b blocknr (Some at_) mem w
    = Some ((true, store_frame at_ (firstn 4 (heard_frame h)) mem), w1)
    /\ air w1 = more
    /\ sent w1 = sent w ++ [AddCrc14B crc14b [ISO14443B_READ_BLK; u8 blocknr; 0; 0] 2].
Proof.
  intros Hair (Hh & L & C).
  unfold ReadSTBlock, bind, CodeAndTransmit14443bAsReader.
  match goal with
  | |- context [receive_answer ?m ?t ?w0] =>
      destruct (receive_hearable_cells _ _ _ _ _ more m t w0 Hair Hh)
        as (d1 & Hrec & Hcells);
        [rewrite L; vm_compute; discriminate|rewrite Hrec]
  end.
  unfold response_array. cbn [w_demod]. rewrite Hcells.
  assert (Hs : array_slice (heard_frame h) 0 6 = heard_frame h)
    by (rewrite <- L; apply array_slice_whole).
  rewrite Hs, L. change (Z.of_nat 6) with 6 in *.
  change (negb (6 =? 6)) with false. cbv iota. rewrite C. cbn [negb].
  unfold ret. eexists. split; [reflexivity|]. split; reflexivity.
Qed.

(** The read loop over blocks that all answer well: it ends by its
    condition and has stored the data of the blocks in order. *)
Lemma read_blocks_heard blocks : forall fuel i numofblocks mem w more,
  Forall (heard_ok check_crc14b 6) blocks ->
  air w = map heard_script blocks ++ more ->
  0 <= i -> i + Z.of_nat (length blocks) = numofblocks -> numofblocks <= 255 ->
  (length blocks < fuel)%nat ->
  exists w1,
    read_blocks crc14b check_crc14b fuel i numofblocks mem w
    = Some ((true, store_frame (i * 4) (blocks_data blocks) mem), w1)
    /\ air w1 = more.
Proof.
  induction blocks as [|h r IH]; intros fuel i N mem w more Hok Hair Hi HN H255 Hfuel.
  - destruct fuel as [|k]; [simpl in Hfuel; lia|]. cbn [read_blocks].
    cbn [length] in HN. destruct (Z.ltb_spec i N); [lia|].
    exists w. split; [reflexivity|exact Hair].
  - destruct fuel as [|k]; [simpl in Hfuel; lia|]. cbn [read_blocks].
    cbn [length] in HN, Hfuel. rewrite Nat2Z.inj_succ in HN.
    destruct (Z.ltb_spec i N); [|lia].
    inversion Hok as [|h' r' Hh Hr]; subst h' r'.
    destruct (read_block_heard i (i * 4) mem w h (map heard_script r ++ more) Hair Hh)
      as (wa & Hread & Hair1 & _).
    unfold bind at 1. rewrite Hread. cbn [fst snd negb].
    assert (Hu : u8 (i + 1) = i + 1) by (unfold u8; apply Z.mod_small; lia).
    rewrite Hu.
    destruct (IH k (i + 1) N (store_frame (i * 4) (firstn 4 (heard_frame h)) mem)
                wa more Hr Hair1) as (w1 & Hloop & Hair2); try lia.
    exists w1. split; [|exact Hair2]. rewrite Hloop.
    unfold blocks_data. cbn [flat_map]. rewrite store_frame_app.
    destruct Hh as (_ & L & _). rewrite length_firstn, L.
    replace (i * 4 + Z.of_nat (Nat.min 4 6)) with ((i + 1) * 4) by (simpl; lia).
    reflexivity.
Qed.

(** With 256 blocks or more to read the loop counter, an octet, stays below
    the number of blocks: the loop does not end by its condition. *)
Lemma read_blocks_wide fuel : forall i numofblocks mem w ok mem1 w1,
  0 <= i < 256 -> 256 <= numofblocks ->
  read_blocks crc14b check_crc14b fuel i numofblocks mem w = Some ((ok, mem1), w1) ->
  ok = false.
Proof.
  induction fuel as [|k IH]; intros i N mem w ok mem1 w1 Hi HN H; [discriminate|].
  cbn [read_blocks] in H. destruct (Z.ltb_spec i N); [|lia].
  step H as r wa E. destruct (negb (fst r)).
  - apply ret_returns in H. destruct H as (H & _). inversion H. reflexivity.
  - eapply IH; [| |exact H]; [|lia]. unfold u8. apply Z.mod_pos_bound. lia.
Qed.

(** X7.  ReadSTMemoryIso14443b on a tag that answers everything, for
    numofblocks up to 254 and fuel for the read loop: the status is
    PM3_SUCCESS and the length of the reply 4 * (numofblocks + 1); the reply
    is the data of the blocks 0 .. numofblocks in order; the system block
    0xFF is stored in the four cells after the reply, which the reply does
    not include and the allocation of 4 * (numofblocks + 1) bytes does not
    cover. *)
Theorem read_st_memory_dump fuel numofblocks card w h_init h_select h_uid blocks sys more :
  0 <= numofblocks <= 254 ->
  length blocks = Z.to_nat (numofblocks + 1) ->
  (length blocks < fuel)%nat ->
  air w = heard_script h_init :: heard_script h_select :: heard_script h_uid
          :: map heard_script blocks ++ heard_script sys :: more ->
  hearable (heard_I h_init) (heard_Q h_init) (heard_tr1 h_init) (heard_frame h_init) ->
  (1 <= length (heard_frame h_init) <= 3)%nat ->
  heard_ok check_crc14b 3 h_select ->
  nth 0 (heard_frame h_select) 0 = nth 0 (heard_frame h_init) 0 ->
  heard_ok check_crc14b 10 h_uid ->
  Forall (heard_ok check_crc14b 6) blocks ->
  heard_ok check_crc14b 6 sys ->
  exists mem w1,
    ReadSTMemoryIso14443b MAX_FRAME_SIZE crc14b check_crc14b fuel numofblocks card w
    = Some ((PM3_SUCCESS, (numofblocks + 1) * 4, mem), w1)
    /\ buf_bytes 0 mem (4 * length blocks) = blocks_data blocks
    /\ buf_bytes 0 mem (4 * length blocks + 4)
       = blocks_data blocks ++ firstn 4 (heard_frame sys)
    /\ air w1 = more.
Proof.
  intros Hn Hlen Hfuel Hair Hinit Linit (Hsel & Lsel & Csel) Echo (Huid & Luid & Cuid)
    Hblocks Hsys.
  unfold ReadSTMemoryIso14443b.
  assert (Hu : u16 numofblocks = numofblocks) by (unfold u16; apply Z.mod_small; lia).
  assert (Hu1 : u16 (numofblocks + 1) = numofblocks + 1)
    by (unfold u16; apply Z.mod_small; lia).
  rewrite Hu, Hu1. unfold bind at 1. unfold iso14443b_setup at 1.
  cbv beta iota. unfold bind at 1.
  unfold heard_script at 1 2 3 in Hair.
  match goal with
  | |- context [iso14443b_select_srx_card _ _ _ ?w0] =>
      destruct (srx_handshake crc14b check_crc14b card w0 _ _ _ _ _ _ _ _ _ _ _ _ _ _ _ _
                  Hair Hinit Linit Hsel Lsel Csel Echo Huid Luid Cuid)
        as (c1 & wa & Hsrx & _ & _ & _ & _ & Haira)
  end.
  rewrite Hsrx. cbn [fst]. change (0 >? 0) with false. cbv iota.
  destruct (read_blocks_heard blocks fuel 0 (numofblocks + 1) []
              wa (heard_script sys :: more) Hblocks Haira) as (wb & Hloop & Hairb);
    [lia|lia|lia|exact Hfuel|].
  unfold bind at 1. rewrite Hloop. cbn [fst snd].
  pose proof (blocks_data_length check_crc14b blocks Hblocks) as Ldata.
  destruct (read_block_heard 255 ((numofblocks + 1) * 4)
              (store_frame (0 * 4) (blocks_data blocks) []) wb sys more Hairb Hsys)
    as (wc & Hread & Hairc & _).
  unfold bind. rewrite Hread. cbn [fst snd]. unfold ret.
  do 2 eexists. split; [reflexivity|].
  assert (Hmem : store_frame ((numofblocks + 1) * 4) (firstn 4 (heard_frame sys))
                   (store_frame (0 * 4) (blocks_data blocks) [])
                 = store_frame 0 (blocks_data blocks ++ firstn 4 (heard_frame sys)) []).
  { rewrite store_frame_app. rewrite Ldata, Hlen. f_equal. lia. }
  rewrite Hmem. destruct Hsys as (_ & Lsys & _).
  split; [|split; [|exact Hairc]].
  - rewrite buf_bytes_answer. rewrite <- Ldata. apply array_slice_app_left.
  - rewrite buf_bytes_answer.
    replace (4 * length blocks + 4)%nat
      with (length (blocks_data blocks ++ firstn 4 (heard_frame sys)))
      by (rewrite length_app, Ldata, length_firstn, Lsys; simpl; lia).
    apply array_slice_whole.
Qed.

(** X8.  With numofblocks from 255 to 65534 the read loop of
    ReadSTMemoryIso14443b has 256 blocks or more to read and a counter of
    type uint8_t: it ends only when a block fails, so that every call that
    returns reports PM3_ETIMEOUT. *)
Theorem read_st_memory_wide fuel numofblocks card w status len mem w1 :
  255 <= u16 numofblocks < 65535 ->
  ReadSTMemoryIso14443b MAX_FRAME_SIZE crc14b check_crc14b fuel numofblocks card w
  = Some ((status, len, mem), w1) ->
  status = PM3_ETIMEOUT.
Proof.
  intros Hn H. unfold ReadSTMemoryIso14443b in H.
  step H as u wa Ea. step H as res wb Eb.
  destruct (fst res >? 0).
  - apply ret_returns in H. destruct H as (H & _). inversion H. reflexivity.
  - step H as lp wc Ec. step H as sys wd Ed.
    apply ret_returns in H. destruct H as (H & _).
    destruct lp as [ok mem0].
    assert (Hok : ok = false).
    { eapply read_blocks_wide; [| |exact Ec]; [lia|].
      unfold u16 at 1. rewrite Z.mod_small by lia. lia. }
    subst ok. cbn [fst] in H. inversion H. destruct (fst sys); reflexivity.
Qed.

End Dump.

(** A tag with chip id 55 and two blocks: the reply is the eight data bytes,
    the system block lies in the four cells beyond them. *)
Lemma read_st_memory_dump_witness :
  exists mem w1,
    ReadSTMemoryIso14443b 256 crc_x25 check_crc_x25 3 1 blank_card
      (fresh_world 256
         (heard_script (mkHeard 20 0 20 [55; 68; 181] [])
          :: heard_script (mkHeard 20 0 20 [55; 68; 181] [])
          :: heard_script (mkHeard 20 0 20 [1; 2; 3; 4; 5; 6; 7; 208; 17; 55] [])
          :: map heard_script
               [mkHeard 20 0 20 [222; 173; 190; 239; 203; 229] [];
                mkHeard (-9) 9 6 [17; 34; 51; 68; 173; 13] []]
             ++ heard_script (mkHeard 20 0 20 [255; 255; 255; 255; 71; 15] []) :: []))
    = Some ((PM3_SUCCESS, 8, mem), w1)
    /\ buf_bytes 0 mem 8 = [222; 173; 190; 239; 17; 34; 51; 68]
    /\ buf_bytes 0 mem 12 = [222; 173; 190; 239; 17; 34; 51; 68; 255; 255; 255; 255]
    /\ air w1 = [].
Proof.
  apply (read_st_memory_dump 256 crc_x25 check_crc_x25 3 1 blank_card
           (fresh_world 256
              (heard_script (mkHeard 20 0 20 [55; 68; 181] [])
               :: heard_script (mkHeard 20 0 20 [55; 68; 181] [])
               :: heard_script (mkHeard 20 0 20 [1; 2; 3; 4; 5; 6; 7; 208; 17; 55] [])
               :: map heard_script
                    [mkHeard 20 0 20 [222; 173; 190; 239; 203; 229] [];
                     mkHeard (-9) 9 6 [17; 34; 51; 68; 173; 13] []]
                  ++ heard_script (mkHeard 20 0 20 [255; 255; 255; 255; 71; 15] [])
                  :: []))
           (mkHeard 20 0 20 [55; 68; 181] []) (mkHeard 20 0 20 [55; 68; 181] [])
           (mkHeard 20 0 20 [1; 2; 3; 4; 5; 6; 7; 208; 17; 55] [])
           [mkHeard 20 0 20 [222; 173; 190; 239; 203; 229] [];
            mkHeard (-9) 9 6 [17; 34; 51; 68; 173; 13] []]
           (mkHeard 20 0 20 [255; 255; 255; 255; 71; 15] []) []).
  - lia.
  - reflexivity.
  - simpl. lia.
  - reflexivity.
  - heard_witness.
  - simpl. lia.
  - heard_witness.
  - reflexivity.
  - heard_witness.
  - repeat apply Forall_cons; [heard_witness..|apply Forall_nil].
  - heard_witness.
Defined.

(** 256 blocks asked of a tag that is selected and then falls silent. *)
Lemma read_st_memory_wide_witness :
  exists len mem w1,
    ReadSTMemoryIso14443b 256 crc_x25 check_crc_x25 2 255 blank_card
      (fresh_world 256
         [ideal_answer 20 0 20 [55; 68; 181] [];
          ideal_answer 20 0 20 [55; 68; 181] [];
          ideal_answer 20 0 20 [1; 2; 3; 4; 5; 6; 7; 208; 17; 55] [];
          silence 1701; silence 1701])
    = Some ((PM3_ETIMEOUT, len, mem), w1).
Proof.
  assert (Hn : 255 <= u16 255 < 65535) by (vm_compute; split; [discriminate|reflexivity]).
  destruct (ReadSTMemoryIso14443b 256 crc_x25 check_crc_x25 2 255 blank_card
              (fresh_world 256
                 [ideal_answer 20 0 20 [55; 68; 181] [];
                  ideal_answer 20 0 20 [55; 68; 181] [];
                  ideal_answer 20 0 20 [1; 2; 3; 4; 5; 6; 7; 208; 17; 55] [];
                  silence 1701; silence 1701]))
    as [[[[status len] mem] w1]|] eqn:E; [|vm_compute in E; discriminate].
  pose proof (read_st_memory_wide 256 crc_x25 check_crc_x25 2 255 blank_card _ _ _ _ _
                Hn E) as Hs.
  exists len, mem, w1. rewrite Hs. reflexivity.
Defined.

(** ** The frame coded by the simulated tag *)

Lemma packed_send4 x bits ts :
  packed bits ts -> packed (bits ++ etu_samples [c_true x]) (SEND4STUFFBIT x ts).
Proof.
  intros H. unfold SEND4STUFFBIT.
  change (etu_samples [c_true x])
    with ([c_true x] ++ [c_true x] ++ [c_true x] ++ [c_true x]).
  rewrite !app_assoc. repeat apply packed_stuffbit. exact H.
Qed.

Lemma packed_send4_times n x : forall bits ts,
  packed bits ts ->
  packed (bits ++ etu_samples (repeat (c_true x) n)) (send4_times n x ts).
Proof.
  induction n as [|n IH]; intros bits ts H; cbn [send4_times repeat].
  - cbn. rewrite app_nil_r. exact H.
  - change (c_true x :: repeat (c_true x) n) with ([c_true x] ++ repeat (c_true x) n).
    rewrite etu_samples_app, app_assoc. apply IH. apply packed_send4. exact H.
Qed.

Lemma packed_tag_bits n : forall b bits ts,
  octet b -> packed bits ts ->
  packed (bits ++ etu_samples (map (fun j => Z.testbit b (Z.of_nat j)) (seq 0 n)))
    (code_tag_bits n b ts).
Proof.
  induction n as [|n IH]; intros b bits ts Hb H; cbn [code_tag_bits seq map].
  - cbn. rewrite app_nil_r. exact H.
  - assert (Hs : octet (Z.shiftr b 1)).
    { unfold octet in *. rewrite Z.shiftr_div_pow2 by lia. change (2 ^ 1) with 2.
      split; [apply Z.div_pos; lia|apply Z.div_lt_upper_bound; lia]. }
    assert (Hu : u8 (Z.shiftr b 1) = Z.shiftr b 1)
      by (unfold u8; apply Z.mod_small; exact Hs).
    rewrite Hu, <- seq_shift, map_map.
    change (Z.testbit b (Z.of_nat 0)
            :: map (fun j => Z.testbit b (Z.of_nat (S j))) (seq 0 n))
      with ([Z.testbit b 0] ++ map (fun j => Z.testbit b (Z.of_nat (S j))) (seq 0 n)).
    rewrite etu_samples_app, app_assoc.
    replace (map (fun j => Z.testbit b (Z.of_nat (S j))) (seq 0 n))
      with (map (fun j => Z.testbit (Z.shiftr b 1) (Z.of_nat j)) (seq 0 n)).
    + apply IH; [exact Hs|].
      rewrite <- (c_true_bit b 0) by lia. rewrite Z.shiftr_0_r.
      apply packed_send4. exact H.
    + apply map_ext. intros j. rewrite Z.shiftr_spec by lia. f_equal. lia.
Qed.

Lemma packed_tag_octet b bits ts :
  packed bits ts ->
  packed (bits ++ etu_samples (octet_bits (u8 b))) (code_tag_octet ts b).
Proof.
  intros H. unfold code_tag_octet. cbv zeta.
  change (octet_bits (u8 b))
    with ([c_true 0] ++ map (fun j => Z.testbit (u8 b) (Z.of_nat j)) (seq 0 8)
          ++ [c_true 1]).
  rewrite !etu_samples_app, !app_assoc.
  apply packed_send4. apply packed_tag_bits; [apply u8_octet|].
  apply packed_send4. exact H.
Qed.

Lemma packed_tag_octets M : forall bits ts,
  packed bits ts ->
  packed (bits ++ etu_samples (flat_map (fun b => octet_bits (u8 b)) M))
    (fold_left code_tag_octet M ts).
Proof.
  induction M as [|b r IH]; intros bits ts H; cbn [flat_map fold_left].
  - cbn. rewrite app_nil_r. exact H.
  - rewrite etu_samples_app, app_assoc. apply IH. apply packed_tag_octet. exact H.
Qed.

Lemma byte_symbols_length n : forall x, length (byte_symbols n x) = n.
Proof. induction n as [|n IH]; intros x; simpl; [reflexivity|]. rewrite IH. reflexivity. Qed.

Lemma flat_byte_symbols_length init :
  length (flat_map (byte_symbols 8) init) = (8 * length init)%nat.
Proof.
  induction init as [|x r IH]; [reflexivity|].
  cbn [flat_map]. rewrite length_app, byte_symbols_length, IH. simpl. lia.
Qed.

(** A whole number of bytes of stuffbits: ToSend holds them and nothing
    else. *)
Lemma packed_whole bits ts n :
  packed bits ts -> length bits = (8 * n)%nat ->
  tosend_symbols (ToSend.mk (ToSend.max ts + 1) (ToSend.bit ts) (ToSend.buf ts)) = bits
  /\ ToSend.max ts + 1 = Z.of_nat n.
Proof.
  intros H Hlen. destruct H as [|init x pre Hpre Hx Hsym].
  - destruct n; [|simpl in Hlen; lia]. split; reflexivity.
  - rewrite length_app, flat_byte_symbols_length in Hlen.
    assert (Hp : length pre = 8%nat) by lia.
    rewrite Hp, Nat.sub_diag in Hsym. cbn [repeat] in Hsym. rewrite app_nil_r in Hsym.
    unfold tosend_symbols. cbn [ToSend.max ToSend.bit ToSend.buf].
    replace (Z.to_nat (Z.of_nat (length init) + 1)) with (length (init ++ [x]))
      by (rewrite length_app; simpl; lia).
    rewrite firstn_all, flat_map_app. cbn [flat_map]. rewrite app_nil_r, Hsym.
    split; [reflexivity|lia].
Qed.

Lemma etu_samples_length bits : length (etu_samples bits) = (4 * length bits)%nat.
Proof.
  induction bits as [|b r IH]; [reflexivity|].
  change (b :: r) with ([b] ++ r). rewrite etu_samples_app, length_app, IH. simpl. lia.
Qed.

Lemma octets_bits_length M :
  length (flat_map (fun b => octet_bits (u8 b)) M) = (10 * length M)%nat.
Proof.
  induction M as [|b r IH]; [reflexivity|].
  cbn [flat_map]. rewrite length_app, IH. simpl. lia.
Qed.

(** X9.  The frame CodeIso14443bAsTag leaves in ToSend: TR1 of 20 ETUs of
    ones, SOF of 10 zeros and 2 ones, each octet as start bit, eight data
    bits from the least significant and stop bit, EOF of 10 zeros, 2 ones;
    every bit four times, with no padding, in 22 + 5 * len bytes. *)
Theorem tag_frame_symbols M :
  tosend_symbols (CodeIso14443bAsTag M)
  = etu_samples (tag_frame_bits (map u8 M))
  /\ ToSend.max (CodeIso14443bAsTag M) = 22 + 5 * Z.of_nat (length M).
Proof.
  assert (Hp : packed (etu_samples (tag_frame_bits (map u8 M)))
                 (send4_times 2 1 (send4_times 10 0 (fold_left code_tag_octet M
                    (send4_times 2 1 (send4_times 10 0
                       (send4_times 20 1 tosend_reset))))))).
  { unfold tag_frame_bits. rewrite flat_map_concat_map, map_map, <- flat_map_concat_map.
    rewrite !etu_samples_app, !app_assoc.
    apply (packed_send4_times 2 1). apply (packed_send4_times 10 0).
    apply packed_tag_octets.
    apply (packed_send4_times 2 1). apply (packed_send4_times 10 0).
    apply (packed_send4_times 20 1 [] tosend_reset). constructor. }
  destruct (packed_whole _ _ (22 + 5 * length M)%nat Hp) as [Hs Hm].
  - rewrite etu_samples_length. unfold tag_frame_bits.
    rewrite !length_app, !repeat_length.
    rewrite flat_map_concat_map, map_map, <- flat_map_concat_map.
    rewrite octets_bits_length. simpl. lia.
  - unfold CodeIso14443bAsTag. cbv zeta. split; [exact Hs|].
    cbn [ToSend.max]. rewrite Hm. lia.
Qed.

(** ** A command received by the simulated tag *)

Lemma mask_samples_valid b : octet b -> mask_samples b = byte_symbols 8 b.
Proof.
  intros Hb. apply bools_eqb_eq. revert b Hb.
  apply (octet_forall mask_samples_ok). vm_compute. reflexivity.
Qed.

Lemma uart_first_eof_app a : forall b u,
  uart_first_eof (a ++ b) u =
  match uart_first_eof a u with
  | (Some e, u1) => (Some e, u1)
  | (None, u1) => uart_first_eof b u1
  end.
Proof.
  induction a as [|s r IH]; intros b u; cbn [app uart_first_eof]; [reflexivity|].
  destruct (Handle14443bSampleFromReader s u) as [eof u1].
  destruct eof; [reflexivity|apply IH].
Qed.

Lemma uart_first_eof_feed samples : forall u e l,
  fst (uart_feed samples u) = e :: l ->
  fst (uart_first_eof samples u) = Some e.
Proof.
  induction samples as [|s r IH]; intros u e l H; [discriminate|].
  rewrite uart_feed_cons in H. cbn [uart_first_eof].
  destruct (Handle14443bSampleFromReader s u) as [eof u1]. cbn [fst snd] in H.
  destruct eof.
  - inversion H. reflexivity.
  - eapply IH. exact H.
Qed.

(** The mask loop takes the samples of the byte in order and stops at the
    first that completes a frame. *)
Lemma command_samples_first b u :
  command_samples 9 128 b u =
  match uart_first_eof (mask_samples b) u with
  | (Some e, _) => (true, e)
  | (None, u1) => (false, u1)
  end.
Proof.
  unfold mask_samples. cbn [map uart_first_eof command_samples].
  change (128 =? 0) with false. cbv iota.
  destruct (Handle14443bSampleFromReader _ u) as [e7 u7]. destruct e7; [reflexivity|].
  change (u8 (Z.shiftr 128 1)) with 64. change (64 =? 0) with false. cbv iota.
  destruct (Handle14443bSampleFromReader _ u7) as [e6 u6]. destruct e6; [reflexivity|].
  change (u8 (Z.shiftr 64 1)) with 32. change (32 =? 0) with false. cbv iota.
  destruct (Handle14443bSampleFromReader _ u6) as [e5 u5]. destruct e5; [reflexivity|].
  change (u8 (Z.shiftr 32 1)) with 16. change (16 =? 0) with false. cbv iota.
  destruct (Handle14443bSampleFromReader _ u5) as [e4 u4]. destruct e4; [reflexivity|].
  change (u8 (Z.shiftr 16 1)) with 8. change (8 =? 0) with false. cbv iota.
  destruct (Handle14443bSampleFromReader _ u4) as [e3 u3]. destruct e3; [reflexivity|].
  change (u8 (Z.shiftr 8 1)) with 4. change (4 =? 0) with false. cbv iota.
  destruct (Handle14443bSampleFromReader _ u3) as [e2 u2]. destruct e2; [reflexivity|].
  change (u8 (Z.shiftr 4 1)) with 2. change (2 =? 0) with false. cbv iota.
  destruct (Handle14443bSampleFromReader _ u2) as [e1 u1]. destruct e1; [reflexivity|].
  change (u8 (Z.shiftr 2 1)) with 1. change (1 =? 0) with false. cbv iota.
  destruct (Handle14443bSampleFromReader _ u1) as [e0 u0]. destruct e0; [reflexivity|].
  change (u8 (Z.shiftr 1 1)) with 0. reflexivity.
Qed.

Lemma command_loop_first turns : forall len u e,
  Forall (fun t => button t = false) turns ->
  fst (uart_first_eof (flat_map (byte_symbols 8) (turn_bytes turns)) u) = Some e ->
  command_loop turns len u = Some (true, u16 (Uart.byteCnt e), e).
Proof.
  induction turns as [|t r IH]; intros len u e Hb H; [discriminate|].
  inversion Hb as [|t' r' Ht Hr]; subst t' r'.
  cbn [command_loop]. rewrite Ht.
  unfold turn_bytes in H. cbn [flat_map] in H. fold (turn_bytes r) in H.
  destruct (rxrdy t).
  - cbn [app flat_map] in H. rewrite uart_first_eof_app in H.
    rewrite command_samples_first, (mask_samples_valid _ (u8_octet (rhr t))).
    destruct (uart_first_eof (byte_symbols 8 (u8 (rhr t))) u) as [[e1|] u1].
    + cbn [fst] in H. inversion H. reflexivity.
    + apply IH; assumption.
  - cbn [app] in H. apply IH; assumption.
Qed.

(** Unmodulated carrier before the frame. *)
Lemma uart_idle k MAX u0 :
  feeds (repeat true k) (Uart14bInit MAX u0) [] (Uart14bInit MAX u0).
Proof.
  unfold feeds. induction k as [|k IH]; [reflexivity|].
  cbn [repeat]. rewrite uart_feed_cons.
  change (Handle14443bSampleFromReader true (Uart14bInit MAX u0))
    with (false, Uart14bInit MAX u0).
  cbn [fst snd]. rewrite IH. reflexivity.
Qed.

Lemma ssc_turns_unpressed bytes : Forall (fun t => button t = false) (ssc_turns bytes).
Proof. induction bytes as [|b r IH]; constructor; [reflexivity|exact IH]. Qed.

(** X10.  Round trip from the reader's encoder to
    GetIso14443bCommandFromReader.  When the button is not pressed and the
    bytes of the SSC carry, most significant bit first and after any number
    of samples of unmodulated carrier, the frame CodeIso14443bAsReader codes
    for a nonempty M shorter than MAX_FRAME_SIZE, four samples per symbol,
    the function returns true with *len the length of M and M in the
    buffer; the frame need not start on a byte of the SSC. *)
Theorem get_command_round_trip MAX_FRAME_SIZE u0 M turns len idle tail :
  Forall octet M -> M <> [] ->
  Z.of_nat (length M) < MAX_FRAME_SIZE -> MAX_FRAME_SIZE <= 65536 ->
  Forall (fun t => button t = false) turns ->
  flat_map (byte_symbols 8) (turn_bytes turns)
  = repeat true idle ++ etu_samples (tosend_symbols (CodeIso14443bAsReader M)) ++ tail ->
  exists u_eof,
    GetIso14443bCommandFromReader MAX_FRAME_SIZE turns len u0
    = Some (true, Z.of_nat (length M), u_eof)
    /\ buf_bytes 0 (Uart.output u_eof) (length M) = M.
Proof.
  intros Hoct Hne Hlen Hmax Hb Hs.
  destruct (reader_frame_symbols M) as (pad & Hsym).
  destruct (uart_reader_frame MAX_FRAME_SIZE u0 M pad Hoct Hne Hlen) as (u_end & Hframe).
  rewrite <- Hsym in Hframe.
  destruct (uart_feed tail u_end) as [et ut] eqn:Htail.
  pose proof (feeds_app _ _ _ _ _ _ _ Hframe Htail) as F1.
  pose proof (feeds_app _ _ _ _ _ _ _ (uart_idle idle MAX_FRAME_SIZE u0) F1) as F2.
  unfold feeds in F2. rewrite <- Hs in F2. cbn [app] in F2.
  eexists. unfold GetIso14443bCommandFromReader.
  rewrite (command_loop_first turns len _ _ Hb
             (uart_first_eof_feed _ _ _ _ (f_equal fst F2))).
  cbn [Uart.byteCnt Uart.output]. split.
  - unfold u16. rewrite Z.mod_small by lia. reflexivity.
  - apply buf_bytes_store_frame.
Qed.

(** WUPB after three samples of unmodulated carrier: the frame does not
    start on a byte of the SSC. *)
Lemma get_command_round_trip_witness :
  exists u_eof,
    GetIso14443bCommandFromReader 256
      (ssc_turns (ssc_bytes (repeat true 3
                             ++ etu_samples (tosend_symbols (CodeIso14443bAsReader cmdWUPB))
                             ++ repeat true 5)))
      0 blank_uart
    = Some (true, 5, u_eof)
    /\ buf_bytes 0 (Uart.output u_eof) 5 = cmdWUPB.
Proof.
  apply (get_command_round_trip 256 blank_uart cmdWUPB
           (ssc_turns (ssc_bytes (repeat true 3
                                  ++ etu_samples (tosend_symbols
                                                    (CodeIso14443bAsReader cmdWUPB))
                                  ++ repeat true 5)))
           0 3%nat (repeat true 5)).
  - repeat constructor; unfold octet; lia.
  - discriminate.
  - simpl. lia.
  - lia.
  - apply ssc_turns_unpressed.
  - vm_compute. reflexivity.
Defined.

(** ** The simulated tag over a run of commands *)

Lemma sim_run_app a : forall b st,
  sim_run (a ++ b) st
  = (fst (sim_run a st) ++ fst (sim_run b (snd (sim_run a st))),
     snd (sim_run b (snd (sim_run a st)))).
Proof.
  induction a as [|[c l] r IH]; intros b st; cbn [app sim_run].
  - cbn. destruct (sim_run b st). reflexivity.
  - destruct (sim_turn c l st) as [reply st1]. rewrite IH.
    destruct (sim_run r st1) as [rs st2]. reflexivity.
Qed.

(** The state in which the switch is entered when the tag answers OK. *)
Lemma sim_turn_ok cmd len st :
  fst (sim_turn cmd len st) = ReplyOK ->
  st = SIM_HALTING \/ st = SIM_ACKNOWLEDGE.
Proof.
  unfold sim_turn, sim_request_gate.
  destruct (len =? 5); [destruct (_ || _)|]; destruct st; cbn;
    try discriminate; try (intros _; tauto);
    repeat match goal with
           | |- context [if ?c then _ else _] => destruct c
           end; cbn; try discriminate; intros _; tauto.
Qed.

(** The turn that leaves the tag in SIM_ACKNOWLEDGE, and that none leaves
    it in SIM_HALTING. *)
Lemma sim_turn_state cmd len st :
  snd (sim_turn cmd len st) <> SIM_HALTING
  /\ (snd (sim_turn cmd len st) = SIM_ACKNOWLEDGE ->
      st = SIM_WORK /\ len = 11 /\ nth 0 cmd 0 = ISO14443B_ATTRIB).
Proof.
  unfold sim_turn, sim_request_gate.
  destruct (Z.eqb_spec len 5) as [H5|H5].
  - destruct (_ || _); [cbn; split; [discriminate|discriminate]|].
    destruct st; cbn; try (split; [discriminate|discriminate]).
    subst len. cbn. destruct (nth 0 cmd 0 =? ISO14443B_HALT); cbn;
      split; discriminate.
  - destruct st; cbn; try (split; [discriminate|discriminate]).
    destruct ((len =? 7) && (nth 0 cmd 0 =? ISO14443B_HALT)); cbn;
      [split; discriminate|].
    destruct ((len =? 11) && (nth 0 cmd 0 =? ISO14443B_ATTRIB)) eqn:E; cbn;
      [|split; discriminate].
    apply andb_true_iff in E. destruct E as [E1 E2].
    apply Z.eqb_eq in E1, E2. split; [discriminate|]. intros _. repeat split; assumption.
Qed.

(** X11.  When the simulated tag transmits its OK.  From a state other
    than SIM_HALTING and SIM_ACKNOWLEDGE, the turn in which respOK is
    transmitted is the one after an ATTRIB of 11 bytes was received in
    SIM_WORK, and the frame received in that turn is not a REQB/WUPB: the
    answer to ATTRIB waits for the next frame of the reader, and HLTB is
    never answered. *)
Theorem sim_ok_follows_attrib cmds st cmd len :
  st <> SIM_HALTING -> st <> SIM_ACKNOWLEDGE ->
  fst (sim_turn cmd len (snd (sim_run cmds st))) = ReplyOK ->
  exists before attrib,
    cmds = before ++ [(attrib, 11)]
    /\ nth 0 attrib 0 = ISO14443B_ATTRIB
    /\ snd (sim_run before st) = SIM_WORK
    /\ ~ (len = 5 /\ nth 0 cmd 0 = ISO14443B_REQB).
Proof.
  intros Hh Ha Hok. pose proof (sim_turn_ok _ _ _ Hok) as Hst.
  destruct cmds as [|c0 r0] using rev_ind.
  - cbn in Hst. destruct Hst; contradiction.
  - clear IHr0. destruct c0 as [attrib alen].
    rewrite sim_run_app in Hst. cbn [snd sim_run] in Hst.
    destruct (sim_turn attrib alen (snd (sim_run r0 st))) as [rp s1] eqn:E.
    cbn [snd] in Hst.
    pose proof (sim_turn_state attrib alen (snd (sim_run r0 st))) as [Hn Hack].
    rewrite E in Hn, Hack. cbn [snd] in Hn, Hack.
    destruct Hst as [Hst|Hst]; [contradiction|].
    destruct (Hack Hst) as (Hw & Hl & Ht). subst alen.
    exists r0, attrib. split; [reflexivity|]. split; [exact Ht|]. split; [exact Hw|].
    intros [H5 Hreq]. subst len.
    rewrite sim_run_app in Hok. cbn [snd sim_run] in Hok. rewrite E in Hok.
    cbn [snd] in Hok. unfold sim_turn in Hok.
    rewrite (sim_request_gate_reqb cmd s1 Hreq) in Hok. discriminate.
Qed.

(** WUPB, then ATTRIB: the OK is transmitted when the next frame has been
    received. *)
Lemma sim_ok_follows_attrib_witness :
  fst (sim_turn respIBlock 6
         (snd (sim_run [(cmdWUPB, 5);
                        ([29; 130; 13; 225; 116; 0; 8; 1; 0; 162; 204], 11)] SIM_IDLE)))
  = ReplyOK
  /\ exists before attrib,
       [(cmdWUPB, 5); ([29; 130; 13; 225; 116; 0; 8; 1; 0; 162; 204], 11)]
       = before ++ [(attrib, 11)]
       /\ nth 0 attrib 0 = ISO14443B_ATTRIB
       /\ snd (sim_run before SIM_IDLE) = SIM_WORK
       /\ ~ (6 = 5 /\ nth 0 respIBlock 0 = ISO14443B_REQB).
Proof.
  split; [reflexivity|].
  apply (sim_ok_follows_attrib
           [(cmdWUPB, 5); ([29; 130; 13; 225; 116; 0; 8; 1; 0; 162; 204], 11)]
           SIM_IDLE respIBlock 6).
  - discriminate.
  - discriminate.
  - reflexivity.
Defined.

(** ** The sniffer *)

(** The UART signals a frame only with bytes in it; its byte counter does
    not become negative. *)
Lemma uart_step_count bit u :
  0 <= Uart.byteCnt u ->
  0 <= Uart.byteCnt (snd (Handle14443bSampleFromReader bit u))
  /\ (fst (Handle14443bSampleFromReader bit u) = true ->
      0 < Uart.byteCnt (snd (Handle14443bSampleFromReader bit u))).
Proof.
  intros H. unfold_uart_step; split_ifs; cbn; split; try lia; try discriminate.
  all: intros _;
    match goal with
    | E : negb (_ =? 0) = true |- _ =>
        apply negb_true_iff in E; apply Z.eqb_neq in E; cbn in E; lia
    end.
Qed.

Section SnifferProperties.

Variable MAX_FRAME_SIZE : Z.

Lemma sniff_reader_sample_tag bit s :
  tag_is_active (sniff_reader_sample MAX_FRAME_SIZE bit s) = tag_is_active s.
Proof.
  unfold sniff_reader_sample.
  destruct (Handle14443bSampleFromReader (c_true bit) (sn_uart s)) as [eof u1].
  destruct eof; reflexivity.
Qed.

(** While the tag is taken to be sending, an answer is expected and the
    reader is not taken to be sending: kept by every pair. *)
Lemma sniff_pair_flags ci cq s s1 :
  (tag_is_active s = true ->
   expect_tag_answer s = true /\ reader_is_active s = false) ->
  sniff_pair MAX_FRAME_SIZE ci cq s = Some s1 ->
  tag_is_active s1 = true ->
  expect_tag_answer s1 = true /\ reader_is_active s1 = false.
Proof.
  intros Inv. unfold sniff_pair.
  destruct (tag_is_active s) eqn:Et; cbn [negb]; cbv iota zeta.
  - destruct (Inv eq_refl) as [He Hr]. rewrite He, Hr. cbn [negb andb].
    destruct (Handle14443bSamplesFromTag _ _ _) as [eof d1].
    destruct (buf_within MAX_FRAME_SIZE (Demod.output d1)); cbn [negb];
      [|discriminate].
    destruct eof; intros [= <-]; cbn; [discriminate|].
    intros _. split; first [assumption|reflexivity].
  - match goal with
    | |- context [negb (reader_is_active ?x) && expect_tag_answer ?x] =>
        destruct (reader_is_active x) eqn:Er;
        destruct (expect_tag_answer x) eqn:Ee; cbn [negb andb];
        try (intros [= <-]; cbn [tag_is_active];
             rewrite !sniff_reader_sample_tag, Et; discriminate)
    end.
    destruct (Handle14443bSamplesFromTag _ _ _) as [eof d1].
    destruct (buf_within MAX_FRAME_SIZE (Demod.output d1)); cbn [negb];
      [|discriminate].
    destruct eof; intros [= <-];
      cbn [tag_is_active expect_tag_answer reader_is_active];
      [discriminate|].
    intros _. split; first [assumption|reflexivity].
Qed.

(** X12.  The flags of the sniffer.  After any sequence of samples in which
    the demodulator stored inside dm_buf, tag_is_active implies
    expect_tag_answer and not reader_is_active: while the UART is skipped
    because the tag is taken to be sending, the demodulator is fed, so the
    sniffer cannot end with both decoders skipped. *)
Theorem sniff_flags_exclusive evs u d s :
  sniff_loop MAX_FRAME_SIZE evs (sniff_start MAX_FRAME_SIZE u d) = Some s ->
  tag_is_active s = true ->
  expect_tag_answer s = true /\ reader_is_active s = false.
Proof.
  assert (G : forall s0,
             (tag_is_active s0 = true ->
              expect_tag_answer s0 = true /\ reader_is_active s0 = false) ->
             sniff_loop MAX_FRAME_SIZE evs s0 = Some s ->
             tag_is_active s = true ->
             expect_tag_answer s = true /\ reader_is_active s = false).
  { induction evs as [|e r IH]; intros s0 Inv; cbn [sniff_loop].
    - intros [= <-]. exact Inv.
    - destruct (pressed e); [intros [= <-]; exact Inv|].
      destruct (sniff_pair _ _ _ s0) as [s1|] eqn:E; [|discriminate].
      apply IH. eapply sniff_pair_flags; [exact Inv|exact E]. }
  apply G. cbn. discriminate.
Qed.

(** What the trace and the UART keep: every frame of the tag follows a
    frame of the reader, an expected answer has the command it answers on
    top of the trace, and the byte counter of the UART is not negative. *)
Lemma sniff_reader_sample_trace bit s :
  answers_follow (sn_trace s) = true ->
  (expect_tag_answer s = true -> exists bytes r, sn_trace s = (bytes, true) :: r) ->
  0 <= Uart.byteCnt (sn_uart s) ->
  answers_follow (sn_trace (sniff_reader_sample MAX_FRAME_SIZE bit s)) = true
  /\ (expect_tag_answer (sniff_reader_sample MAX_FRAME_SIZE bit s) = true ->
      exists bytes r,
        sn_trace (sniff_reader_sample MAX_FRAME_SIZE bit s) = (bytes, true) :: r)
  /\ 0 <= Uart.byteCnt (sn_uart (sniff_reader_sample MAX_FRAME_SIZE bit s)).
Proof.
  intros Hf He Hc. unfold sniff_reader_sample.
  pose proof (uart_step_count (c_true bit) (sn_uart s) Hc) as [Hc1 Hpos].
  destruct (Handle14443bSampleFromReader (c_true bit) (sn_uart s)) as [eof u1].
  cbn [fst snd] in Hc1, Hpos. destruct eof.
  - specialize (Hpos eq_refl). destruct (Z.gtb_spec (Uart.byteCnt u1) 0); [|lia].
    cbn [sn_trace expect_tag_answer sn_uart answers_follow].
    split; [exact Hf|]. split; [intros _; eauto|]. cbn. lia.
  - cbn [sn_trace expect_tag_answer sn_uart]. split; [exact Hf|]. split; assumption.
Qed.

Lemma sniff_pair_trace ci cq s s2 :
  answers_follow (sn_trace s) = true ->
  (expect_tag_answer s = true -> exists bytes r, sn_trace s = (bytes, true) :: r) ->
  0 <= Uart.byteCnt (sn_uart s) ->
  sniff_pair MAX_FRAME_SIZE ci cq s = Some s2 ->
  answers_follow (sn_trace s2) = true
  /\ (expect_tag_answer s2 = true ->
      exists bytes r, sn_trace s2 = (bytes, true) :: r)
  /\ 0 <= Uart.byteCnt (sn_uart s2).
Proof.
  intros Hf He Hc. unfold sniff_pair.
  set (s1 := if negb (tag_is_active s) then _ else _).
  assert (H1 : answers_follow (sn_trace s1) = true
               /\ (expect_tag_answer s1 = true ->
                   exists bytes r, sn_trace s1 = (bytes, true) :: r)
               /\ 0 <= Uart.byteCnt (sn_uart s1)).
  { subst s1. destruct (negb (tag_is_active s)).
    - cbv zeta. cbn [sn_trace expect_tag_answer sn_uart].
      destruct (sniff_reader_sample_trace (Z.land ci 1) s Hf He Hc) as (A1 & A2 & A3).
      exact (sniff_reader_sample_trace (Z.land cq 1) _ A1 A2 A3).
    - split; [exact Hf|]. split; assumption. }
  clearbody s1. cbv zeta.
  destruct H1 as (Hf1 & He1 & Hc1).
  destruct (negb (reader_is_active s1) && expect_tag_answer s1) eqn:Eb;
    [|intros [= <-]; split; [exact Hf1|split; assumption]].
  apply andb_true_iff in Eb. destruct Eb as [_ Ee].
  destruct (He1 Ee) as (bytes & r & Htr).
  destruct (Handle14443bSamplesFromTag _ _ _) as [eof d1].
  destruct (buf_within MAX_FRAME_SIZE (Demod.output d1)); cbn [negb];
    [|discriminate].
  destruct eof; intros [= <-].
  - cbn [sn_trace expect_tag_answer sn_uart]. split.
    + rewrite Htr. cbn [answers_follow]. rewrite Htr in Hf1. exact Hf1.
    + split; [discriminate|]. cbn. lia.
  - cbn [sn_trace expect_tag_answer sn_uart]. split; [exact Hf1|]. split; assumption.
Qed.

(** X13.  The trace of the sniffer.  After any sequence of samples in which
    the demodulator stored inside dm_buf, every frame of the tag in the
    trace comes right after a frame of the reader: the first frame logged
    is a command, and of two answers without a command between them only
    one is logged. *)
Theorem sniff_trace_alternates evs u d s :
  sniff_loop MAX_FRAME_SIZE evs (sniff_start MAX_FRAME_SIZE u d) = Some s ->
  answers_follow (sn_trace s) = true.
Proof.
  assert (G : forall s0,
             answers_follow (sn_trace s0) = true ->
             (expect_tag_answer s0 = true ->
              exists bytes r, sn_trace s0 = (bytes, true) :: r) ->
             0 <= Uart.byteCnt (sn_uart s0) ->
             sniff_loop MAX_FRAME_SIZE evs s0 = Some s ->
             answers_follow (sn_trace s) = true).
  { induction evs as [|e r IH]; intros s0 Hf He Hc; cbn [sniff_loop].
    - intros [= <-]. exact Hf.
    - destruct (pressed e); [intros [= <-]; exact Hf|].
      destruct (sniff_pair _ _ _ s0) as [s1|] eqn:E; [|discriminate].
      destruct (sniff_pair_trace _ _ s0 s1 Hf He Hc E) as (A1 & A2 & A3).
      apply IH; assumption. }
  apply G; cbn; [reflexivity|discriminate|lia].
Qed.

End SnifferProperties.

(** WUPB from the reader, then the TR1 and the SOF of an answer: the
    sniffer has logged the command and takes the tag to be sending. *)
Lemma sniff_flags_exclusive_witness :
  exists s,
    sniff_loop 256
      (sniff_reader_events (etu_samples (tosend_symbols (CodeIso14443bAsReader cmdWUPB)))
       ++ sniff_tag_events (iq_pairs 20 0 (repeat true 20 ++ repeat false 10 ++ [true])))
      (sniff_start 256 blank_uart blank_demod) = Some s
    /\ tag_is_active s = true
    /\ expect_tag_answer s = true /\ reader_is_active s = false.
Proof.
  eexists. split; [vm_compute; reflexivity|]. split; [reflexivity|].
  apply (sniff_flags_exclusive 256
           (sniff_reader_events
              (etu_samples (tosend_symbols (CodeIso14443bAsReader cmdWUPB)))
            ++ sniff_tag_events
                 (iq_pairs 20 0 (repeat true 20 ++ repeat false 10 ++ [true])))
           blank_uart blank_demod).
  - vm_compute. reflexivity.
  - reflexivity.
Defined.

(** WUPB from the reader, then the answer of a tag with three octets: the
    sniffer logs the command and then the answer. *)
Lemma sniff_trace_alternates_witness :
  exists s,
    sniff_loop 256
      (sniff_reader_events (etu_samples (tosend_symbols (CodeIso14443bAsReader cmdWUPB)))
       ++ sniff_tag_events (iq_pairs 20 0 (tag_answer_bits 10 respOK)))
      (sniff_start 256 blank_uart blank_demod) = Some s
    /\ sn_trace s = [(respOK, false); (cmdWUPB, true)]
    /\ answers_follow (sn_trace s) = true.
Proof.
  eexists. split; [vm_compute; reflexivity|]. split; [reflexivity|].
  apply (sniff_trace_alternates 256
           (sniff_reader_events
              (etu_samples (tosend_symbols (CodeIso14443bAsReader cmdWUPB)))
            ++ sniff_tag_events (iq_pairs 20 0 (tag_answer_bits 10 respOK)))
           blank_uart blank_demod).
  vm_compute. reflexivity.
Defined.

(** ** The timing the UART accepts *)

(** The SOF: 10 or 11 ETUs low, 1 to 6 ETUs high. *)
Lemma uart_sof_timed MAX u0 (low high : nat) :
  (10 <= low <= 11)%nat -> (1 <= high <= 6)%nat ->
  feeds (etu_samples (repeat false low ++ repeat true high)) (Uart14bInit MAX u0) []
    (Uart.mk STATE_14B_AWAITING_START_BIT 0 (Z.of_nat low + 1) 0 MAX
       (4 * Z.of_nat high - 3) []).
Proof.
  intros Hl Hh. unfold feeds.
  assert (L : low = 10%nat \/ low = 11%nat) by lia.
  assert (H : (high = 1 \/ high = 2 \/ high = 3)%nat \/ (high = 4 \/ high = 5 \/ high = 6)%nat)
    by lia.
  destruct L as [->| ->]; destruct H as [[->|[->| ->]]|[->|[->| ->]]];
    reflexivity.
Qed.

(** Guard time after a character. *)
Lemma uart_guard g : forall sr bc byc bcm p out,
  p + 4 * Z.of_nat g <= 25 ->
  feeds (etu_samples (repeat true g))
    (Uart.mk STATE_14B_AWAITING_START_BIT sr bc byc bcm p out) []
    (Uart.mk STATE_14B_AWAITING_START_BIT sr bc byc bcm (p + 4 * Z.of_nat g) out).
Proof.
  induction g as [|g IH]; intros sr bc byc bcm p out Hp.
  - cbn [repeat]. replace (p + 4 * Z.of_nat 0) with p by (simpl; lia). apply feeds_nil.
  - cbn [repeat]. change (@nil Uart.t) with (@nil Uart.t ++ []).
    replace (p + 4 * Z.of_nat (S g)) with (p + 4 + 4 * Z.of_nat g) by lia.
    apply feeds_etu
      with (u1 := Uart.mk STATE_14B_AWAITING_START_BIT sr bc byc bcm (p + 4) out);
      [|apply IH; lia].
    unfold feeds, uart_feed, Handle14443bSampleFromReader.
    cbn [Uart.state]. cbv iota. unfold uart_awaiting_start_bit. cbv zeta.
    cbn [Uart.posCnt Uart.set_posCnt Uart.state Uart.shiftReg Uart.bitCnt
         Uart.byteCnt Uart.byteCntMax Uart.output].
    change (50 / 2) with 25.
    destruct (Z.gtb_spec (p + 1) 25); [lia|].
    cbn [Uart.posCnt Uart.set_posCnt Uart.state Uart.shiftReg Uart.bitCnt
         Uart.byteCnt Uart.byteCntMax Uart.output].
    destruct (Z.gtb_spec (p + 1 + 1) 25); [lia|].
    cbn [Uart.posCnt Uart.set_posCnt Uart.state Uart.shiftReg Uart.bitCnt
         Uart.byteCnt Uart.byteCntMax Uart.output].
    destruct (Z.gtb_spec (p + 1 + 1 + 1) 25); [lia|].
    cbn [Uart.posCnt Uart.set_posCnt Uart.state Uart.shiftReg Uart.bitCnt
         Uart.byteCnt Uart.byteCntMax Uart.output].
    destruct (Z.gtb_spec (p + 1 + 1 + 1 + 1) 25); [lia|].
    replace (p + 1 + 1 + 1 + 1) with (p + 4) by lia. reflexivity.
Qed.

(** The characters of a timed frame. *)
Lemma uart_timed_chars chars : forall u,
  Forall (timed_char 6) chars ->
  Uart.state u = STATE_14B_AWAITING_START_BIT ->
  Uart.byteCnt u + Z.of_nat (length chars) < Uart.byteCntMax u ->
  exists u1,
    feeds (etu_samples
             (flat_map (fun c => octet_bits (fst c) ++ repeat true (snd c)) chars)) u [] u1
    /\ Uart.state u1 = STATE_14B_AWAITING_START_BIT
    /\ Uart.byteCnt u1 = Uart.byteCnt u + Z.of_nat (length chars)
    /\ Uart.byteCntMax u1 = Uart.byteCntMax u
    /\ Uart.output u1 = store_frame (Uart.byteCnt u) (map fst chars) (Uart.output u).
Proof.
  induction chars as [|[b g] r IH]; intros u Hc Hs Hlen.
  - exists u. split; [apply feeds_nil|]. split; [exact Hs|].
    split; [simpl; lia|]. split; reflexivity.
  - inversion Hc as [|c r' [Hb Hg] Hr]; subst c r'. cbn [fst snd] in Hb, Hg.
    cbn [length] in Hlen. rewrite Nat2Z.inj_succ in Hlen.
    pose proof (uart_octet b u Hb Hs ltac:(lia)) as F1.
    pose proof (uart_guard g (octet_shiftreg b) 10 (Uart.byteCnt u + 1)
                  (Uart.byteCntMax u) 1 (buf_store (Uart.byteCnt u) b (Uart.output u))
                  ltac:(lia)) as F2.
    destruct (IH (Uart.mk STATE_14B_AWAITING_START_BIT (octet_shiftreg b) 10
                    (Uart.byteCnt u + 1) (Uart.byteCntMax u) (1 + 4 * Z.of_nat g)
                    (buf_store (Uart.byteCnt u) b (Uart.output u))) Hr eq_refl)
      as (u1 & F3 & S3 & C3 & M3 & O3); [cbn [Uart.byteCnt Uart.byteCntMax]; lia|].
    cbn [Uart.byteCnt Uart.byteCntMax Uart.output] in C3, M3, O3.
    exists u1. split.
    + cbn [flat_map fst snd]. rewrite !etu_samples_app, <- app_assoc.
      change (@nil Uart.t) with (@nil Uart.t ++ ([] ++ [])).
      eapply feeds_app; [exact F1|]. eapply feeds_app; [exact F2|exact F3].
    + split; [exact S3|]. split; [rewrite C3; cbn [length]; lia|].
      split; [exact M3|]. rewrite O3. reflexivity.
Qed.

(** X14.  The timing the UART accepts.  A frame with an SOF of 10 or 11
    ETUs low and 1 to 6 ETUs high, up to 6 ETUs of guard time after each
    character and at least one character, fewer than MAX_FRAME_SIZE, four
    samples per ETU, is received: Handle14443bSampleFromReader returns true
    once, with byteCnt the number of characters and their octets stored. *)
Theorem uart_timing_tolerance MAX_FRAME_SIZE u0 (low high : nat) chars :
  (10 <= low <= 11)%nat -> (1 <= high <= 6)%nat ->
  Forall (timed_char 6) chars -> chars <> [] ->
  Z.of_nat (length chars) < MAX_FRAME_SIZE ->
  exists u_eof u_end,
    uart_feed (etu_samples (timed_frame_bits low high chars))
      (Uart14bInit MAX_FRAME_SIZE u0)
    = ([u_eof], u_end)
    /\ Uart.byteCnt u_eof = Z.of_nat (length chars)
    /\ buf_bytes 0 (Uart.output u_eof) (length chars) = map fst chars.
Proof.
  intros Hl Hh Hc Hne Hlen.
  pose proof (uart_sof_timed MAX_FRAME_SIZE u0 low high Hl Hh) as F1.
  destruct (uart_timed_chars chars
              (Uart.mk STATE_14B_AWAITING_START_BIT 0 (Z.of_nat low + 1) 0 MAX_FRAME_SIZE
                 (4 * Z.of_nat high - 3) []) Hc eq_refl)
    as (u1 & F2 & S2 & C2 & M2 & O2); [cbn [Uart.byteCnt Uart.byteCntMax]; lia|].
  cbn [Uart.byteCnt Uart.byteCntMax Uart.output] in C2, M2, O2.
  assert (Hpos : 0 < Uart.byteCnt u1).
  { rewrite C2. destruct chars; [contradiction|]. cbn [length]. lia. }
  pose proof (uart_eof u1 S2 Hpos) as F3.
  do 2 eexists. split.
  - unfold timed_frame_bits. rewrite app_assoc.
    rewrite (etu_samples_app (repeat false low ++ repeat true high)).
    rewrite (etu_samples_app (flat_map _ chars)).
    exact (feeds_app _ _ _ _ _ _ _ F1 (feeds_app _ _ _ _ _ _ _ F2 F3)).
  - cbn [Uart.byteCnt Uart.output]. split; [exact C2|].
    rewrite O2. cbn [Z.add]. rewrite <- (length_map fst chars).
    apply buf_bytes_store_frame.
Qed.

(** WUPB with the longest SOF and with guard times of up to 6 ETUs. *)
Lemma uart_timing_tolerance_witness :
  exists u_eof u_end,
    uart_feed
      (etu_samples (timed_frame_bits 11 6
                      [(5, 0%nat); (0, 6%nat); (8, 2%nat); (57, 1%nat); (115, 0%nat)]))
      (Uart14bInit 256 blank_uart)
    = ([u_eof], u_end)
    /\ Uart.byteCnt u_eof = 5
    /\ buf_bytes 0 (Uart.output u_eof) 5 = cmdWUPB.
Proof.
  apply (uart_timing_tolerance 256 blank_uart 11 6
           [(5, 0%nat); (0, 6%nat); (8, 2%nat); (57, 1%nat); (115, 0%nat)]).
  - lia.
  - lia.
  - repeat constructor; cbn; unfold octet; lia.
  - discriminate.
  - simpl. lia.
Defined.

(** ** The time of a transmission *)







